(** * Bulwk daemon: intent execution engine

  A shallow embedding of the parts of the daemon that decide how signed
  intents are executed:

  - [UniswapMath]: the fixed-point liquidity mathematics
    (uniswap-math.js: getSqrtRatioAtTick, getLiquidityForAmounts,
    getAmountsForLiquidity);
  - [IntentVerifier]: the policy gate (intent-verifier.js: validatePolicy);
  - [DaemonController]: the position tracker, the REBALANCE escalation
    ladder and the intent queue (daemon-controller.js: executeIntent,
    processIntentQueue);
  - [GracePeriodMonitor]: the Shadow harvesting monitor
    (grace-period-monitor.js).
  - [PositionSizing], [TierConfig]: the sizing of a new position
    (uniswap-math.js: calculateOptimalAmounts) and the tier preferences
    (daemon-config.js);
  - [IntentIntake], [ActivityLog], [RpcFallback], [DaemonConfig]: the
    intake of signed intents, the activity log, the choice of an RPC
    endpoint and the configuration (daemon-controller.js: pollForIntents,
    log, getProviderWithFallback, updateConfig);
  - [PlatformEventStream]: the event queue and the reconnection timer
    (platform-event-stream.js).

  JavaScript BigInt values are integers [Z]; a JavaScript exception is the
  [Throw] branch of [result], carrying the message of the Error. *)

From Stdlib Require Import ZArith Lia List String QArith.
From stdpp Require Import gmap pretty.

Import ListNotations.
Local Open Scope string_scope.
Local Open Scope Z_scope.

(** ** JavaScript values and exceptions *)

Module JS.

(** The outcome of evaluating an expression that may throw. *)
Inductive result (A : Type) : Type :=
| Ok (a : A)
| Throw (message : string).
Arguments Ok {A} a.
Arguments Throw {A} message.

Definition bind {A B} (r : result A) (k : A -> result B) : result B :=
  match r with
  | Ok a => k a
  | Throw m => Throw m
  end.

(** BigInt division: truncates toward zero, a zero divisor is a RangeError. *)
Definition bigint_div (a b : Z) : result Z :=
  if b =? 0 then Throw "Division by zero" else Ok (Z.quot a b).

(** [s.includes(sub)] *)
Definition includes (s sub : string) : bool :=
  match String.index 0 sub s with
  | Some _ => true
  | None => false
  end.

(** Truthiness of an optional number: undefined, null and 0 are falsy. *)
Definition truthyZ (o : option Z) : bool :=
  match o with
  | Some z => negb (z =? 0)
  | None => false
  end.

End JS.

Export JS.

#[export] Instance result_ret : MRet result := fun A a => Ok a.
#[export] Instance result_bind : MBind result := fun A B k r => JS.bind r k.

(** ** uniswap-math.js *)

Module UniswapMath.

Definition Q96 : Z := 2 ^ 96.
Definition ZERO : Z := 0.

Definition MAX_TICK : Z := 887272.

(** One line of the bit decomposition:
    [if (absTick & mask) ratio = (ratio * factor) >> 128n]. *)
Definition mulShift (absTick mask factor ratio : Z) : Z :=
  if Z.land absTick mask =? 0 then ratio
  else Z.shiftr (ratio * factor) 128.

Definition getSqrtRatioAtTick (tick : Z) : result Z :=
  let absTick := Z.abs tick in
  if absTick >? 887272 then Throw "Tick out of bounds" else
  let ratio :=
    if Z.land absTick 0x1 =? 0
    then 0x100000000000000000000000000000000
    else 0xfffcb933bd6fad37aa2d162d1a594001 in
  let ratio := mulShift absTick 0x2 0xfff97272373d413259a46990580e213a ratio in
  let ratio := mulShift absTick 0x4 0xfff2e50f5f656932ef12357cf3c7fdcc ratio in
  let ratio := mulShift absTick 0x8 0xffe5caca7e10e4e61c3624eaa0941cd0 ratio in
  let ratio := mulShift absTick 0x10 0xffcb9843d60f6159c9db58835c926644 ratio in
  let ratio := mulShift absTick 0x20 0xff973b41fa98c081472e6896dfb254c0 ratio in
  let ratio := mulShift absTick 0x40 0xff2ea16466c96a3843ec78b326b52861 ratio in
  let ratio := mulShift absTick 0x80 0xfe5dee046a99a2a811c461f1969c3053 ratio in
  let ratio := mulShift absTick 0x100 0xfcbe86c7900a88aedcffc83b479aa3a4 ratio in
  let ratio := mulShift absTick 0x200 0xf987a7253ac413176f2b074cf7815e54 ratio in
  let ratio := mulShift absTick 0x400 0xf3392b0822b70005940c7a398e4b70f3 ratio in
  let ratio := mulShift absTick 0x800 0xe7159475a2c29b7443b29c7fa6e889d9 ratio in
  let ratio := mulShift absTick 0x1000 0xd097f3bdfd2022b8845ad8f792aa5825 ratio in
  let ratio := mulShift absTick 0x2000 0xa9f746462d870fdf8a65dc1f90e061e5 ratio in
  let ratio := mulShift absTick 0x4000 0x70d869a156d2a1b890bb3df62baf32f7 ratio in
  let ratio := mulShift absTick 0x8000 0x31be135f97d08fd981231505542fcfa6 ratio in
  let ratio := mulShift absTick 0x10000 0x9aa508b5b7a84e1c677de54f3e99bc9 ratio in
  let ratio := mulShift absTick 0x20000 0x5d6af8dedb81196699c329225ee604 ratio in
  let ratio := mulShift absTick 0x40000 0x2216e584f5fa1ea926041bedfe98 ratio in
  let ratio := mulShift absTick 0x80000 0x48a170391f7dc42444e8fa2 ratio in
  ratio ← (if tick >? 0 then bigint_div (2 ^ 256 - 1) ratio else Ok ratio);
  Ok (Z.shiftr ratio 32).

(** The swap [[a, b] = [b, a]] performed when [a > b]. *)
Definition ordered (a b : Z) : Z * Z :=
  if a >? b then (b, a) else (a, b).

Definition getLiquidity0 (sqrtRatioAX96 sqrtRatioBX96 amount0 : Z) : result Z :=
  let '(sqrtRatioAX96, sqrtRatioBX96) := ordered sqrtRatioAX96 sqrtRatioBX96 in
  bigint_div (amount0 * sqrtRatioBX96 * sqrtRatioAX96)
             (Q96 * (sqrtRatioBX96 - sqrtRatioAX96)).

Definition getLiquidity1 (sqrtRatioAX96 sqrtRatioBX96 amount1 : Z) : result Z :=
  let '(sqrtRatioAX96, sqrtRatioBX96) := ordered sqrtRatioAX96 sqrtRatioBX96 in
  bigint_div (amount1 * Q96) (sqrtRatioBX96 - sqrtRatioAX96).

Definition getLiquidityForAmounts
    (sqrtPriceX96 sqrtRatioAX96 sqrtRatioBX96 amount0 amount1 : Z) : result Z :=
  let '(sqrtRatioAX96, sqrtRatioBX96) := ordered sqrtRatioAX96 sqrtRatioBX96 in
  if sqrtPriceX96 <=? sqrtRatioAX96 then
    getLiquidity0 sqrtRatioAX96 sqrtRatioBX96 amount0
  else if sqrtPriceX96 >=? sqrtRatioBX96 then
    getLiquidity1 sqrtRatioAX96 sqrtRatioBX96 amount1
  else
    if amount0 =? 0 then getLiquidity1 sqrtRatioAX96 sqrtPriceX96 amount1
    else if amount1 =? 0 then getLiquidity0 sqrtPriceX96 sqrtRatioBX96 amount0
    else
      liquidity0 ← getLiquidity0 sqrtPriceX96 sqrtRatioBX96 amount0;
      liquidity1 ← getLiquidity1 sqrtRatioAX96 sqrtPriceX96 amount1;
      Ok (if liquidity0 <? liquidity1 then liquidity0 else liquidity1).

Definition getAmount0ForLiquidity (sqrtRatioAX96 sqrtRatioBX96 liquidity : Z) : result Z :=
  let '(sqrtRatioAX96, sqrtRatioBX96) := ordered sqrtRatioAX96 sqrtRatioBX96 in
  bigint_div (liquidity * Q96 * (sqrtRatioBX96 - sqrtRatioAX96))
             (sqrtRatioBX96 * sqrtRatioAX96).

Definition getAmount1ForLiquidity (sqrtRatioAX96 sqrtRatioBX96 liquidity : Z) : result Z :=
  let '(sqrtRatioAX96, sqrtRatioBX96) := ordered sqrtRatioAX96 sqrtRatioBX96 in
  bigint_div (liquidity * (sqrtRatioBX96 - sqrtRatioAX96)) Q96.

Record Amounts := { amount0 : Z; amount1 : Z }.

Definition getAmountsForLiquidity
    (sqrtPriceX96 sqrtRatioAX96 sqrtRatioBX96 liquidity : Z) : result Amounts :=
  let '(sqrtRatioAX96, sqrtRatioBX96) := ordered sqrtRatioAX96 sqrtRatioBX96 in
  if sqrtPriceX96 <=? sqrtRatioAX96 then
    a0 ← getAmount0ForLiquidity sqrtRatioAX96 sqrtRatioBX96 liquidity;
    Ok {| amount0 := a0; amount1 := 0 |}
  else if sqrtPriceX96 >=? sqrtRatioBX96 then
    a1 ← getAmount1ForLiquidity sqrtRatioAX96 sqrtRatioBX96 liquidity;
    Ok {| amount0 := 0; amount1 := a1 |}
  else
    a0 ← getAmount0ForLiquidity sqrtPriceX96 sqrtRatioBX96 liquidity;
    a1 ← getAmount1ForLiquidity sqrtRatioAX96 sqrtPriceX96 liquidity;
    Ok {| amount0 := a0; amount1 := a1 |}.

(** [getAmountsForLiquidity] followed by [getLiquidityForAmounts] on the
    derived amounts, at the same three square-root prices. *)
Definition roundTrip (sqrtPriceX96 sqrtRatioAX96 sqrtRatioBX96 liquidity : Z) : result Z :=
  amounts ← getAmountsForLiquidity sqrtPriceX96 sqrtRatioAX96 sqrtRatioBX96 liquidity;
  getLiquidityForAmounts sqrtPriceX96 sqrtRatioAX96 sqrtRatioBX96
                         (amount0 amounts) (amount1 amounts).

(** The liquidity that one base unit of token0 (resp. token1) stands for
    over a price interval, rounded up: what truncating an amount to an
    integer can lose. *)
Definition unitLiquidity0 (lo hi : Z) : Z := Z.quot (hi * lo) (Q96 * (hi - lo)) + 1.
Definition unitLiquidity1 (lo hi : Z) : Z := Z.quot Q96 (hi - lo) + 1.

Definition truncationTolerance (sqrtPriceX96 sqrtRatioAX96 sqrtRatioBX96 : Z) : Z :=
  if sqrtPriceX96 <=? sqrtRatioAX96 then unitLiquidity0 sqrtRatioAX96 sqrtRatioBX96
  else if sqrtPriceX96 >=? sqrtRatioBX96 then unitLiquidity1 sqrtRatioAX96 sqrtRatioBX96
  else Z.max (unitLiquidity0 sqrtPriceX96 sqrtRatioBX96)
             (unitLiquidity1 sqrtRatioAX96 sqrtPriceX96).

End UniswapMath.


(** ** daemon-controller.js: position tracker, REBALANCE ladder, intent queue *)

Module DaemonController.

(** *** Data *)

Inductive Action :=
| DEPLOY | REBALANCE | BATCH_WITHDRAW | IDLE_SWEEP
| COLLECT_FEES | SWAP_TOKENS | LOGIC_PURCHASE.

Definition isRebalance (a : Action) : bool :=
  match a with REBALANCE => true | _ => false end.

Record Recipe := { tokenId : Z; fromTier : option string }.

Record Intent := { intentId : string; action : Action; recipe : Recipe }.

(** What [nfpm.positions(tokenId)] returns, as far as the engine reads it. *)
Record Position := { liquidity : Z; tickLower : Z; tickUpper : Z }.

(** One entry of the bundle built by the platform. [label] is
    [transaction.label]; a missing label is printed as [TX<i+1>]. *)
Record Transaction := { label : option string }.

Definition isClosePosition (t : Transaction) : bool :=
  match label t with
  | Some l => String.eqb l "CLOSE_POSITION"
  | None => false
  end.

(** The body of a successful [/api/build-transaction] response.
    [transactions = None] stands for a missing or non-array field. *)
Record BuildResponse := {
  transactions : option (list Transaction);
  needsSwap : bool;
  imbalanceData : bool   (* truthiness of txData.imbalanceData *)
}.

Inductive Status := completed | skipped | partial | failed.

(** The [reason] / [error] text of a receipt, by the template that
    produces it. *)
Inductive Reason :=
| AlreadyProcessing (tokenId : Z)  (* Position N already being processed by another intent *)
| AlreadyClosed (tokenId : Z)      (* Position N already closed/burned *)
| NotOwned (tokenId : Z)           (* Position N no longer owned by user *)
| DecodeFailed (tokenId : Z)       (* Position N decode failed - position may have been burned *)
| ZeroLiquidity (tokenId : Z)      (* Position N has zero liquidity - position was burned *)
| DoesNotExist (tokenId : Z)       (* Position N does not exist *)
| AlreadyInRange (tick : Z)        (* Position already in range at tick T *)
| TierDisabled (tier : string)     (* TIER tier is disabled in user preferences *)
| DriftedInRange (tick : Z)        (* Position drifted back in-range at tick T *)
| DriftedAfterTx (i : nat) (tick : Z) (* Position drifted in-range after TXi (tick T) *)
| ErrorMessage (message : string)  (* error: the message of the caught Error *)
| NoReason.

(** The object handed to [reportReceiptWithRetry]. *)
Record Receipt := {
  status : Status;
  reason : Reason;
  completedTxs : option nat;
  attemptsExhausted : option nat;
  attempts : option nat;
  txHashes : list string;
  swapSlippageUsed : option Z
}.

Definition receipt (s : Status) (r : Reason) : Receipt :=
  {| status := s; reason := r; completedTxs := None; attemptsExhausted := None;
     attempts := None; txHashes := []; swapSlippageUsed := None |}.

(** [reportReceipt] rewrites a completed receipt without a transaction
    hash into a failed one before posting it. *)
Definition postedStatus (r : Receipt) : Status :=
  match status r with
  | completed =>
      match txHashes r with
      | h :: _ => if String.eqb h "" then failed else completed
      | [] => failed
      end
  | s => s
  end.

(** The value [executeIntent] resolves to. *)
Record ReturnValue := {
  success : bool;
  isSkipped : bool;
  isPartial : bool;
  returnedCompletedTxs : option nat
}.

Definition returnSkipped : ReturnValue :=
  {| success := false; isSkipped := true; isPartial := false; returnedCompletedTxs := None |}.
Definition returnPartial (n : nat) : ReturnValue :=
  {| success := false; isSkipped := false; isPartial := true; returnedCompletedTxs := Some n |}.
Definition returnFailure : ReturnValue :=
  {| success := false; isSkipped := false; isPartial := false; returnedCompletedTxs := None |}.
Definition returnSuccess : ReturnValue :=
  {| success := true; isSkipped := false; isPartial := false; returnedCompletedTxs := None |}.

(** A transaction handed to the chain. *)
Inductive ChainTx :=
| ApproveNFPM                                   (* ensureTokenApprovals *)
| BundleTx (tierIndex i : nat) (t : Transaction) (* transactions[i] *)
| ApproveOdos (tierIndex : nat)
| SwapTx (tierIndex : nat) (swapSlippageBps : Z).

Inductive Event :=
| AttemptStarted (tierIndex : nat) (swapSlippageBps : Z)
| Submitted (tx : ChainTx)
| Reported (r : Receipt).

(** *** The outside world

    What the chain, the platform and the swap aggregator answer. Every
    request is identified by the place of the run that issues it; a run
    passes each place at most once, so any sequence of answers is one such
    oracle. *)

Inductive TxOutcome :=
| SendThrows (message : string)                (* submission rejects *)
| WaitThrows (hash : string) (message : string) (* sent, [tx.wait()] rejects *)
| Mined (hash : string) (receiptStatus : Z).

Inductive ReadPoint :=
| AtValidation                       (* lines 1345, 1389 *)
| AtStart                            (* lines 1681, 1687 *)
| AtAttempt (tierIndex : nat)        (* line 1719 *)
| BeforeTx (tierIndex i : nat).      (* line 1797 *)

Record World := {
  (* getConfig / getNetworks / provider and wallet set-up of the given
     attempt: the message of the error thrown there, if any *)
  setup : nat -> option string;
  walletAddress : Z;
  ownerOf : result Z;
  positions : ReadPoint -> result Position;
  poolTick : ReadPoint -> result Z;
  (* ensureTokenApprovals: approvals sent, then the error thrown, if any *)
  tokenApprovals : nat * option string;
  poolFee : result Z;
  tierEnabled : string -> bool;
  buildTransaction : nat -> result BuildResponse;
  sendTx : nat -> nat -> TxOutcome;
  (* Odos: balance read, quote, assemble, validation of the call data *)
  odosAssemble : nat -> result unit;
  odosAllowanceSufficient : nat -> result bool;
  odosApprove : nat -> TxOutcome;
  sendSwap : nat -> TxOutcome;
  (* the procedures of the other actions, which never touch the tracker *)
  otherAction : Intent -> list Event * result ReturnValue
}.

(** *** State and control flow *)

Record State := {
  activePositions : gset Z;
  closedPositions : gset Z;
  events : list Event;
  (* locals of executeIntent that outlive one attempt of the ladder *)
  positionClosed : bool;
  initialData : option BuildResponse
}.

Definition setActive (f : gset Z -> gset Z) (s : State) : State :=
  {| activePositions := f (activePositions s); closedPositions := closedPositions s;
     events := events s; positionClosed := positionClosed s;
     initialData := initialData s |}.
Definition setClosed (f : gset Z -> gset Z) (s : State) : State :=
  {| activePositions := activePositions s; closedPositions := f (closedPositions s);
     events := events s; positionClosed := positionClosed s;
     initialData := initialData s |}.
Definition addEvent (e : Event) (s : State) : State :=
  {| activePositions := activePositions s; closedPositions := closedPositions s;
     events := (events s ++ [e])%list; positionClosed := positionClosed s;
     initialData := initialData s |}.
Definition setPositionClosed (b : bool) (s : State) : State :=
  {| activePositions := activePositions s; closedPositions := closedPositions s;
     events := events s; positionClosed := b; initialData := initialData s |}.
Definition setInitialData (d : option BuildResponse) (s : State) : State :=
  {| activePositions := activePositions s; closedPositions := closedPositions s;
     events := events s; positionClosed := positionClosed s; initialData := d |}.

(** How a statement ends: normally, by [return v], or by [throw]. *)
Inductive Flow (A : Type) : Type :=
| Next (a : A)
| Return (v : ReturnValue)
| Raise (message : string).
Arguments Next {A} a.
Arguments Return {A} v.
Arguments Raise {A} message.

Definition M (A : Type) : Type := State -> Flow A * State.

Definition ret {A} (a : A) : M A := fun s => (Next a, s).
Definition bind {A B} (m : M A) (k : A -> M B) : M B :=
  fun s =>
    match m s with
    | (Next a, s') => k a s'
    | (Return v, s') => (Return v, s')
    | (Raise e, s') => (Raise e, s')
    end.
Definition return_ {A} (v : ReturnValue) : M A := fun s => (Return v, s).
Definition raise {A} (message : string) : M A := fun s => (Raise message, s).
Definition tryCatch {A} (m : M A) (handler : string -> M A) : M A :=
  fun s =>
    match m s with
    | (Raise e, s') => handler e s'
    | r => r
    end.
Definition lift {A} (r : result A) : M A :=
  match r with
  | Ok a => ret a
  | Throw e => raise e
  end.
Definition get : M State := fun s => (Next s, s).
Definition modify (f : State -> State) : M unit := fun s => (Next tt, f s).

#[export] Instance M_ret : MRet M := @ret.
#[export] Instance M_bind : MBind M := fun A B k m => bind m k.

(** Leaving a function: [return v] becomes the value of the call. *)
Definition call (m : M ReturnValue) : M ReturnValue :=
  fun s =>
    match m s with
    | (Return v, s') => (Next v, s')
    | r => r
    end.

Definition emit (e : Event) : M unit := modify (addEvent e).

(** [await this.reportReceiptWithRetry(intent.intentId, r)]; it never throws. *)
Definition reportReceiptWithRetry (r : Receipt) : M unit := emit (Reported r).

(** Submission of one transaction and the wait for its receipt.
    [revertMessage] is thrown when the receipt has status 0; [None] where
    the source does not look at the status. *)
Definition submitAndWait (tx : ChainTx) (o : TxOutcome) (revertMessage : option string)
  : M string :=
  emit (Submitted tx);;
  match o with
  | SendThrows e => raise e
  | WaitThrows _ e => raise e
  | Mined hash receiptStatus =>
      match revertMessage with
      | Some e => if receiptStatus =? 0 then raise e else ret hash
      | None => ret hash
      end
  end.

(** *** executeIntent *)

Definition MAX_RETRIES : nat := 2.
Definition SWAP_SLIPPAGE_TIERS : list Z := [20; 50; 100; 200; 500].

Definition inRange (tick tickLower tickUpper : Z) : bool :=
  (tick >=? tickLower) && (tick <=? tickUpper).

(** Lines 1282-1312: the position tracker gate. *)
Definition trackerGate (intent : Intent) : M unit :=
  if isRebalance (action intent) then
    let tokenId := tokenId (recipe intent) in
    s ← get;
    if bool_decide (tokenId ∈ activePositions s) then
      reportReceiptWithRetry (receipt skipped (AlreadyProcessing tokenId));;
      return_ returnSkipped
    else if bool_decide (tokenId ∈ closedPositions s) then
      reportReceiptWithRetry (receipt skipped (AlreadyClosed tokenId));;
      return_ returnSkipped
    else
      modify (setActive (fun active => active ∪ {[tokenId]}))
  else ret tt.

(** [this.activePositions.delete(tokenId); this.closedPositions.add(tokenId)] *)
Definition markClosed (tokenId : Z) : M unit :=
  modify (setActive (fun active => active ∖ {[tokenId]}));;
  modify (setClosed (fun closed => closed ∪ {[tokenId]})).

Definition release (tokenId : Z) : M unit :=
  modify (setActive (fun active => active ∖ {[tokenId]})).

(** Lines 1314-1435: the position must exist, be owned, hold liquidity and
    be out of range. *)
Definition validatePosition (w : World) (intent : Intent) : M unit :=
  let tokenId := tokenId (recipe intent) in
  tryCatch
    (owner ← lift (ownerOf w);
     (if negb (owner =? walletAddress w) then
        markClosed tokenId;;
        reportReceiptWithRetry (receipt skipped (NotOwned tokenId));;
        return_ returnSkipped
      else ret tt);;
     position ← tryCatch (lift (positions w AtValidation))
                  (fun decodeError =>
                     markClosed tokenId;;
                     reportReceiptWithRetry (receipt skipped (DecodeFailed tokenId));;
                     return_ returnSkipped);
     (if liquidity position =? 0 then
        markClosed tokenId;;
        reportReceiptWithRetry (receipt skipped (ZeroLiquidity tokenId));;
        return_ returnSkipped
      else ret tt);;
     currentTick ← lift (poolTick w AtValidation);
     if inRange currentTick (tickLower position) (tickUpper position) then
       release tokenId;;
       reportReceiptWithRetry (receipt skipped (AlreadyInRange currentTick));;
       return_ returnSkipped
     else ret tt)
    (fun message =>
       if includes message "ERC721" || includes message "owner query" then
         markClosed tokenId;;
         reportReceiptWithRetry (receipt skipped (DoesNotExist tokenId));;
         return_ returnSkipped
       else raise message).

(** Lines 1203-1239: the approvals that go through, then the error that
    stops the loop, if any. *)
Fixpoint submitApprovals (sent : nat) : M unit :=
  match sent with
  | O => ret tt
  | S sent' => emit (Submitted ApproveNFPM);; submitApprovals sent'
  end.

Definition ensureTokenApprovals (w : World) : M unit :=
  let '(sent, error) := tokenApprovals w in
  submitApprovals sent;;
  match error with
  | Some e => raise ("Token approval required but failed: " ++ e)
  | None => ret tt
  end.

(** [transaction.label || `TX${i + 1}`] *)
Definition labelText (i : nat) (t : Transaction) : string :=
  match label t with
  | Some l => if String.eqb l "" then "TX" ++ pretty (S i) else l
  | None => "TX" ++ pretty (S i)
  end.

(** Lines 1843-2024: the Odos swap injected after CLOSE_POSITION. The
    refresh of the reopen parameters that follows the swap (lines
    1979-2019) sits in a try/catch of its own and builds its request from
    the undeclared [currentFee]: the ReferenceError is swallowed there and
    the bundle stays as built. *)
Definition odosSwap (w : World) (tierIndex : nat) (swapSlippageBps : Z)
    (txHashes : list string) : M (list string) :=
  lift (odosAssemble w tierIndex);;
  sufficient ← lift (odosAllowanceSufficient w tierIndex);
  (if negb sufficient then
     submitAndWait (ApproveOdos tierIndex) (odosApprove w tierIndex) None;; ret tt
   else ret tt);;
  hash ← submitAndWait (SwapTx tierIndex swapSlippageBps) (sendSwap w tierIndex)
           (Some "SWAP_TOKENS reverted (status: 0)");
  ret (txHashes ++ [hash])%list.

(** Lines 1783-2029: [for (let i = 0; i < transactions.length; i++)],
    entered at index [i] with [rest] the transactions from [i] on. *)
Fixpoint runTransactions (w : World) (tierIndex : nat) (swapSlippageBps : Z)
    (build : BuildResponse) (tickLower tickUpper : Z)
    (rest : list Transaction) (i : nat) (txHashes : list string)
  : M (list string) :=
  match rest with
  | [] => ret txHashes
  | transaction :: rest' =>
      s ← get;
      if positionClosed s && isClosePosition transaction then
        runTransactions w tierIndex swapSlippageBps build tickLower tickUpper
                        rest' (S i) txHashes
      else
        (if (0 <? i)%nat then
           checkTick ← lift (poolTick w (BeforeTx tierIndex i));
           if inRange checkTick tickLower tickUpper then
             reportReceiptWithRetry
               {| status := partial;
                  reason := DriftedAfterTx i checkTick;
                  completedTxs := Some (i + (if needsSwap build then 1 else 0))%nat;
                  attemptsExhausted := None;
                  attempts := None;
                  txHashes := txHashes;
                  swapSlippageUsed := None |};;
             return_ (returnPartial i)
           else ret tt
         else ret tt);;
        hash ← submitAndWait (BundleTx tierIndex i transaction) (sendTx w tierIndex i)
                 (Some (labelText i transaction ++ " reverted (status: 0)"));
        let txHashes := (txHashes ++ [hash])%list in
        (if isClosePosition transaction then modify (setPositionClosed true)
         else ret tt);;
        txHashes ← (if isClosePosition transaction && needsSwap build
                       && imbalanceData build
                    then odosSwap w tierIndex swapSlippageBps txHashes
                    else ret txHashes);
        runTransactions w tierIndex swapSlippageBps build tickLower tickUpper
                        rest' (S i) txHashes
  end.

(** Lines 1717-2096: the [try] block of one rung of the ladder. *)
Definition rebalanceAttempt (w : World) (intent : Intent) (tierIndex : nat)
    (swapSlippageBps : Z) (tickLower tickUpper : Z) : M unit :=
  let tokenId := tokenId (recipe intent) in
  freshTick ← lift (poolTick w (AtAttempt tierIndex));
  (if inRange freshTick tickLower tickUpper then
     reportReceiptWithRetry (receipt skipped (DriftedInRange freshTick));;
     return_ returnSkipped
   else ret tt);;
  s ← get;
  build ← (if negb (positionClosed s) then
             txData ← lift (buildTransaction w tierIndex);
             (if (tierIndex =? 0)%nat then modify (setInitialData (Some txData))
              else ret tt);;
             ret txData
           else
             ret (match initialData s with
                  | Some cached => cached
                  | None => {| transactions := None; needsSwap := false;
                               imbalanceData := false |}
                  end));
  match transactions build with
  | None => raise "Invalid transaction data: expected array of transactions"
  | Some txs =>
      txHashes ← runTransactions w tierIndex swapSlippageBps build
                   tickLower tickUpper txs 0 [];
      reportReceiptWithRetry
        {| status := completed;
           reason := NoReason;
           completedTxs := None;
           attemptsExhausted := None;
           attempts := None;
           txHashes := txHashes;
           swapSlippageUsed := Some swapSlippageBps |};;
      markClosed tokenId;;
      return_ returnSuccess
  end.

(** Lines 1711-2142: [for (tierIndex = 0; tierIndex < SWAP_SLIPPAGE_TIERS.length; ...)],
    entered at [tierIndex] with [tiers] the tolerances from there on. *)
Fixpoint ladder (w : World) (intent : Intent) (tickLower tickUpper : Z)
    (tiers : list Z) (tierIndex : nat) : M unit :=
  match tiers with
  | [] => ret tt
  | swapSlippageBps :: tiers' =>
      emit (AttemptStarted tierIndex swapSlippageBps);;
      tryCatch
        (rebalanceAttempt w intent tierIndex swapSlippageBps tickLower tickUpper)
        (fun message =>
           if (tierIndex =? length SWAP_SLIPPAGE_TIERS - 1)%nat then
             reportReceiptWithRetry
               {| status := failed;
                  reason := ErrorMessage message;
                  completedTxs := None;
                  attemptsExhausted := Some (length SWAP_SLIPPAGE_TIERS);
                  attempts := None;
                  txHashes := [];
                  swapSlippageUsed := None |};;
             return_ returnFailure
           else ret tt);;
      ladder w intent tickLower tickUpper tiers' (S tierIndex)
  end.

(** [intent.recipe.fromTier || 'UNKNOWN'] *)
Definition positionTierOf (intent : Intent) : string :=
  match fromTier (recipe intent) with
  | Some t => if String.eqb t "" then "UNKNOWN" else t
  | None => "UNKNOWN"
  end.

(** Lines 1656-2143: the REBALANCE procedure. *)
Definition rebalance (w : World) (intent : Intent) : M unit :=
  let positionTier := positionTierOf intent in
  (if negb (tierEnabled w positionTier) then
     reportReceiptWithRetry (receipt skipped (TierDisabled positionTier));;
     return_ returnSkipped
   else ret tt);;
  position ← lift (positions w AtStart);
  currentTick ← lift (poolTick w AtStart);
  (if inRange currentTick (tickLower position) (tickUpper position) then
     reportReceiptWithRetry (receipt skipped (DriftedInRange currentTick));;
     return_ returnSkipped
   else ret tt);;
  modify (setPositionClosed false);;
  modify (setInitialData None);;
  ladder w intent (tickLower position) (tickUpper position) SWAP_SLIPPAGE_TIERS 0.

(** The procedures of the other actions. *)
Definition executeOther (w : World) (intent : Intent) : M ReturnValue :=
  let '(evs, r) := otherAction w intent in
  modify (fun s => fold_left (fun s e => addEvent e s) evs s);;
  match r with
  | Ok v => return_ v
  | Throw e => raise e
  end.

(** Lines 1247-2723: the [try] block of executeIntent. *)
Definition executeIntentBody (w : World) (intent : Intent) (attempt : nat)
  : M ReturnValue :=
  match setup w attempt with
  | Some e => raise e
  | None => ret tt
  end;;
  trackerGate intent;;
  (if isRebalance (action intent) then validatePosition w intent else ret tt);;
  ensureTokenApprovals w;;
  freshFee ← lift (poolFee w);
  (if isRebalance (action intent) then rebalance w intent else ret tt);;
  executeOther w intent.

(** Lines 2726-2760: classification of the caught error. *)
Definition userFriendlyMessage (message : string) : string :=
  if includes message "insufficient funds" || includes message "insufficient balance"
  then "Insufficient LOGIC balance for gas fees. Please top up at https://app.bulwk.com"
  else if includes message "execution reverted"
  then "Transaction reverted on-chain. This may indicate insufficient rewards, contract issues, or that rewards were already claimed."
  else if includes message "out of gas"
  then "Transaction ran out of gas. Please report this issue - gas limits may need adjustment."
  else if includes message "network" || includes message "timeout"
  then "Network connection issue. Check your internet connection and try again."
  else if includes message "nonce"
  then "Transaction nonce conflict. This usually resolves automatically on retry."
  else message.

Definition isPermanentError (message : string) : bool :=
  includes message "nonce" && includes message "too low"
  || includes message "already known"
  || includes message "replacement fee too low"
  || includes message "invalid signature"
  || includes message "not authorized".

Definition isSlippageError (message : string) : bool :=
  includes message "slippage"
  || includes message "INSUFFICIENT_OUTPUT_AMOUNT"
  || includes message "Too little received"
  || includes message "K".

Definition isTemporaryError (message : string) : bool :=
  includes message "revert"
  || includes message "insufficient funds"
  || includes message "insufficient balance"
  || includes message "network"
  || includes message "timeout"
  || includes message "out of range".

(** Lines 2781-2806: the intent has failed for good. *)
Definition failPermanently (intent : Intent) (attempt : nat) (message : string)
  : M ReturnValue :=
  (if isRebalance (action intent) && negb (tokenId (recipe intent) =? 0) then
     release (tokenId (recipe intent))
   else ret tt);;
  reportReceiptWithRetry
    {| status := failed;
       reason := ErrorMessage (userFriendlyMessage message);
       completedTxs := None;
       attemptsExhausted := None;
       attempts := Some attempt;
       txHashes := [];
       swapSlippageUsed := None |};;
  return_ returnFailure.

(** Lines 2725-2807: the [catch] block; [retry] is
    [this.executeIntent(intent, attempt + 1)]. *)
Definition handleFailure (intent : Intent) (attempt : nat)
    (retry : M ReturnValue) (message : string) : M ReturnValue :=
  if isPermanentError message then failPermanently intent attempt message
  else if isSlippageError message && negb (isRebalance (action intent)) then
    failPermanently intent attempt message
  else if isTemporaryError message && (attempt <? MAX_RETRIES)%nat then
    v ← retry; return_ v
  else failPermanently intent attempt message.

(** [executeIntent(intent, attempt)]. The recursion descends on [budget],
    the number of calls still allowed: [attempt < MAX_RETRIES] holds for
    at most [MAX_RETRIES - 1] nested calls. *)
Fixpoint executeIntentAt (budget : nat) (w : World) (intent : Intent) (attempt : nat)
  : M ReturnValue :=
  call (tryCatch (executeIntentBody w intent attempt)
          (handleFailure intent attempt
             (match budget with
              | S budget' => executeIntentAt budget' w intent (S attempt)
              | O => raise "retry budget exceeded"
              end))).

(** The tracker, which lives as long as the process. *)
Record Tracker := { active : gset Z; closed : gset Z }.

Record Outcome := { returned : option ReturnValue; log : list Event }.

Definition initialState (t : Tracker) : State :=
  {| activePositions := active t; closedPositions := closed t; events := [];
     positionClosed := false; initialData := None |}.

(** [await this.executeIntent(intent)] on a daemon whose tracker is [t]. *)
Definition executeIntent (w : World) (intent : Intent) (t : Tracker)
  : Outcome * Tracker :=
  let '(flow, s) := executeIntentAt (MAX_RETRIES - 1) w intent 1 (initialState t) in
  ({| returned := match flow with Next v => Some v | _ => None end;
      log := events s |},
   {| active := activePositions s; closed := closedPositions s |}).

(** *** processIntentQueue *)

Record Daemon := {
  tracker : Tracker;
  pendingIntents : list Intent;
  isProcessingIntent : bool
}.

(** Lines 3235-3254: the sequential loop; [worlds k] answers the [k]-th
    intent of the batch. *)
Fixpoint processIntents (worlds : nat -> World) (intents : list Intent) (k : nat)
    (t : Tracker) : list Outcome * Tracker :=
  match intents with
  | [] => ([], t)
  | intent :: intents' =>
      let '(o, t') := executeIntent (worlds k) intent t in
      let '(os, t'') := processIntents worlds intents' (S k) t' in
      (o :: os, t'')
  end.

Definition processIntentQueue (worlds : nat -> World) (d : Daemon)
  : list Outcome * Daemon :=
  if isProcessingIntent d then ([], d)
  else
    match pendingIntents d with
    | [] => ([], d)
    | intentsToProcess =>
        let '(os, t) := processIntents worlds intentsToProcess 0 (tracker d) in
        (os, {| tracker := t; pendingIntents := []; isProcessingIntent := false |})
    end.

(** *** Reading a log *)

Definition submissions (l : list Event) : list ChainTx :=
  omap (fun e => match e with Submitted tx => Some tx | _ => None end) l.

Definition reports (l : list Event) : list Receipt :=
  omap (fun e => match e with Reported r => Some r | _ => None end) l.

Definition attemptsStarted (l : list Event) : list Z :=
  omap (fun e => match e with AttemptStarted _ bps => Some bps | _ => None end) l.

Definition swapsAttempted (l : list Event) : list Z :=
  omap (fun e => match e with Submitted (SwapTx _ bps) => Some bps | _ => None end) l.

End DaemonController.

(** ** intent-verifier.js: the policy gate *)

Module IntentVerifier.

(** The fields of the policy snapshot that validatePolicy reads; an absent
    object or field is [None]. A field that is present holds a number:
    the balance and the threshold a rational, the others an integer. The
    two gas prices are the integers that [parseInt] (lines 214-215) makes
    of the fields, which are the fields themselves as long as they are
    integers below 10^21 in absolute value; a larger Number prints in
    exponent notation and [parseInt] reads its leading digit only (1e21
    as 1), which this record does not describe. *)
Record Automation := { autoRebalancing : option bool }.
Record Spending := {
  emergencyStopEnabled : bool;
  currentBalance : option Q;
  emergencyStopThreshold : option Q
}.
Record Subscription := { allowedHours : option (Z * Z) }.
Record Network := { maxGasPrice : option Z; maxSlippageBps : option Z }.
Record Policy := {
  automation : option Automation;
  spending : option Spending;
  subscription : option Subscription;
  network : option Network
}.

(** The fields of the intent that validatePolicy reads. *)
Record Constraints := { maxFeePerGas : option Z }.
Record Recipe := { slippageBps : option Z }.
Record Intent := {
  intentId : string;
  constraints : option Constraints;
  recipe : option Recipe
}.

(** The verifier object: what [loadPolicy()] reads from
    [~/.balancer/policy.json] (or the default policy), and whether a
    [logger] callback is installed. *)
Record Verifier := { storedPolicy : Policy; hasLogger : bool }.

Definition getDefaultPolicy : Policy :=
  {| automation := None;
     spending := Some {| emergencyStopEnabled := true; currentBalance := None;
                         emergencyStopThreshold := Some (5 # 1) |};
     subscription := Some {| allowedHours := Some (0, 23) |};
     network := Some {| maxGasPrice := Some 100000000000;
                        maxSlippageBps := Some 100 |} |}.

(** Which rule rejected the intent, with the values its warning prints. *)
Inductive Rejection :=
| AutomationDisabled
| EmergencyStop (balance threshold : Q)
| OutsideAllowedHours (startHour endHour currentHour : Z)
| GasPriceExceeded (intentGasPrice policyMaxGas : Z)
| SlippageExceeded (intentSlippage policyMaxSlippage : Z).

Record Decision := {
  accepted : bool;
  rejection : option Rejection;
  loggerCalled : bool
}.

Definition accept : Decision :=
  {| accepted := true; rejection := None; loggerCalled := false |}.
Definition reject (r : Rejection) (logged : bool) : Decision :=
  {| accepted := false; rejection := Some r; loggerCalled := logged |}.

Definition Qltb (a b : Q) : bool := negb (Qle_bool b a).

Definition field {A B} (o : option A) (f : A -> option B) : option B :=
  match o with
  | Some a => f a
  | None => None
  end.

(** [if (!policy) policy = this.loadPolicy()] *)
Definition effectivePolicy (v : Verifier) (policy : option Policy) : Policy :=
  match policy with
  | Some p => p
  | None => storedPolicy v
  end.

(** [validatePolicy(intent, policy = null)], evaluated when
    [new Date().getHours()] is [currentHour]. *)
Definition validatePolicy (v : Verifier) (currentHour : Z)
    (intent : Intent) (policy : option Policy) : Decision :=
  let policy := effectivePolicy v policy in
  (* automation enabled *)
  match field (automation policy) autoRebalancing with
  | Some false => reject AutomationDisabled false
  | _ =>
  (* emergency stop *)
  let emergency :=
    match spending policy with
    | Some sp =>
        if emergencyStopEnabled sp then
          match currentBalance sp with
          | Some balance =>
              let threshold :=
                match emergencyStopThreshold sp with
                | Some t => if Qeq_bool t 0 then 5 # 1 else t
                | None => 5 # 1
                end in
              if Qltb balance threshold then Some (EmergencyStop balance threshold)
              else None
          | None => None
          end
        else None
    | None => None
    end in
  match emergency with
  | Some r => reject r (hasLogger v)
  | None =>
  (* time window *)
  let window :=
    match field (subscription policy) allowedHours with
    | Some (startHour, endHour) =>
        if (currentHour <? startHour) || (currentHour >? endHour)
        then Some (OutsideAllowedHours startHour endHour currentHour)
        else None
    | None => None
    end in
  match window with
  | Some r => reject r false
  | None =>
  (* gas price limit *)
  let gas :=
    match field (constraints intent) maxFeePerGas,
          field (network policy) maxGasPrice with
    | Some intentGasPrice, Some policyMaxGas =>
        if negb (intentGasPrice =? 0) && negb (policyMaxGas =? 0)
           && (intentGasPrice >? policyMaxGas)
        then Some (GasPriceExceeded intentGasPrice policyMaxGas)
        else None
    | _, _ => None
    end in
  match gas with
  | Some r => reject r false
  | None =>
  (* slippage limit *)
  let slippage :=
    match field (recipe intent) slippageBps,
          field (network policy) maxSlippageBps with
    | Some intentSlippage, Some policyMaxSlippage =>
        if negb (intentSlippage =? 0) && negb (policyMaxSlippage =? 0)
           && (intentSlippage >? policyMaxSlippage)
        then Some (SlippageExceeded intentSlippage policyMaxSlippage)
        else None
    | _, _ => None
    end in
  match slippage with
  | Some r => reject r false
  | None => accept
  end end end end end.

(** The returned boolean together with the rule that fired. *)
Definition verdict (d : Decision) : bool * option Rejection :=
  (accepted d, rejection d).

End IntentVerifier.

(** ** grace-period-monitor.js *)

Module GracePeriodMonitor.

Inductive Tier := HOT | WARM | MEDIUM | WIDE | INSURANCE | UNKNOWN.

Inductive PositionStatus :=
| GRACE_PERIOD | REBALANCE_QUEUED | PENDING_REBALANCE | OTHER_STATUS.

(** One entry of the platform's position list. [graceExpiresAt] and
    [createdAt] are the instants (ms) their date strings denote;
    [shadowRewards] is [parseFloat(position.shadowRewards) || 0]. *)
Record Position := {
  tokenId : Z;
  status : PositionStatus;
  graceExpiresAt : option Z;
  shadowRewards : Q;
  tickLower : option Z;
  tickUpper : option Z;
  createdAt : option Z
}.

Record Tracked := {
  trackedExpiresAt : option Z;
  shadowCollected : bool;
  tier : Tier
}.

(** The daemon the monitor is attached to ([this.daemon]). *)
Record Daemon := {
  isRunning : bool;
  isLinked : bool;
  wallet : option Z;
  positionTracker : DaemonController.Tracker
}.

(** The answer of [POST /api/daemon/collect-fees]. *)
Inductive CollectResponse :=
| CollectFailed (message : string)     (* !response.ok, or fetch rejects *)
| CollectSkipped                       (* result.skipped *)
| CollectNoTransaction                 (* no result.txHash *)
| CollectSubmitted (txHash : string).

Record Monitor := {
  trackedPositions : gmap Z Tracked;
  (* harvest-only requests issued so far: the token ids posted to
     /api/daemon/collect-fees with collectShadowOnly *)
  harvestRequests : list Z
}.

Definition COLLECTION_THRESHOLD_MS : Z := 60000.
Definition MIN_CLAIMABLE_SHADOW : Q := 1 # 1000.

Definition getTierFromRange (tickLower tickUpper : Z) : Tier :=
  let rangeWidth := Z.abs (tickUpper - tickLower) in
  if rangeWidth <=? 100 then HOT
  else if rangeWidth <=? 200 then WARM
  else if rangeWidth <=? 300 then MEDIUM
  else if rangeWidth <=? 400 then WIDE
  else INSURANCE.

Definition isUnknown (t : Tier) : bool :=
  match t with UNKNOWN => true | _ => false end.

Definition setCollected (tokenId : Z) (m : Monitor) : Monitor :=
  {| trackedPositions :=
       alter (fun t => {| trackedExpiresAt := trackedExpiresAt t;
                          shadowCollected := true; tier := tier t |})
             tokenId (trackedPositions m);
     harvestRequests := harvestRequests m |}.

(** [tracked.shadowCollected = true] on the entry fetched at line 266;
    a TypeError when the position is not tracked. *)
Definition markCollected (tokenId : Z) (m : Monitor) : result unit * Monitor :=
  match trackedPositions m !! tokenId with
  | Some _ => (Ok tt, setCollected tokenId m)
  | None => (Throw "Cannot set properties of undefined", m)
  end.

(** Lines 259-398. [Ok] is a normal return, [Throw] a rejected promise;
    the monitor state is returned in both cases. *)
Definition collectShadowForPosition (d : Daemon) (platform : Z -> CollectResponse)
    (tokenId : Z) (m : Monitor) : result unit * Monitor :=
  match wallet d with
  | None => (Throw "Wallet not initialized", m)
  | Some _ =>
      let m := {| trackedPositions := trackedPositions m;
                  harvestRequests := (harvestRequests m ++ [tokenId])%list |} in
      match platform tokenId with
      | CollectFailed e => (Throw e, m)
      | CollectSkipped => markCollected tokenId m
      | CollectNoTransaction => markCollected tokenId m
      | CollectSubmitted _ => (Ok tt, m)
      end
  end.

(** Lines 173-257, run when [Date.now()] is [now]. *)
Definition handlePositionInGracePeriod (d : Daemon) (platform : Z -> CollectResponse)
    (now : Z) (position : Position) (m : Monitor) : Monitor :=
  let tokenId := tokenId position in
  let tier :=
    match tickLower position, tickUpper position with
    | Some lo, Some hi => getTierFromRange lo hi
    | _, _ => UNKNOWN
    end in
  (* track this position *)
  let m :=
    match trackedPositions m !! tokenId with
    | Some _ => m
    | None =>
        {| trackedPositions :=
             <[tokenId := {| trackedExpiresAt := graceExpiresAt position;
                             shadowCollected := false; tier := tier |}]>
               (trackedPositions m);
           harvestRequests := harvestRequests m |}
    end in
  (* update tier if it was unknown before *)
  let m :=
    {| trackedPositions :=
         alter (fun t => if isUnknown (GracePeriodMonitor.tier t) && negb (isUnknown tier)
                         then {| trackedExpiresAt := trackedExpiresAt t;
                                 shadowCollected := shadowCollected t; tier := tier |}
                         else t)
               tokenId (trackedPositions m);
       harvestRequests := harvestRequests m |} in
  let collected :=
    match trackedPositions m !! tokenId with
    | Some t => shadowCollected t
    | None => false
    end in
  let shouldCollect :=
    match graceExpiresAt position with
    | Some expiresAt =>
        let timeRemaining := expiresAt - now in
        ((timeRemaining <? COLLECTION_THRESHOLD_MS) && negb collected)
        || ((timeRemaining <=? 0) && negb collected)
    | None => false   (* NaN compares false *)
    end in
  if shouldCollect then
    if IntentVerifier.Qltb MIN_CLAIMABLE_SHADOW (shadowRewards position) then
      match collectShadowForPosition d platform tokenId m with
      | (Ok _, m') => setCollected tokenId m'
      | (Throw _, m') => m'
      end
    else setCollected tokenId m
  else m.

Definition inGrace (p : Position) : bool :=
  match status p with
  | GRACE_PERIOD | REBALANCE_QUEUED | PENDING_REBALANCE => true
  | OTHER_STATUS => false
  end.

(** Lines 400-414. *)
Definition cleanupTrackedPositions (currentPositions : list Position) (m : Monitor)
  : Monitor :=
  let activeGracePeriodTokenIds : gset Z :=
    list_to_set (map tokenId (List.filter inGrace currentPositions)) in
  {| trackedPositions :=
       filter (fun kv => kv.1 ∈ activeGracePeriodTokenIds) (trackedPositions m);
     harvestRequests := harvestRequests m |}.

(** Lines 145-161: the loop over the fetched positions; [clock k] is
    [Date.now()] when the [k]-th position is handled. *)
Fixpoint handlePositions (d : Daemon) (platform : Z -> CollectResponse)
    (clock : nat -> Z) (positions : list Position) (k : nat) (m : Monitor) : Monitor :=
  match positions with
  | [] => m
  | position :: rest =>
      let m :=
        if inGrace position
        then match graceExpiresAt position with
             | Some _ => handlePositionInGracePeriod d platform (clock k) position m
             | None => m
             end
        else m in
      handlePositions d platform clock rest (S k) m
  end.

(** Lines 95-171. [fetched] is the position list returned by the
    platform, or the error of the request. *)
Definition checkGracePeriods (d : Daemon) (fetched : result (list Position))
    (platform : Z -> CollectResponse) (clock : nat -> Z) (m : Monitor) : Monitor :=
  if negb (isRunning d) || negb (isLinked d) || negb (bool_decide (is_Some (wallet d)))
  then m
  else
    match fetched with
    | Throw _ => m
    | Ok positions =>
        cleanupTrackedPositions positions
          (handlePositions d platform clock positions 0 m)
    end.

End GracePeriodMonitor.

(** ** Vocabulary of the statements *)

Module TrackerSpec.

Import DaemonController.

(** The tracker part of a state. *)
Definition trackerOf (s : State) : Tracker :=
  {| active := activePositions s; closed := closedPositions s |}.

(** No token id is in both sets. *)
Definition trackerDisjoint (t : Tracker) : Prop := active t ## closed t.

(** The trackers a daemon can be in: both sets start empty (constructor,
    lines 176-177) and only executeIntent writes to them. *)
Inductive reachable : Tracker -> Prop :=
| reachable_initial : reachable {| active := ∅; closed := ∅ |}
| reachable_executeIntent (w : World) (intent : Intent) (t : Tracker) :
    reachable t -> reachable (executeIntent w intent t).2.

(** A REBALANCE intent for [tokenId]. *)
Definition targets (tokenId : Z) (intent : Intent) : Prop :=
  action intent = REBALANCE /\ DaemonController.tokenId (recipe intent) = tokenId.

(** An intent that was skipped at once: one receipt, nothing else. *)
Definition skippedOutcome (r : Reason) : Outcome :=
  {| returned := Some returnSkipped; log := [Reported (receipt skipped r)] |}.

(** The swaps submitted so far, plus the one swap still possible while the
    position has not been closed. *)
Definition swapBudget (s : State) : nat :=
  length (swapsAttempted (events s)) + (if positionClosed s then 0 else 1).

(** [wp m Q s]: running [m] from [s] ends in a flow and a state that
    satisfy [Q]. *)
Definition wp {A} (m : M A) (Q : Flow A -> State -> Prop) (s : State) : Prop :=
  Q (m s).1 (m s).2.

(** The postcondition of [m] that makes [m ≫= k] satisfy [Q]. *)
Definition after {A B} (k : A -> M B) (Q : Flow B -> State -> Prop)
  : Flow A -> State -> Prop :=
  fun f s =>
    match f with
    | Next a => wp (k a) Q s
    | Return v => Q (Return v) s
    | Raise e => Q (Raise e) s
    end.

(** What a statement may do to the tracker while working on [tokenId]:
    nothing, release the lock, or move the token to the closed set. *)
Inductive TrackerStep (tokenId : Z) (t : Tracker) : Tracker -> Prop :=
| Unchanged : TrackerStep tokenId t t
| Released :
    TrackerStep tokenId t {| active := active t ∖ {[tokenId]}; closed := closed t |}
| MarkedClosed :
    TrackerStep tokenId t {| active := active t ∖ {[tokenId]};
                             closed := closed t ∪ {[tokenId]} |}.

Definition closedTracker (tokenId : Z) (T : Tracker) : Tracker :=
  {| active := active T ∖ {[tokenId]}; closed := closed T ∪ {[tokenId]} |}.

(** Statements that never touch the tracker and never return success. *)
Definition inert {A} (T : Tracker) : Flow A -> State -> Prop :=
  fun f s' =>
    trackerOf s' = T
    /\ match f with Return v => success v = false | _ => True end.

(** A statement run for [tokenId] from tracker [T]: falling through or
    throwing leaves the tracker alone; returning success has moved the
    token to the closed set; any other return has taken one tracker step. *)
Definition settled {A} (tokenId : Z) (T : Tracker) : Flow A -> State -> Prop :=
  fun f s' =>
    match f with
    | Next _ | Raise _ => trackerOf s' = T
    | Return v =>
        if success v then trackerOf s' = closedTracker tokenId T
        else TrackerStep tokenId T (trackerOf s')
    end.

Definition noNext {A} (f : Flow A) : Prop :=
  match f with Next _ => False | _ => True end.

Definition concluded {A} (tokenId : Z) (T : Tracker) : Flow A -> State -> Prop :=
  fun f s' =>
    settled tokenId T f s'
    /\ match f with Return v => success v = false \/ v = returnSuccess | _ => True end.

(** Tracker [T'] is in order, and has forgotten no closed position of [T0]. *)
Definition kept (T0 T' : Tracker) : Prop :=
  trackerDisjoint T' /\ closed T0 ⊆ closed T'.

(** What every run of executeIntent from a tracker that keeps [T0]
    guarantees: the tracker still keeps [T0], and a REBALANCE that returns
    success has put its token id into the closed set. *)
Definition executed (intent : Intent) (T0 : Tracker)
  : Flow ReturnValue -> State -> Prop :=
  fun f s' =>
    kept T0 (trackerOf s')
    /\ (isRebalance (action intent) = true ->
        forall v, f = Next v \/ f = Return v -> success v = true ->
                  tokenId (recipe intent) ∈ closed (trackerOf s')).

End TrackerSpec.

Module MonitorSpec.

Import GracePeriodMonitor.


End MonitorSpec.

(** ** Concrete runs *)

Module Scenarios.

Import DaemonController.

Definition closeTx : Transaction := {| label := Some "CLOSE_POSITION" |}.
Definition openTx : Transaction := {| label := Some "OPEN_POSITION" |}.

Definition position : Position :=
  {| liquidity := 1000; tickLower := -100; tickUpper := 100 |}.

(** A daemon that owns position 7 (range [-100, 100]); the platform builds
    the bundle [CLOSE_POSITION; OPEN_POSITION]; bundle transactions are
    mined with status 1. *)
Definition world (ticks : ReadPoint -> Z) (build : nat -> result BuildResponse)
    (swap : nat -> TxOutcome) : World :=
  {| setup := fun _ => None;
     walletAddress := 0xabc;
     ownerOf := Ok 0xabc;
     positions := fun _ => Ok position;
     poolTick := fun p => Ok (ticks p);
     tokenApprovals := (0%nat, None);
     poolFee := Ok 3000;
     tierEnabled := fun _ => true;
     buildTransaction := build;
     sendTx := fun _ i => Mined (if (i =? 0)%nat then "0xclose" else "0xopen") 1;
     odosAssemble := fun _ => Ok tt;
     odosAllowanceSufficient := fun _ => Ok true;
     odosApprove := fun _ => Mined "0xapprove" 1;
     sendSwap := swap;
     otherAction := fun _ => ([], Ok returnSuccess) |}.

Definition bundle (swapNeeded : bool) : nat -> result BuildResponse :=
  fun _ => Ok {| transactions := Some [closeTx; openTx];
                 needsSwap := swapNeeded; imbalanceData := swapNeeded |}.

Definition outOfRange : ReadPoint -> Z := fun _ => 250.


(** Everything goes through. *)
Definition calm : World :=
  world outOfRange (bundle true) (fun _ => Mined "0xswap" 1).

(** The swap reverts whatever the slippage tolerance. *)
Definition swapReverts : World :=
  world outOfRange (bundle true) (fun _ => Mined "0xswap" 0).

(** The platform cannot build the bundle. *)
Definition platformDown : World :=
  world outOfRange (fun _ => Throw "Build transaction failed: 503")
        (fun _ => Mined "0xswap" 1).


Definition rebalance7 (id : string) : Intent :=
  {| intentId := id; action := REBALANCE;
     recipe := {| tokenId := 7; fromTier := Some "HOT" |} |}.

Definition fresh : Tracker := {| active := ∅; closed := ∅ |}.
Definition closed7 : Tracker := {| active := ∅; closed := {[7]} |}.

Definition twoPending : Daemon :=
  {| tracker := fresh;
     pendingIntents := [rebalance7 "intent-a"; rebalance7 "intent-b"];
     isProcessingIntent := false |}.

(** intent-verifier.js *)

Definition officeHours : IntentVerifier.Policy :=
  {| IntentVerifier.automation := None;
     IntentVerifier.spending := None;
     IntentVerifier.subscription :=
       Some {| IntentVerifier.allowedHours := Some (9, 17) |};
     IntentVerifier.network := None |}.

Definition plainIntent : IntentVerifier.Intent :=
  {| IntentVerifier.intentId := "intent-1";
     IntentVerifier.constraints := None;
     IntentVerifier.recipe := None |}.

Definition verifier : IntentVerifier.Verifier :=
  {| IntentVerifier.storedPolicy := IntentVerifier.getDefaultPolicy;
     IntentVerifier.hasLogger := false |}.

(** grace-period-monitor.js: position 7 is being rebalanced, its grace
    period ends in 45 s and 1.5 SHADOW are waiting. *)

Definition rebalancing7 : GracePeriodMonitor.Daemon :=
  {| GracePeriodMonitor.isRunning := true;
     GracePeriodMonitor.isLinked := true;
     GracePeriodMonitor.wallet := Some 0xabc;
     GracePeriodMonitor.positionTracker := {| active := {[7]}; closed := ∅ |} |}.

Definition gracePosition7 : GracePeriodMonitor.Position :=
  {| GracePeriodMonitor.tokenId := 7;
     GracePeriodMonitor.status := GracePeriodMonitor.GRACE_PERIOD;
     GracePeriodMonitor.graceExpiresAt := Some 45000;
     GracePeriodMonitor.shadowRewards := 3 # 2;
     GracePeriodMonitor.tickLower := Some (-50);
     GracePeriodMonitor.tickUpper := Some 50;
     GracePeriodMonitor.createdAt := None |}.

Definition harvestGoesThrough : Z -> GracePeriodMonitor.CollectResponse :=
  fun _ => GracePeriodMonitor.CollectSubmitted "0xharvest".

Definition idleMonitor : GracePeriodMonitor.Monitor :=
  {| GracePeriodMonitor.trackedPositions := ∅;
     GracePeriodMonitor.harvestRequests := [] |}.

End Scenarios.

(** ** uniswap-math.js: calculateOptimalAmounts *)

Module PositionSizing.
Import UniswapMath.

(** The [params] object of calculateOptimalAmounts. *)
Record Params := {
  currentTick : Z;
  tickLower : Z;
  tickUpper : Z;
  amount0Available : Z;
  amount1Available : Z;
  sqrtPriceX96 : Z
}.

Record Optimal := {
  amount0Desired : Z;
  amount1Desired : Z;
  liquidity : Z
}.

(** uniswap-math.js, lines 127-164. *)
Definition calculateOptimalAmounts (params : Params) : result Optimal :=
  sqrtRatioAX96 ← getSqrtRatioAtTick (tickLower params);
  sqrtRatioBX96 ← getSqrtRatioAtTick (tickUpper params);
  liquidity0 ← getLiquidityForAmounts (sqrtPriceX96 params) sqrtRatioAX96 sqrtRatioBX96
                  (amount0Available params) 0;
  liquidity1 ← getLiquidityForAmounts (sqrtPriceX96 params) sqrtRatioAX96 sqrtRatioBX96
                  0 (amount1Available params);
  let liquidity := if liquidity0 <? liquidity1 then liquidity0 else liquidity1 in
  if liquidity =? 0 then
    Ok {| amount0Desired := 0; amount1Desired := 0; liquidity := 0 |}
  else
    amounts ← getAmountsForLiquidity (sqrtPriceX96 params) sqrtRatioAX96 sqrtRatioBX96
                liquidity;
    Ok {| amount0Desired := amount0 amounts; amount1Desired := amount1 amounts;
          liquidity := liquidity |}.

End PositionSizing.

(** ** daemon-config.js: tier preferences *)

Module TierConfig.

Record TierPreference := { enabled : bool; allocPct : Q }.

Definition TierPreferences := gmap string TierPreference.

(** Lines 307-313. *)
Definition DEFAULT_TIER_PREFERENCES : TierPreferences :=
  <["HOT" := {| enabled := true; allocPct := 40 # 1 |}]>
  (<["WARM" := {| enabled := true; allocPct := 25 # 1 |}]>
   (<["MEDIUM" := {| enabled := true; allocPct := 20 # 1 |}]>
    (<["WIDE" := {| enabled := true; allocPct := 10 # 1 |}]>
     (<["INSURANCE" := {| enabled := true; allocPct := 5 # 1 |}]> ∅)))).

(** [loadTierPreferences()], lines 358-361; [tiers] is [config.tiers] of
    the configuration file, [None] when the file or the field is missing. *)
Definition loadTierPreferences (tiers : option TierPreferences) : TierPreferences :=
  match tiers with
  | Some t => t
  | None => DEFAULT_TIER_PREFERENCES
  end.

(** [tierPreferences[positionTier]?.enabled], as tested by executeIntent
    (daemon-controller.js, line 1660). *)
Definition tierEnabledIn (preferences : TierPreferences) (positionTier : string) : bool :=
  match preferences !! positionTier with
  | Some p => enabled p
  | None => false
  end.

End TierConfig.

(** ** daemon-controller.js: pollForIntents, the intake of signed intents *)

Module IntentIntake.

(** [intent.timestamp] or [intent.createdAt] of a verified payload: absent
    (or another falsy value), a number, or a non-empty string, of which
    [asNumber] is what [Number(s)] gives and [asDate] what
    [new Date(s).getTime()] gives ([None] for NaN). *)
Inductive Timestamp :=
| NoTimestamp
| NumberTimestamp (n : Z)
| StringTimestamp (asNumber asDate : option Z).

Definition truthy (ts : Timestamp) : bool :=
  match ts with
  | NoTimestamp => false
  | NumberTimestamp n => negb (n =? 0)
  | StringTimestamp _ _ => true
  end.

(** The payload that verifyIntent returns, through the fields its readers
    use: validatePolicy ([policyFields]), executeIntent ([intent]) and the
    intake itself. *)
Record Payload := {
  policyFields : IntentVerifier.Intent;
  intent : DaemonController.Intent;
  timestamp : Timestamp;
  createdAt : Timestamp
}.

(** One entry of [data.intents]; [signedIntentId] is [signedIntent.intentId]
    when it is a non-empty string. *)
Record SignedIntent := { signedIntentId : option string }.

(** [intent.timestamp || intent.createdAt || 0] *)
Definition intentTimestamp (p : Payload) : Timestamp :=
  if truthy (timestamp p) then timestamp p
  else if truthy (createdAt p) then createdAt p
  else NumberTimestamp 0.

(** [value < daemonConnectedAt] for a value that was not normalised. *)
Definition rawBefore (ts : Timestamp) (connectedAt : Z) : bool :=
  match ts with
  | NoTimestamp => false
  | NumberTimestamp n => n <? connectedAt
  | StringTimestamp (Some n) _ => n <? connectedAt
  | StringTimestamp None _ => false
  end.

(** Lines 1069-1082: strings go through [Date], numbers below 10^10 are
    taken for seconds. [None] is NaN. *)
Definition normalise (ts : Timestamp) : option Z :=
  match ts with
  | NoTimestamp => None
  | NumberTimestamp n => Some (if n <? 10000000000 then n * 1000 else n)
  | StringTimestamp _ asDate => asDate
  end.

Definition normalisedBefore (ts : Timestamp) (connectedAt : Z) : bool :=
  match normalise ts with
  | Some n => n <? connectedAt
  | None => false
  end.

Inductive Phase := Detection | Admission.

(** What the poll reads from outside: the outcome of
    [intentVerifier.verifyIntent] on the [i]-th entry in each of the two
    loops, the local hour when its policy is validated,
    [config.executeBackdatedRebalances] when it is read, and whether
    [updatePolicy] (lines 3351-3355: getPolicy, then [fs.writeFile] of the
    merged policy) resolves or rejects when it is called with a policy. *)
Record Intake := {
  verifyIntent : Phase -> nat -> result Payload;
  hourAt : nat -> Z;
  executeBackdatedRebalances : nat -> bool;
  updatePolicy : IntentVerifier.Policy -> result unit
}.

Inductive RejectionReason :=
| PolicyValidationFailed           (* Policy validation failed *)
| AutoRebalancingDisabled          (* Auto-rebalancing disabled *)
| BackdatedSkipped                 (* Backdated intent skipped ... *)
| VerificationFailed (message : string).  (* Verification failed: ... *)

(** What a poll does, in order. *)
Inductive Step :=
| Rejected (intentId : string) (reason : RejectionReason) (* reportIntentRejection *)
| Dropped (message : string)      (* caught, and no intentId to report under *)
| PolicyUpdated (policy : IntentVerifier.Policy)          (* updatePolicy(policy) resolved *)
| Queued (p : Payload).           (* pendingIntents.push *)

Record Daemon := {
  pendingIntents : list Payload;
  backdatedIntentsDetected : bool;
  daemonConnectedAt : option Z
}.

(** Truthiness of [this.daemonConnectedAt]. *)
Definition connectedAt (d : Daemon) : option Z :=
  match daemonConnectedAt d with
  | Some c => if c =? 0 then None else Some c
  | None => None
  end.

(** [policy.automation?.autoRebalancing], as a condition. *)
Definition autoRebalancing (policy : IntentVerifier.Policy) : bool :=
  match IntentVerifier.field (IntentVerifier.automation policy)
                             IntentVerifier.autoRebalancing with
  | Some b => b
  | None => false
  end.

Definition isRebalance (p : Payload) : bool :=
  DaemonController.isRebalance (DaemonController.action (intent p)).

(** Lines 1005-1019: is there a REBALANCE intent stamped before the
    daemon connected? Verification errors are skipped. *)
Fixpoint hasBackdatedRebalances (io : Intake) (connected : Z)
    (intents : list SignedIntent) (i : nat) : bool :=
  match intents with
  | [] => false
  | _ :: rest =>
      match verifyIntent io Detection i with
      | Ok p =>
          if isRebalance p && rawBefore (intentTimestamp p) connected then true
          else hasBackdatedRebalances io connected rest (S i)
      | Throw _ => hasBackdatedRebalances io connected rest (S i)
      end
  end.

(** [policy.automation.autoRebalancing = false] *)
Definition pause (policy : IntentVerifier.Policy) : IntentVerifier.Policy :=
  {| IntentVerifier.automation :=
       Some {| IntentVerifier.autoRebalancing := Some false |};
     IntentVerifier.spending := IntentVerifier.spending policy;
     IntentVerifier.subscription := IntentVerifier.subscription policy;
     IntentVerifier.network := IntentVerifier.network policy |}.

Definition intentIdOf (p : Payload) : string :=
  DaemonController.intentId (intent p).

(** Lines 1036-1113: what happens to one signed intent. [policy] is the
    policy file as read by getPolicy, [None] when it could not be read. *)
Definition admission (v : IntentVerifier.Verifier) (io : Intake) (d : Daemon)
    (policy : option IntentVerifier.Policy) (signed : SignedIntent) (i : nat) : Step :=
  let caught (message : string) :=
    match signedIntentId signed with
    | Some id => Rejected id (VerificationFailed message)
    | None => Dropped message
    end in
  match verifyIntent io Admission i with
  | Throw e => caught e
  | Ok p =>
      if negb (IntentVerifier.accepted
                 (IntentVerifier.validatePolicy v (hourAt io i) (policyFields p) policy))
      then Rejected (intentIdOf p) PolicyValidationFailed
      else
        match policy with
        | None =>
            if isRebalance p
            then caught "Cannot read properties of null (reading 'automation')"
            else Queued p
        | Some policy =>
            if isRebalance p && negb (autoRebalancing policy)
            then Rejected (intentIdOf p) AutoRebalancingDisabled
            else
              match connectedAt d with
              | Some connected =>
                  if isRebalance p
                     && normalisedBefore (intentTimestamp p) connected
                     && negb (executeBackdatedRebalances io i)
                  then Rejected (intentIdOf p) BackdatedSkipped
                  else Queued p
              | None => Queued p
              end
        end
  end.

Fixpoint admitAll (v : IntentVerifier.Verifier) (io : Intake) (d : Daemon)
    (policy : option IntentVerifier.Policy) (intents : list SignedIntent) (i : nat)
  : list Step :=
  match intents with
  | [] => []
  | signed :: rest => admission v io d policy signed i :: admitAll v io d policy rest (S i)
  end.

Definition queued (steps : list Step) : list Payload :=
  omap (fun s => match s with Queued p => Some p | _ => None end) steps.

(** [this.backdatedIntentsDetected = true] *)
Definition setDetected (d : Daemon) : Daemon :=
  {| pendingIntents := pendingIntents d;
     backdatedIntentsDetected := true;
     daemonConnectedAt := daemonConnectedAt d |}.

(** Lines 1036-1113: the loop over the intents, after the steps [saved]
    that came before it, under the policy object as it is by then. *)
Definition admitInto (v : IntentVerifier.Verifier) (io : Intake) (d : Daemon)
    (policy : option IntentVerifier.Policy) (intents : list SignedIntent)
    (saved : list Step) : result (list Step) * Daemon :=
  let steps := admitAll v io d policy intents 0 in
  (Ok (saved ++ steps)%list,
   {| pendingIntents := (pendingIntents d ++ queued steps)%list;
      backdatedIntentsDetected := backdatedIntentsDetected d;
      daemonConnectedAt := daemonConnectedAt d |}).

(** Lines 996-1119, for the answer [intents] of the platform and the
    policy as getPolicy returned it ([None] when the file could not be
    read): the steps taken, or [Throw] when the poll is abandoned (caught
    at line 1153), and the daemon afterwards in either case. The flag
    [backdatedIntentsDetected] is set before [updatePolicy] is awaited, so
    it stays set when that call rejects and the poll is abandoned. *)
Definition intake (v : IntentVerifier.Verifier) (io : Intake) (d : Daemon)
    (policy : option IntentVerifier.Policy) (intents : list SignedIntent)
  : result (list Step) * Daemon :=
  match intents with
  | [] => (Ok [], d)
  | _ =>
      (* auto-pause detection *)
      if negb (backdatedIntentsDetected d) then
        match connectedAt d with
        | Some connected =>
            match policy with
            | None => (Throw "Cannot read properties of null (reading 'automation')", d)
            | Some inForce =>
                if autoRebalancing inForce
                   && hasBackdatedRebalances io connected intents 0
                then
                  match updatePolicy io (pause inForce) with
                  | Throw e => (Throw e, setDetected d)
                  | Ok _ =>
                      admitInto v io (setDetected d) (Some (pause inForce)) intents
                                [PolicyUpdated (pause inForce)]
                  end
                else admitInto v io d policy intents []
            end
        | None => admitInto v io d policy intents []
        end
      else admitInto v io d policy intents []
  end.

End IntentIntake.

(** ** daemon-controller.js: the activity log *)

Module ActivityLog.

Record LogEntry := { timestamp : string; message : string; level : string }.

(** [this.maxLogs] (line 179). *)
Definition maxLogs : nat := 200.

(** What one call of [log] is given: the clock reading, the message and
    the level, ['info'] when it is left out. *)
Record LogCall := { at_ : string; text : string; givenLevel : option string }.

Definition entryOf (c : LogCall) : LogEntry :=
  {| timestamp := at_ c; message := text c;
     level := match givenLevel c with Some l => l | None => "info" end |}.

(** Lines 206-231, as far as [this.activityLogs] goes: push, then drop the
    oldest entry when there are more than [maxLogs]. *)
Definition log (activityLogs : list LogEntry) (c : LogCall) : list LogEntry :=
  let activityLogs := (activityLogs ++ [entryOf c])%list in
  if (maxLogs <? length activityLogs)%nat then tail activityLogs else activityLogs.

End ActivityLog.

(** ** daemon-controller.js: getProviderWithFallback *)

Module RpcFallback.

(** Lines 38-42. *)
Definition CHAINLIST_RPCS : list string :=
  [ "https://sonic.drpc.org"; "https://rpc.soniclabs.com"; "https://rpc.soniclabs.com" ].

(** [primaryRpc ? [primaryRpc, ...CHAINLIST_RPCS] : CHAINLIST_RPCS] *)
Definition rpcList (primaryRpc : option string) : list string :=
  match primaryRpc with
  | Some rpc => if String.eqb rpc "" then CHAINLIST_RPCS else rpc :: CHAINLIST_RPCS
  | None => CHAINLIST_RPCS
  end.

(** Lines 275-285: the loop, entered at the [k]-th endpoint;
    [responds k rpcUrl] tells whether [getBlockNumber()] of the [k]-th
    probe, sent to [rpcUrl], resolves. *)
Fixpoint probe (responds : nat -> string -> bool) (k : nat) (rpcs : list string)
  : result string :=
  match rpcs with
  | [] => Throw "All RPC endpoints failed"
  | rpcUrl :: rest =>
      if responds k rpcUrl then Ok rpcUrl else probe responds (S k) rest
  end.

Definition getProviderWithFallback (responds : nat -> string -> bool)
    (primaryRpc : option string) : result string :=
  probe responds 0 (rpcList primaryRpc).

End RpcFallback.

(** ** daemon-controller.js: the daemon configuration *)

Module DaemonConfig.

(** The numeric settings of config.json, each read through [Number] as
    the checks of [updateConfig] read them. *)
Record Config := {
  slippage : Q;
  swapSlippage : Q;
  minDeploymentUsd : Q
}.

(** Lines 147-153. *)
Definition DEFAULT_CONFIG : Config :=
  {| slippage := 3000 # 1; swapSlippage := 1 # 1; minDeploymentUsd := 5 # 1 |}.

(** The [updates] object: a field is [None] when undefined, and holds
    [Number(value)] otherwise, [None] for NaN. *)
Record Updates := {
  newSlippage : option (option Q);
  newSwapSlippage : option (option Q);
  newMinDeploymentUsd : option (option Q)
}.

(** [isNaN(x) || x < lo || x > hi] *)
Definition outside (x : option Q) (lo hi : Q) : bool :=
  match x with
  | None => true
  | Some x => IntentVerifier.Qltb x lo || IntentVerifier.Qltb hi x
  end.

Definition merged (current : Q) (update : option (option Q)) : Q :=
  match update with
  | Some (Some x) => x
  | _ => current
  end.

(** Lines 3376-3409; [written] is the outcome of [fs.writeFile], and the
    configuration returned is the one that becomes [this.config]. *)
Definition updateConfig (currentConfig : Config) (updates : Updates)
    (written : result unit) : result Config :=
  match newSlippage updates with
  | Some x =>
      if outside x (100 # 1) (5000 # 1)
      then Throw "Slippage must be between 100 (1%) and 5000 (50%)" else Ok tt
  | None => Ok tt
  end;;
  match newSwapSlippage updates with
  | Some x =>
      if outside x (5 # 100) (5 # 1)
      then Throw "Swap slippage must be between 0.05% and 5%" else Ok tt
  | None => Ok tt
  end;;
  match newMinDeploymentUsd updates with
  | Some x =>
      if outside x (1 # 10) (10 # 1)
      then Throw "Minimum deployment must be between 0.1 and 10.0 USD" else Ok tt
  | None => Ok tt
  end;;
  written;;
  Ok {| slippage := merged (slippage currentConfig) (newSlippage updates);
        swapSlippage := merged (swapSlippage currentConfig) (newSwapSlippage updates);
        minDeploymentUsd :=
          merged (minDeploymentUsd currentConfig) (newMinDeploymentUsd updates) |}.

(** The cached configuration after a series of update requests, the
    refused ones leaving it as it was. *)
Fixpoint applyUpdates (config : Config) (requests : list (Updates * result unit))
  : Config :=
  match requests with
  | [] => config
  | (updates, written) :: rest =>
      match updateConfig config updates written with
      | Ok newConfig => applyUpdates newConfig rest
      | Throw _ => applyUpdates config rest
      end
  end.

Definition withinLimits (c : Config) : Prop :=
  (100 # 1 <= slippage c <= 5000 # 1)%Q
  /\ (5 # 100 <= swapSlippage c <= 5 # 1)%Q
  /\ (1 # 10 <= minDeploymentUsd c <= 10 # 1)%Q.

End DaemonConfig.

(** ** platform-event-stream.js *)

Module PlatformEventStream.

Section Stream.

(** The events, as handed to [emit]. *)
Variable Event : Type.

Definition maxPendingEvents : nat := 100.

Record Stream := {
  enabled : bool;
  pendingEvents : list Event;
  (* the events handed to ws.send without an error, oldest first *)
  delivered : list Event
}.

(** What the socket does when an event is about to be sent. *)
Inductive Socket :=
| NotOpen          (* no socket, or readyState is not OPEN *)
| Sends            (* ws.send returns *)
| SendThrows.      (* ws.send throws *)

(** Lines 250-257. *)
Definition queueEvent (event : Event) (s : Stream) : Stream :=
  let pending := (pendingEvents s ++ [event])%list in
  {| enabled := enabled s;
     pendingEvents := if (maxPendingEvents <? length pending)%nat
                      then tail pending else pending;
     delivered := delivered s |}.

(** Lines 222-245. *)
Definition emit (socket : Socket) (event : Event) (s : Stream) : Stream :=
  if negb (enabled s) then s
  else
    match socket with
    | Sends => {| enabled := enabled s; pendingEvents := pendingEvents s;
                  delivered := (delivered s ++ [event])%list |}
    | SendThrows => queueEvent event s
    | NotOpen => queueEvent event s
    end.

(** Lines 262-283: the loop over the queue; [socket k] is the state of
    the socket at the [k]-th turn. *)
Fixpoint flush (socket : nat -> Socket) (k : nat) (pending : list Event)
    (sent : list Event) : list Event * list Event :=
  match pending with
  | [] => ([], sent)
  | event :: rest =>
      match socket k with
      | Sends => flush socket (S k) rest (sent ++ [event])%list
      | NotOpen => flush socket (S k) rest sent
      | SendThrows => (event :: rest, sent)
      end
  end.

Definition flushPendingEvents (socket : nat -> Socket) (s : Stream) : Stream :=
  let '(pending, sent) := flush socket 0 (pendingEvents s) (delivered s) in
  {| enabled := enabled s; pendingEvents := pending; delivered := sent |}.

End Stream.

(** Lines 158-172: the delay armed by one call, and the delay kept for
    the next. *)
Definition maxReconnectDelay : Z := 60000.

Definition scheduleReconnect (reconnectDelay : Z) : Z * Z :=
  (reconnectDelay, Z.min (reconnectDelay * 2) maxReconnectDelay).

(** The delays armed by [n] calls in a row, starting from
    [reconnectDelay]. *)
Fixpoint reconnectDelays (n : nat) (reconnectDelay : Z) : list Z :=
  match n with
  | O => []
  | S n' =>
      let '(armed, next) := scheduleReconnect reconnectDelay in
      armed :: reconnectDelays n' next
  end.

End PlatformEventStream.

(** ** Further vocabulary of the statements *)

Module SqrtRatioSpec.
Import UniswapMath.

(** The factors of lines 13-31 of uniswap-math.js, for bits 1 to 19. *)
Definition factors : list Z :=
  [ 0xfff97272373d413259a46990580e213a; 0xfff2e50f5f656932ef12357cf3c7fdcc;
    0xffe5caca7e10e4e61c3624eaa0941cd0; 0xffcb9843d60f6159c9db58835c926644;
    0xff973b41fa98c081472e6896dfb254c0; 0xff2ea16466c96a3843ec78b326b52861;
    0xfe5dee046a99a2a811c461f1969c3053; 0xfcbe86c7900a88aedcffc83b479aa3a4;
    0xf987a7253ac413176f2b074cf7815e54; 0xf3392b0822b70005940c7a398e4b70f3;
    0xe7159475a2c29b7443b29c7fa6e889d9; 0xd097f3bdfd2022b8845ad8f792aa5825;
    0xa9f746462d870fdf8a65dc1f90e061e5; 0x70d869a156d2a1b890bb3df62baf32f7;
    0x31be135f97d08fd981231505542fcfa6; 0x9aa508b5b7a84e1c677de54f3e99bc9;
    0x5d6af8dedb81196699c329225ee604; 0x2216e584f5fa1ea926041bedfe98;
    0x48a170391f7dc42444e8fa2 ].

(** The factor of bit 0 (line 12), the largest of all. *)
Definition factor0 : Z := 0xfffcb933bd6fad37aa2d162d1a594001.

(** The lines for bits [k], [k + 1], ... applied to [ratio]. *)
Fixpoint applyFactors (absTick k : Z) (fs : list Z) (ratio : Z) : Z :=
  match fs with
  | [] => ratio
  | factor :: fs' =>
      applyFactors absTick (k + 1) fs' (mulShift absTick (2 ^ k) factor ratio)
  end.

(** The ratio of line 31, before the inversion of line 33. *)
Definition ratioAt (absTick : Z) : Z :=
  applyFactors absTick 1 factors
    (if Z.land absTick 1 =? 0 then 2 ^ 128 else factor0).

(** The ratio reached when every factor is applied to [lo]. *)
Fixpoint lowerBound (fs : list Z) (lo : Z) : Z :=
  match fs with
  | [] => lo
  | factor :: fs' => lowerBound fs' (Z.shiftr (lo * factor) 128)
  end.

(** Either no bit below [k] is set and the ratio is still 2^128, or the
    ratio has come below the factor of bit 0. *)
Definition untouched (absTick k ratio : Z) : Prop :=
  (ratio = 2 ^ 128 /\ forall j, 0 <= j < k -> Z.testbit absTick j = false)
  \/ ratio <= factor0.

End SqrtRatioSpec.

Module PolicySpec.
Import IntentVerifier.

(** The policy with its network section removed. *)
Definition withoutNetwork (p : Policy) : Policy :=
  {| automation := automation p; spending := spending p;
     subscription := subscription p; network := None |}.

(** The same policy with both network limits set to [gas] and [slippage]. *)
Definition withLimits (p : Policy) (gas slippage : option Z) : Policy :=
  {| automation := automation p; spending := spending p;
     subscription := subscription p;
     network := Some {| maxGasPrice := gas; maxSlippageBps := slippage |} |}.

(** An integer that [parseInt] reads exactly: it prints in plain decimal
    digits, which a Number does below 10^21 in absolute value. *)
Definition readExactly (n : Z) : Prop := Z.abs n < 10 ^ 21.

(** An intent that offers 50 gwei per gas. *)
Definition gasIntent : Intent :=
  {| intentId := "intent-g";
     constraints := Some {| maxFeePerGas := Some 50000000000 |};
     recipe := None |}.

End PolicySpec.

Module HarvestSpec.
Import GracePeriodMonitor.

(** [tracked.shadowCollected] of a token id; an untracked one has none. *)
Definition collected (tokenId : Z) (m : Monitor) : bool :=
  match trackedPositions m !! tokenId with
  | Some t => shadowCollected t
  | None => false
  end.

(** How often a harvest was requested for [tokenId]. *)
Definition harvests (tokenId : Z) (m : Monitor) : nat :=
  count_occ Z.eq_dec (harvestRequests m) tokenId.

(** The harvests requested so far, plus the one still to come while the
    position is not marked as collected. *)
Definition harvestBudget (tokenId : Z) (m : Monitor) : nat :=
  harvests tokenId m + (if collected tokenId m then 0 else 1).

(** The token ids of the fetched positions that are in a grace state. *)
Definition graceIds (positions : list Position) : gset Z :=
  list_to_set (map tokenId (List.filter inGrace positions)).

(** One firing of the monitor's timer. *)
Record Check := {
  daemonAt : Daemon;
  fetchedAt : result (list Position);
  platformAt : Z -> CollectResponse;
  clockAt : nat -> Z
}.

(** Checks that run one after the other: each starts when the one before
    it has finished. (The timers of lines 77-83 start a check every 10 s
    without waiting for the previous one; checks that overlap are not
    described by this function.) *)
Fixpoint runChecks (checks : list Check) (m : Monitor) : Monitor :=
  match checks with
  | [] => m
  | c :: rest =>
      runChecks rest
        (checkGracePeriods (daemonAt c) (fetchedAt c) (platformAt c) (clockAt c) m)
  end.

(** The position is still listed in a grace state whenever the list is
    fetched. *)
Definition staysInGrace (tokenId : Z) (c : Check) : Prop :=
  forall positions, fetchedAt c = Ok positions -> tokenId ∈ graceIds positions.

Definition neverFails (tokenId : Z) (platform : Z -> CollectResponse) : Prop :=
  forall e, platform tokenId <> CollectFailed e.

Definition tierOf (position : Position) : Tier :=
  match tickLower position, tickUpper position with
  | Some lo, Some hi => getTierFromRange lo hi
  | _, _ => UNKNOWN
  end.

Definition track (position : Position) (m : Monitor) : Monitor :=
  match trackedPositions m !! tokenId position with
  | Some _ => m
  | None =>
      {| trackedPositions :=
           <[tokenId position := {| trackedExpiresAt := graceExpiresAt position;
                                    shadowCollected := false;
                                    tier := tierOf position |}]>
             (trackedPositions m);
         harvestRequests := harvestRequests m |}
  end.

Definition retier (position : Position) (m : Monitor) : Monitor :=
  {| trackedPositions :=
       alter (fun t => if isUnknown (tier t) && negb (isUnknown (tierOf position))
                       then {| trackedExpiresAt := trackedExpiresAt t;
                               shadowCollected := shadowCollected t;
                               tier := tierOf position |}
                       else t)
             (tokenId position) (trackedPositions m);
     harvestRequests := harvestRequests m |}.

Definition due (now : Z) (position : Position) (m : Monitor) : bool :=
  match graceExpiresAt position with
  | Some expiresAt =>
      ((expiresAt - now <? COLLECTION_THRESHOLD_MS)
       && negb (collected (tokenId position) m))
      || ((expiresAt - now <=? 0) && negb (collected (tokenId position) m))
  | None => false
  end.

End HarvestSpec.

Module FrameSpec.
Import DaemonController TrackerSpec.



End FrameSpec.

Module LedgerSpec.
Import DaemonController TrackerSpec.

(** The receipts handed to reportReceiptWithRetry so far. *)
Definition posted (s : State) : nat := length (reports (events s)).

(** The status that goes with a returned value. *)
Definition outcomeStatus (v : ReturnValue) : Status :=
  if success v then completed
  else if isSkipped v then skipped
  else if isPartial v then partial
  else failed.

(** A statement that reports when, and only when, it returns: falling
    through or throwing hands no receipt to reportReceiptWithRetry;
    returning has handed it one receipt, which is the last event of the
    log, with the status of the returned value. *)
Definition answered {A} (s : State) (f : Flow A) (s' : State) : Prop :=
  match f with
  | Next _ | Raise _ => posted s' = posted s
  | Return v =>
      posted s' = S (posted s)
      /\ exists r, last (events s') = Some (Reported r) /\ status r = outcomeStatus v
  end.

(** No rung of the ladder was started. *)
Definition sameAttempts (s s' : State) : Prop :=
  attemptsStarted (events s') = attemptsStarted (events s).

(** Nothing of the ladder has happened: no rung, no swap, no close. *)
Definition beforeLadder (s s' : State) : Prop :=
  sameAttempts s s'
  /\ swapsAttempted (events s') = swapsAttempted (events s).

(** The rungs started are the first [k] tolerances of [tiers]. *)
Definition climbed (tiers : list Z) (s s' : State) : Prop :=
  exists k, attemptsStarted (events s') = (attemptsStarted (events s) ++ take k tiers)%list.

(** What the [try] block of executeIntent does for a REBALANCE intent. *)
Definition bodyLedger (s : State) (f : Flow ReturnValue) (s' : State) : Prop :=
  answered s f s'
  /\ noNext f
  /\ match f with
     | Raise _ => beforeLadder s s'
     | _ => climbed SWAP_SLIPPAGE_TIERS s s'
            /\ (length (swapsAttempted (events s'))
                <= length (swapsAttempted (events s)) + 1)%nat
     end.

(** What one call of executeIntent has done when it resolves. *)
Definition intentLedger (s : State) (f : Flow ReturnValue) (s' : State) : Prop :=
  exists v,
    f = Next v
    /\ answered s (Return v : Flow ReturnValue) s'
    /\ climbed SWAP_SLIPPAGE_TIERS s s'
    /\ (length (swapsAttempted (events s'))
        <= length (swapsAttempted (events s)) + 1)%nat.

End LedgerSpec.

Module BoundedQueue.

(** [push] followed by one [shift] when the bound is exceeded. *)
Definition pushBounded {A : Type} (bound : nat) (l : list A) (x : A) : list A :=
  let l := (l ++ [x])%list in
  if (bound <? length l)%nat then tail l else l.

End BoundedQueue.

(** ** Further concrete runs *)

Module MoreScenarios.

Import DaemonController TierConfig Scenarios.

(** A daemon without saved tier preferences; one token approval is due. *)
Definition defaultPreferences : World :=
  {| setup := fun _ => None; walletAddress := 0xabc; ownerOf := Ok 0xabc;
     positions := fun _ => Ok position; poolTick := fun _ => Ok 250;
     tokenApprovals := (1%nat, None); poolFee := Ok 3000;
     tierEnabled := tierEnabledIn (loadTierPreferences None);
     buildTransaction := bundle true;
     sendTx := fun _ i => Mined (if (i =? 0)%nat then "0xclose" else "0xopen") 1;
     odosAssemble := fun _ => Ok tt; odosAllowanceSufficient := fun _ => Ok true;
     odosApprove := fun _ => Mined "0xapprove" 1;
     sendSwap := fun _ => Mined "0xswap" 1;
     otherAction := fun _ => ([], Ok returnSuccess) |}.

(** A REBALANCE intent whose recipe names no tier. *)
Definition untiered7 : Intent :=
  {| intentId := "intent-u"; action := REBALANCE;
     recipe := {| tokenId := 7; fromTier := None |} |}.

(** The position is back in range when the intent is validated. *)
Definition backInRange : World :=
  world (fun _ => 0) (bundle true) (fun _ => Mined "0xswap" 1).

(** The platform answers with an empty bundle. *)
Definition emptyBundle : World :=
  world outOfRange
        (fun _ => Ok {| transactions := Some []; needsSwap := false;
                        imbalanceData := false |})
        (fun _ => Mined "0xswap" 1).

End MoreScenarios.

Module IntakeScenarios.
Import IntentIntake.

Definition automatic : IntentVerifier.Policy :=
  {| IntentVerifier.automation :=
       Some {| IntentVerifier.autoRebalancing := Some true |};
     IntentVerifier.spending := None;
     IntentVerifier.subscription := None;
     IntentVerifier.network := None |}.

Definition payload (id : string) (a : DaemonController.Action) (ts : Timestamp)
  : Payload :=
  {| policyFields := {| IntentVerifier.intentId := id;
                        IntentVerifier.constraints := None;
                        IntentVerifier.recipe := None |};
     intent := {| DaemonController.intentId := id;
                  DaemonController.action := a;
                  DaemonController.recipe :=
                    {| DaemonController.tokenId := 7;
                       DaemonController.fromTier := Some "HOT" |} |};
     timestamp := ts;
     createdAt := NoTimestamp |}.

(** The daemon connected at 1700000000000 ms. *)
Definition connectedDaemon : Daemon :=
  {| pendingIntents := []; backdatedIntentsDetected := false;
     daemonConnectedAt := Some 1700000000000 |}.

(** Created 500 s after the connection, stamped in milliseconds. *)
Definition freshRebalance : Payload :=
  payload "intent-r" DaemonController.REBALANCE (NumberTimestamp 1700000500000).

(** Created 500 s after the connection, stamped in seconds. *)
Definition secondsRebalance : Payload :=
  payload "intent-s" DaemonController.REBALANCE (NumberTimestamp 1700000500).

(** Created an hour before the connection. *)
Definition staleRebalance : Payload :=
  payload "intent-o" DaemonController.REBALANCE (NumberTimestamp 1699996400000).

Definition withdrawal : Payload :=
  payload "intent-w" DaemonController.BATCH_WITHDRAW (NumberTimestamp 1700000500000).

Definition answers (payloads : list Payload) : Intake :=
  {| verifyIntent := fun _ i =>
       match payloads !! i with
       | Some p => Ok p
       | None => Throw "Invalid signature format"
       end;
     hourAt := fun _ => 12;
     executeBackdatedRebalances := fun _ => false;
     updatePolicy := fun _ => Ok tt |}.

(** The same answers, on a disk that refuses the policy file. *)
Definition readOnly (payloads : list Payload) : Intake :=
  {| verifyIntent := verifyIntent (answers payloads);
     hourAt := hourAt (answers payloads);
     executeBackdatedRebalances := executeBackdatedRebalances (answers payloads);
     updatePolicy := fun _ => Throw "EROFS: read-only file system, open 'policy.json'" |}.

Definition signedIntents (n : nat) : list SignedIntent :=
  replicate n {| signedIntentId := None |}.

End IntakeScenarios.

Module StreamScenarios.

Import PlatformEventStream.

Definition halfSent : Stream nat :=
  {| enabled := true; pendingEvents := [2; 3; 4]%nat; delivered := [1]%nat |}.

Definition throwsSecond (k : nat) : Socket :=
  if Nat.eqb k 1 then SendThrows else Sends.

Definition idle : Stream nat :=
  {| enabled := true; pendingEvents := []; delivered := [1]%nat |}.

End StreamScenarios.

(** ** Scenarios and notions for the tracker gate and the drift checks *)

Module GateScenarios.
Import DaemonController Scenarios.

(** The daemon has no sonic network configured: the set-up of every
    attempt throws (line 1256). *)
Definition noNetwork : World :=
  {| setup := fun _ => Some "Sonic network not configured";
     walletAddress := walletAddress calm;
     ownerOf := ownerOf calm;
     positions := positions calm;
     poolTick := poolTick calm;
     tokenApprovals := tokenApprovals calm;
     poolFee := poolFee calm;
     tierEnabled := tierEnabled calm;
     buildTransaction := buildTransaction calm;
     sendTx := sendTx calm;
     odosAssemble := odosAssemble calm;
     odosAllowanceSufficient := odosAllowanceSufficient calm;
     odosApprove := odosApprove calm;
     sendSwap := sendSwap calm;
     otherAction := otherAction calm |}.

(** The position is found back in range when it is validated. *)
Definition inRangeAgain : World :=
  world (fun _ => 0) (bundle true) (fun _ => Mined "0xswap" 1).

End GateScenarios.

Module OwnEntrySpec.
Import DaemonController TrackerSpec.

(** Two states that differ at most in what their trackers say about token
    ids other than [tokenId]. *)
Definition sameEntry (tokenId : Z) (s s0 : State) : Prop :=
  events s = events s0
  /\ positionClosed s = positionClosed s0
  /\ initialData s = initialData s0
  /\ (tokenId ∈ activePositions s <-> tokenId ∈ activePositions s0)
  /\ (tokenId ∈ closedPositions s <-> tokenId ∈ closedPositions s0).

(** Two statements that cannot tell such states apart. *)
Definition alike {A} (tokenId : Z) (m m0 : M A) : Prop :=
  forall s s0, sameEntry tokenId s s0 ->
               (m s).1 = (m0 s0).1 /\ sameEntry tokenId (m s).2 (m0 s0).2.

End OwnEntrySpec.

Module DriftSpec.
Import DaemonController TrackerSpec.



(** The CLOSE_POSITION transactions submitted in a log, by attempt and
    index in the bundle. *)
Definition closeSubmissions (l : list Event) : list (nat * nat) :=
  omap (fun e => match e with
                 | Submitted (BundleTx tierIndex i t) =>
                     if isClosePosition t then Some (tierIndex, i) else None
                 | _ => None
                 end) l.






(** What a statement appends to the log holds no close transaction. *)
Definition appendsNoClose {A} (s : State) : Flow A -> State -> Prop :=
  fun _ s' => exists new, events s' = (events s ++ new)%list
                          /\ closeSubmissions new = []
                          /\ positionClosed s' = positionClosed s.

End DriftSpec.

Module DriftScenarios.
Import DaemonController Scenarios.


End DriftScenarios.

(** * Liquidity mathematics *)

Section LiquidityMath.

Import UniswapMath.

Lemma getSqrtRatioAtTick_out_of_bounds tick :
  tick < -887272 \/ 887272 < tick ->
  getSqrtRatioAtTick tick = Throw "Tick out of bounds".
Proof.
  intros H. unfold getSqrtRatioAtTick.
  destruct (Z.gtb_spec (Z.abs tick) 887272); [reflexivity | lia].
Qed.

(** C6. sqrtPriceAtTick (getSqrtRatioAtTick) throws "Tick out of bounds"
    for every tick below -887272 or above 887272, in particular for 887273
    and -887273: no out-of-range tick is clamped to a value. At tick 0 it
    returns exactly 2^96. *)
Theorem sqrtPriceAtTick_domain :
  (forall tick, tick < -887272 \/ 887272 < tick ->
                getSqrtRatioAtTick tick = Throw "Tick out of bounds")
  /\ getSqrtRatioAtTick 887273 = Throw "Tick out of bounds"
  /\ getSqrtRatioAtTick (-887273) = Throw "Tick out of bounds"
  /\ getSqrtRatioAtTick 0 = Ok (2 ^ 96).
Proof.
  split; [exact getSqrtRatioAtTick_out_of_bounds|].
  repeat split; vm_compute; reflexivity.
Qed.

Lemma sqrtPriceAtTick_domain_witness :
  (1000000 < -887272 \/ 887272 < 1000000)
  /\ getSqrtRatioAtTick 1000000 = Throw "Tick out of bounds".
Proof.
  assert (H : 1000000 < -887272 \/ 887272 < 1000000) by (right; reflexivity).
  split; [exact H|].
  exact (proj1 sqrtPriceAtTick_domain 1000000 H).
Defined.

(** The truncated ratios at the two ends of the domain and next to 0. *)
Example sqrt_ratio_samples :
  getSqrtRatioAtTick (-887272) = Ok 4295128738
  /\ getSqrtRatioAtTick 887272 = Ok 1461446703485210103287273052203988822378723970341
  /\ getSqrtRatioAtTick 1 = Ok 79232123823359799118286999567
  /\ getSqrtRatioAtTick (-100) = Ok 78833030112140176575862854578
  /\ getSqrtRatioAtTick 100 = Ok 79625275426524748796330556127.
Proof. repeat split; vm_compute; reflexivity. Qed.

Lemma bigint_div_pos a b : 0 < b -> bigint_div a b = Ok (Z.quot a b).
Proof.
  intros Hb. unfold bigint_div. destruct (Z.eqb_spec b 0); [lia | reflexivity].
Qed.

Lemma ordered_lt a b : a < b -> ordered a b = (a, b).
Proof.
  intros H. unfold ordered. destruct (Z.gtb_spec a b); [lia | reflexivity].
Qed.

Lemma ordered_min_max a b : ordered a b = (Z.min a b, Z.max a b).
Proof.
  unfold ordered. destruct (Z.gtb_spec a b); f_equal; lia.
Qed.

Lemma Q96_pos : 0 < Q96.
Proof. reflexivity. Qed.

(** C7, as amended. With the price strictly inside the range,
    getLiquidityForAmounts returns the minimum of the liquidity implied by
    amount0 (over [price, upper]) and the liquidity implied by amount1 (over
    [lower, price]) when both amounts are non-zero; when amount0 is zero it
    returns the liquidity implied by amount1 alone, and when only amount1 is
    zero the liquidity implied by amount0 alone. *)
Theorem getLiquidityForAmounts_inside_range P A B a0 a1 :
  Z.min A B < P < Z.max A B ->
  let liquidity0 := Z.quot (a0 * Z.max A B * P) (Q96 * (Z.max A B - P)) in
  let liquidity1 := Z.quot (a1 * Q96) (P - Z.min A B) in
  getLiquidity0 P (Z.max A B) a0 = Ok liquidity0
  /\ getLiquidity1 (Z.min A B) P a1 = Ok liquidity1
  /\ getLiquidityForAmounts P A B a0 a1
     = Ok (if a0 =? 0 then liquidity1
           else if a1 =? 0 then liquidity0
           else Z.min liquidity0 liquidity1).
Proof.
  intros HP l0 l1.
  assert (H0 : getLiquidity0 P (Z.max A B) a0 = Ok l0).
  { unfold getLiquidity0. rewrite ordered_lt by lia.
    apply bigint_div_pos. unfold Q96. nia. }
  assert (H1 : getLiquidity1 (Z.min A B) P a1 = Ok l1).
  { unfold getLiquidity1. rewrite ordered_lt by lia.
    apply bigint_div_pos. lia. }
  repeat split; try assumption.
  unfold getLiquidityForAmounts. rewrite ordered_min_max.
  destruct (Z.leb_spec P (Z.min A B)); [lia|].
  destruct (Z.geb_spec P (Z.max A B)); [lia|].
  destruct (a0 =? 0); [exact H1|].
  destruct (a1 =? 0); [exact H0|].
  rewrite H0, H1. cbn. f_equal.
  destruct (Z.ltb_spec l0 l1); lia.
Qed.

Lemma getLiquidityForAmounts_inside_range_witness :
  getLiquidityForAmounts (2 * Q96) Q96 (3 * Q96) 5000 1000 = Ok 1000.
Proof.
  pose proof (getLiquidityForAmounts_inside_range (2 * Q96) Q96 (3 * Q96) 5000 1000) as H.
  destruct H as (_ & _ & H); [vm_compute; split; reflexivity|].
  rewrite H. vm_compute. reflexivity.
Defined.

(** C7 as stated fails when one amount is zero: with the price inside the
    range, amount0 = 0 and amount1 = 1000, the two implied liquidities are 0
    and 1000, their minimum is 0, and the function returns 1000. *)
Lemma inside_range_minimum_counterexample :
  let P := 2 * Q96 in
  let A := Q96 in
  let B := 3 * Q96 in
  A < P < B
  /\ getLiquidity0 P B 0 = Ok 0
  /\ getLiquidity1 A P 1000 = Ok 1000
  /\ getLiquidityForAmounts P A B 0 1000 = Ok 1000
  /\ getLiquidityForAmounts P A B 0 1000 <> Ok (Z.min 0 1000).
Proof.
  cbv zeta. repeat split; try (vm_compute; reflexivity); vm_compute; discriminate.
Qed.

(** Truncating [a * n / d] and converting back with [* d / n] never gains
    and loses at most [d / n + 1]. *)
Lemma floor_roundtrip a n d :
  0 <= a -> 0 < n -> 0 < d ->
  let x := a * n / d in
  let y := x * d / n in
  y <= a /\ a - y <= d / n + 1.
Proof.
  intros Ha Hn Hd x y.
  assert (Hx1 : x * d <= a * n) by (subst x; rewrite Z.mul_comm; apply Z.mul_div_le; lia).
  assert (Hx2 : a * n < x * d + d).
  { subst x. pose proof (Z.mod_pos_bound (a * n) d Hd).
    pose proof (Z.div_mod (a * n) d). nia. }
  assert (Hy1 : y * n <= x * d) by (subst y; rewrite Z.mul_comm; apply Z.mul_div_le; lia).
  assert (Hy2 : x * d < y * n + n).
  { subst y. pose proof (Z.mod_pos_bound (x * d) n Hn).
    pose proof (Z.div_mod (x * d) n). nia. }
  pose proof (Z.mod_pos_bound d n Hn).
  pose proof (Z.div_mod d n).
  split; nia.
Qed.

(** Token0 side: amount0 = L * Q96 * (hi - lo) / (hi * lo), and back. *)
Lemma roundtrip0 lo hi L :
  0 < lo < hi -> 0 <= L ->
  exists a0 L',
    getAmount0ForLiquidity lo hi L = Ok a0
    /\ getLiquidity0 lo hi a0 = Ok L'
    /\ 0 <= a0 /\ (a0 = 0 -> L' = 0)
    /\ L' <= L /\ L - L' <= unitLiquidity0 lo hi.
Proof.
  intros Hr HL. pose proof Q96_pos as HQ.
  unfold getAmount0ForLiquidity, getLiquidity0, unitLiquidity0.
  rewrite ordered_lt by lia.
  assert (Hn : 0 < Q96 * (hi - lo)) by nia.
  assert (Hd : 0 < hi * lo) by nia.
  eexists _, _. split; [apply bigint_div_pos; assumption|].
  split; [apply bigint_div_pos; assumption|].
  rewrite !Z.quot_div_nonneg; try lia.
  2:{ apply Z.mul_nonneg_nonneg; [|lia]. apply Z.mul_nonneg_nonneg; [|lia].
      replace (L * Q96 * (hi - lo)) with (L * (Q96 * (hi - lo))) by ring.
      apply Z.div_pos; nia. }
  2:{ nia. }
  replace (L * Q96 * (hi - lo)) with (L * (Q96 * (hi - lo))) by ring.
  set (a0 := L * (Q96 * (hi - lo)) / (hi * lo)).
  replace (a0 * hi * lo) with (a0 * (hi * lo)) by ring.
  pose proof (floor_roundtrip L (Q96 * (hi - lo)) (hi * lo) HL Hn Hd) as [H1 H2].
  fold a0 in H1, H2.
  split; [subst a0; apply Z.div_pos; nia|].
  split; [intros ->; reflexivity|].
  split; lia.
Qed.

(** Token1 side: amount1 = L * (hi - lo) / Q96, and back. *)
Lemma roundtrip1 lo hi L :
  lo < hi -> 0 <= L ->
  exists a1 L',
    getAmount1ForLiquidity lo hi L = Ok a1
    /\ getLiquidity1 lo hi a1 = Ok L'
    /\ 0 <= a1 /\ (a1 = 0 -> L' = 0)
    /\ L' <= L /\ L - L' <= unitLiquidity1 lo hi.
Proof.
  intros Hr HL. pose proof Q96_pos as HQ.
  unfold getAmount1ForLiquidity, getLiquidity1, unitLiquidity1.
  rewrite ordered_lt by lia.
  eexists _, _. split; [apply bigint_div_pos; lia|].
  split; [apply bigint_div_pos; lia|].
  rewrite !Z.quot_div_nonneg; try lia.
  2:{ apply Z.mul_nonneg_nonneg; [|lia]. apply Z.div_pos; nia. }
  2:{ nia. }
  set (a1 := L * (hi - lo) / Q96).
  pose proof (floor_roundtrip L (hi - lo) Q96 HL ltac:(lia) HQ) as [H1 H2].
  fold a1 in H1, H2.
  split; [subst a1; apply Z.div_pos; nia|].
  split; [intros ->; reflexivity|].
  split; lia.
Qed.

(** C8. For a valid range (0 < lower < upper square-root price), any
    current price and any liquidity L >= 0, getAmountsForLiquidity followed
    by getLiquidityForAmounts on the derived amounts returns a liquidity L'
    with L' <= L and L - L' at most [truncationTolerance]: the liquidity that
    one base unit of the binding token stands for, rounded up. *)
Theorem roundTrip_recovers_liquidity sqrtPriceX96 sqrtRatioAX96 sqrtRatioBX96 liquidity :
  0 < sqrtRatioAX96 < sqrtRatioBX96 ->
  0 <= liquidity ->
  exists recovered,
    roundTrip sqrtPriceX96 sqrtRatioAX96 sqrtRatioBX96 liquidity = Ok recovered
    /\ recovered <= liquidity
    /\ liquidity - recovered
       <= truncationTolerance sqrtPriceX96 sqrtRatioAX96 sqrtRatioBX96.
Proof.
  intros Hr HL.
  unfold roundTrip, getAmountsForLiquidity, getLiquidityForAmounts, truncationTolerance.
  rewrite ordered_lt by lia.
  destruct (Z.leb_spec sqrtPriceX96 sqrtRatioAX96) as [Hlo|Hlo].
  - destruct (roundtrip0 sqrtRatioAX96 sqrtRatioBX96 liquidity Hr HL)
      as (a0 & L' & Ha & HL' & _ & _ & Hle & Htol).
    rewrite Ha. cbn. rewrite HL'. eauto.
  - destruct (Z.geb_spec sqrtPriceX96 sqrtRatioBX96) as [Hhi|Hhi].
    + destruct (roundtrip1 sqrtRatioAX96 sqrtRatioBX96 liquidity ltac:(lia) HL)
        as (a1 & L' & Ha & HL' & _ & _ & Hle & Htol).
      rewrite Ha. cbn. rewrite HL'. eauto.
    + destruct (roundtrip0 sqrtPriceX96 sqrtRatioBX96 liquidity ltac:(lia) HL)
        as (a0 & L0 & Ha0 & HL0 & Hp0 & Hz0 & Hle0 & Htol0).
      destruct (roundtrip1 sqrtRatioAX96 sqrtPriceX96 liquidity ltac:(lia) HL)
        as (a1 & L1 & Ha1 & HL1 & Hp1 & Hz1 & Hle1 & Htol1).
      rewrite Ha0. cbn. rewrite Ha1. cbn.
      destruct (Z.eqb_spec a0 0) as [E0|E0].
      { rewrite HL1. exists L1. repeat split; lia. }
      destruct (Z.eqb_spec a1 0) as [E1|E1].
      { rewrite HL0. exists L0. repeat split; lia. }
      rewrite HL0. cbn. rewrite HL1. cbn.
      destruct (Z.ltb_spec L0 L1); eexists; (split; [reflexivity|]); lia.
Qed.

(** The range of ticks [-100, 100] at tick 0, liquidity 10^18. *)
Lemma roundTrip_recovers_liquidity_witness :
  exists recovered,
    roundTrip Q96 78833030112140176575862854578 79625275426524748796330556127
              1000000000000000000 = Ok recovered
    /\ recovered <= 1000000000000000000
    /\ 1000000000000000000 - recovered
       <= truncationTolerance Q96 78833030112140176575862854578
                              79625275426524748796330556127.
Proof.
  apply roundTrip_recovers_liquidity; [split; reflexivity | discriminate].
Defined.

Example roundTrip_sample :
  roundTrip Q96 78833030112140176575862854578 79625275426524748796330556127
            1000000000000000000 = Ok 999999999999999973
  /\ truncationTolerance Q96 78833030112140176575862854578
                         79625275426524748796330556127 = 201.
Proof. split; vm_compute; reflexivity. Qed.

End LiquidityMath.

(** * The policy gate *)

Section PolicyGate.

Import IntentVerifier Scenarios.

(** C9 as stated fails: the same intent under the same policy (allowed
    hours 9 to 17) is accepted at 10 o'clock and rejected at 20 o'clock. *)
Lemma validatePolicy_depends_on_the_clock :
  verdict (validatePolicy verifier 10 plainIntent (Some officeHours)) = (true, None)
  /\ verdict (validatePolicy verifier 20 plainIntent (Some officeHours))
     = (false, Some (OutsideAllowedHours 9 17 20)).
Proof. split; reflexivity. Qed.

(** C9, as amended. validatePolicy is a deterministic function of the
    intent, the policy in force (the argument, or the stored policy when the
    argument is omitted) and the current local hour: two invocations that
    agree on these return the same boolean and the same rejection reason,
    whatever else differs in the verifier. *)
Theorem validatePolicy_deterministic (v1 v2 : Verifier) (hour1 hour2 : Z)
    (intent : Intent) (policy1 policy2 : option Policy) :
  hour1 = hour2 ->
  effectivePolicy v1 policy1 = effectivePolicy v2 policy2 ->
  verdict (validatePolicy v1 hour1 intent policy1)
  = verdict (validatePolicy v2 hour2 intent policy2).
Proof.
  intros -> Hp. unfold validatePolicy. rewrite Hp.
  repeat match goal with
         | |- context [match ?x with _ => _ end] =>
             lazymatch x with
             | context [hasLogger] => fail
             | _ => destruct x eqn:?
             end
         end; reflexivity.
Qed.

Lemma validatePolicy_deterministic_witness :
  verdict (validatePolicy {| storedPolicy := officeHours; hasLogger := true |} 20
                          plainIntent None)
  = verdict (validatePolicy verifier 20 plainIntent (Some officeHours)).
Proof.
  apply validatePolicy_deterministic; reflexivity.
Defined.

End PolicyGate.

(** * The grace period monitor *)

Section GraceMonitor.

Import GracePeriodMonitor MonitorSpec Scenarios.


Lemma setCollected_requests tokenId m :
  harvestRequests (setCollected tokenId m) = harvestRequests m.
Proof. reflexivity. Qed.




End GraceMonitor.

(** * The position tracker and the REBALANCE ladder *)

Section ControllerLogic.

Import DaemonController TrackerSpec.

Lemma wp_bind {A B} (m : M A) (k : A -> M B) Q s :
  wp m (after k Q) s -> wp (m ≫= k) Q s.
Proof.
  unfold wp, after, mbind, M_bind, bind.
  destruct (m s) as [[a|v|e] s']; auto.
Qed.

Lemma wp_tryCatch {A} (m : M A) (h : string -> M A) Q s :
  wp m (fun f s' =>
          match f with
          | Raise e => wp (h e) Q s'
          | _ => Q f s'
          end) s ->
  wp (tryCatch m h) Q s.
Proof.
  unfold wp, tryCatch. destruct (m s) as [[a|v|e] s']; auto.
Qed.

Lemma wp_call (m : M ReturnValue) Q s :
  wp m (fun f s' =>
          match f with
          | Return v => Q (Next v) s'
          | _ => Q f s'
          end) s ->
  wp (call m) Q s.
Proof.
  unfold wp, call. destruct (m s) as [[a|v|e] s']; auto.
Qed.

Lemma wp_mret {A} (a : A) Q s : Q (Next a) s -> wp (mret a) Q s.
Proof. auto. Qed.

Lemma wp_ret {A} (a : A) Q s : Q (Next a) s -> wp (ret a) Q s.
Proof. auto. Qed.

Lemma wp_return {A} v (Q : Flow A -> State -> Prop) s :
  Q (Return v) s -> wp (return_ v) Q s.
Proof. auto. Qed.

Lemma wp_raise {A} e (Q : Flow A -> State -> Prop) s :
  Q (Raise e) s -> wp (raise e) Q s.
Proof. auto. Qed.

Lemma wp_get Q s : Q (Next s) s -> wp get Q s.
Proof. auto. Qed.

Lemma wp_modify f Q s : Q (Next tt) (f s) -> wp (modify f) Q s.
Proof. auto. Qed.

Lemma wp_emit e Q s : Q (Next tt) (addEvent e s) -> wp (emit e) Q s.
Proof. auto. Qed.

Lemma wp_report r Q s :
  Q (Next tt) (addEvent (Reported r) s) -> wp (reportReceiptWithRetry r) Q s.
Proof. auto. Qed.

Lemma wp_lift {A} (r : result A) Q s :
  match r with
  | Ok a => Q (Next a) s
  | Throw e => Q (Raise e) s
  end ->
  wp (lift r) Q s.
Proof. destruct r; auto. Qed.

Lemma wp_mono {A} (m : M A) (Q Q' : Flow A -> State -> Prop) s :
  wp m Q s -> (forall f s', Q f s' -> Q' f s') -> wp m Q' s.
Proof. unfold wp. auto. Qed.

Lemma trackerOf_addEvent e s : trackerOf (addEvent e s) = trackerOf s.
Proof. reflexivity. Qed.

Lemma trackerOf_setPositionClosed b s : trackerOf (setPositionClosed b s) = trackerOf s.
Proof. reflexivity. Qed.

Lemma trackerOf_setInitialData d s : trackerOf (setInitialData d s) = trackerOf s.
Proof. reflexivity. Qed.

Lemma trackerOf_setActive f s :
  trackerOf (setActive f s)
  = {| active := f (active (trackerOf s)); closed := closed (trackerOf s) |}.
Proof. reflexivity. Qed.

Lemma trackerOf_setClosed f s :
  trackerOf (setClosed f s)
  = {| active := active (trackerOf s); closed := f (closed (trackerOf s)) |}.
Proof. reflexivity. Qed.

Lemma tracker_eta (t : Tracker) : {| active := active t; closed := closed t |} = t.
Proof. destruct t; reflexivity. Qed.

Lemma ladder_cons w intent tl tu bps tiers tierIndex :
  ladder w intent tl tu (bps :: tiers) tierIndex
  = (emit (AttemptStarted tierIndex bps);;
     tryCatch
       (rebalanceAttempt w intent tierIndex bps tl tu)
       (fun message =>
          if (tierIndex =? length SWAP_SLIPPAGE_TIERS - 1)%nat then
            reportReceiptWithRetry
              {| status := failed;
                 reason := ErrorMessage message;
                 completedTxs := None;
                 attemptsExhausted := Some (length SWAP_SLIPPAGE_TIERS);
                 attempts := None;
                 txHashes := [];
                 swapSlippageUsed := None |};;
            return_ returnFailure
          else ret tt);;
     ladder w intent tl tu tiers (S tierIndex)).
Proof. reflexivity. Qed.

End ControllerLogic.

(** Symbolic execution of one statement, splitting on every answer of the
    outside world. *)
Ltac wp_step :=
  lazymatch goal with
  | |- TrackerSpec.wp (mbind _ _) _ _ => apply wp_bind
  | |- TrackerSpec.wp (DaemonController.tryCatch _ _) _ _ => apply wp_tryCatch
  | |- TrackerSpec.wp (DaemonController.call _) _ _ => apply wp_call
  | |- TrackerSpec.wp (mret _) _ _ => apply wp_mret
  | |- TrackerSpec.wp (DaemonController.ret _) _ _ => apply wp_ret
  | |- TrackerSpec.wp (DaemonController.return_ _) _ _ => apply wp_return
  | |- TrackerSpec.wp (DaemonController.raise _) _ _ => apply wp_raise
  | |- TrackerSpec.wp DaemonController.get _ _ => apply wp_get
  | |- TrackerSpec.wp (DaemonController.modify _) _ _ => apply wp_modify
  | |- TrackerSpec.wp (DaemonController.emit _) _ _ => apply wp_emit
  | |- TrackerSpec.wp (DaemonController.reportReceiptWithRetry _) _ _ => apply wp_report
  | |- TrackerSpec.wp (DaemonController.lift ?r) _ _ => apply wp_lift; destruct r eqn:?
  | |- TrackerSpec.wp (if ?b then _ else _) _ _ => destruct b eqn:?
  | |- TrackerSpec.wp (match ?x with _ => _ end) _ _ => destruct x eqn:?
  | |- TrackerSpec.after _ _ _ _ => unfold TrackerSpec.after at 1; cbv beta iota
  end.

Ltac wp_run := repeat (wp_step; cbv beta iota).

(** Use the specification [H] of a sub-statement, then go on by cases on
    how it ended. *)
Ltac use_spec H :=
  eapply wp_mono;
  [ eapply H; eauto
  | cbv beta; intros [?|?|?] ? ?; cbv beta iota;
    try (unfold TrackerSpec.after at 1; cbv beta iota) ].

Ltac tracker_simpl :=
  unfold TrackerSpec.settled, TrackerSpec.noNext, TrackerSpec.inert in *;
  cbn [DaemonController.success DaemonController.returnSkipped
       DaemonController.returnSuccess DaemonController.returnFailure
       DaemonController.returnPartial] in *;
  repeat first [ rewrite trackerOf_addEvent in *
               | rewrite trackerOf_setPositionClosed in *
               | rewrite trackerOf_setInitialData in *
               | rewrite trackerOf_setActive in *
               | rewrite trackerOf_setClosed in * ].

Ltac tracker_done :=
  repeat match goal with
         | H : _ /\ _ |- _ => destruct H
         end;
  repeat match goal with
         | H : DaemonController.success ?v = _,
           H' : context [if DaemonController.success ?v then _ else _] |- _ =>
             rewrite H in H'
         | H : DaemonController.success ?v = _
           |- context [if DaemonController.success ?v then _ else _] => rewrite H
         | H : TrackerSpec.trackerOf ?s = _ |- context [TrackerSpec.trackerOf ?s] =>
             rewrite H
         | H : TrackerSpec.trackerOf ?s = _,
           H' : context [TrackerSpec.trackerOf ?s] |- _ => rewrite H in H'
         end;
  repeat split; solve [assumption | reflexivity | constructor | auto].

Ltac by_tracker :=
  repeat match goal with
         | H : TrackerSpec.trackerOf ?s = _ |- context [TrackerSpec.trackerOf ?s] =>
             rewrite H
         end;
  solve [assumption | discriminate | congruence].

(** Symbolic execution along the one path that the hypotheses select. *)
Ltac state_simpl :=
  cbn [DaemonController.positionClosed DaemonController.initialData
       DaemonController.events DaemonController.activePositions
       DaemonController.closedPositions DaemonController.addEvent
       DaemonController.setPositionClosed DaemonController.setInitialData
       DaemonController.setActive DaemonController.setClosed
       DaemonController.initialState andb orb negb
       DaemonController.transactions DaemonController.needsSwap
       DaemonController.imbalanceData Nat.eqb Nat.ltb Nat.leb].

Ltac wp_known :=
  lazymatch goal with
  | |- TrackerSpec.wp (DaemonController.lift ?r) _ _ =>
      apply wp_lift; match goal with H : r = _ |- _ => rewrite H end
  | |- TrackerSpec.wp (if ?b then _ else _) _ _ =>
      first [ match goal with H : b = _ |- _ => rewrite H end
            | match goal with
              | H : ?x = _ |- _ =>
                  match b with context [x] => rewrite H; state_simpl end
              end
            | progress state_simpl
            | progress (rewrite ?Z.eqb_refl; state_simpl) ]
  | |- TrackerSpec.wp (match ?x with _ => _ end) _ _ =>
      first [ match goal with H : x = _ |- _ => rewrite H end
            | progress state_simpl ]
  | |- TrackerSpec.wp (mbind _ _) _ _ => apply wp_bind
  | |- TrackerSpec.wp (DaemonController.tryCatch _ _) _ _ => apply wp_tryCatch
  | |- TrackerSpec.wp (DaemonController.call _) _ _ => apply wp_call
  | |- TrackerSpec.wp (mret _) _ _ => apply wp_mret
  | |- TrackerSpec.wp (DaemonController.ret _) _ _ => apply wp_ret
  | |- TrackerSpec.wp (DaemonController.return_ _) _ _ => apply wp_return
  | |- TrackerSpec.wp (DaemonController.raise _) _ _ => apply wp_raise
  | |- TrackerSpec.wp DaemonController.get _ _ => apply wp_get
  | |- TrackerSpec.wp (DaemonController.modify _) _ _ => apply wp_modify
  | |- TrackerSpec.wp (DaemonController.emit _) _ _ => apply wp_emit
  | |- TrackerSpec.wp (DaemonController.reportReceiptWithRetry _) _ _ => apply wp_report
  | |- TrackerSpec.after _ _ _ _ => unfold TrackerSpec.after at 1; cbv beta iota
  end.

Ltac wp_follow := repeat (wp_known; cbv beta iota).

(** Follow the hypotheses where they decide, split by cases elsewhere. *)
Ltac wp_auto := repeat (first [wp_known | wp_step]; cbv beta iota).

Section TrackerInvariant.

Import DaemonController TrackerSpec.

Lemma submitAndWait_inert tx o msg T s :
  trackerOf s = T -> wp (submitAndWait tx o msg) (inert T) s.
Proof.
  intros HT. unfold submitAndWait, inert. wp_run; auto.
Qed.

Lemma odosSwap_inert w tierIndex bps hashes T s :
  trackerOf s = T -> wp (odosSwap w tierIndex bps hashes) (inert T) s.
Proof.
  intros HT. unfold odosSwap, submitAndWait, inert. wp_run; auto.
Qed.

Lemma runTransactions_inert w tierIndex bps build tl tu rest :
  forall i hashes T s,
    trackerOf s = T ->
    wp (runTransactions w tierIndex bps build tl tu rest i hashes) (inert T) s.
Proof.
  induction rest as [|transaction rest IH]; intros i hashes T s HT; cbn [runTransactions].
  - wp_run. split; auto.
  - unfold submitAndWait.
    wp_run;
      try (use_spec odosSwap_inert);
      unfold inert in *;
      try (apply IH); try tauto; try (split; [assumption | auto; reflexivity]).
Qed.

Lemma markClosed_spec tokenId T s (Q : Flow unit -> State -> Prop) :
  trackerOf s = T ->
  (forall s', trackerOf s' = closedTracker tokenId T ->
              events s' = events s -> Q (Next tt) s') ->
  wp (markClosed tokenId) Q s.
Proof.
  intros HT HQ. unfold markClosed. wp_run. apply HQ; [|reflexivity].
  tracker_simpl. rewrite HT. reflexivity.
Qed.

Lemma rebalanceAttempt_settled w intent tierIndex bps tl tu T s :
  trackerOf s = T ->
  wp (rebalanceAttempt w intent tierIndex bps tl tu)
     (fun f s' => settled (tokenId (recipe intent)) T f s' /\ noNext f
                  /\ match f with Return v => success v = false \/ v = returnSuccess
                             | _ => True end) s.
Proof.
  intros HT. unfold rebalanceAttempt.
  wp_run; tracker_simpl; try tracker_done.
  all: use_spec runTransactions_inert; tracker_simpl; try tracker_done.
  all: wp_run.
  all: eapply markClosed_spec; [tracker_simpl; tracker_done|]; intros s2 Hs2 _.
  all: wp_run; tracker_simpl; try tracker_done.
Qed.

Lemma ladder_settled w intent tl tu tiers :
  forall tierIndex T s,
    trackerOf s = T ->
    (tierIndex + length tiers = length SWAP_SLIPPAGE_TIERS)%nat ->
    wp (ladder w intent tl tu tiers tierIndex)
       (fun f s' => concluded (tokenId (recipe intent)) T f s'
                    /\ (tiers <> [] -> noNext f)) s.
Proof.
  induction tiers as [|bps tiers IH]; intros tierIndex T s HT Hlen; cbn [ladder].
  - wp_run. unfold concluded. tracker_simpl. tracker_done.
  - wp_run.
    use_spec rebalanceAttempt_settled; unfold concluded; tracker_simpl;
      try tracker_done; try tauto.
    wp_run; tracker_simpl; try tracker_done.
    destruct tiers as [|bps' tiers].
    + cbn [length] in Hlen.
      match goal with H : (_ =? _)%nat = false |- _ => apply Nat.eqb_neq in H end.
      cbn [SWAP_SLIPPAGE_TIERS length] in *. lia.
    + use_spec IH; unfold concluded in *; tracker_simpl; try tracker_done.
      cbn [length] in *. lia.
Qed.

Lemma rebalance_settled w intent T s :
  trackerOf s = T ->
  wp (rebalance w intent)
     (fun f s' => concluded (tokenId (recipe intent)) T f s' /\ noNext f) s.
Proof.
  intros HT. unfold rebalance. cbv zeta.
  wp_run; unfold concluded; tracker_simpl; try tracker_done.
  all: use_spec ladder_settled; unfold concluded in *; tracker_simpl; try tracker_done.
  all: try (match goal with H : _ /\ (_ -> False) |- _ => destruct H as [_ Hn] end;
            exfalso; apply Hn; discriminate).
Qed.

Lemma validatePosition_settled w intent T s :
  trackerOf s = T ->
  wp (validatePosition w intent)
     (fun f s' => settled (tokenId (recipe intent)) T f s'
                  /\ match f with Return v => success v = false | _ => True end) s.
Proof.
  intros HT. unfold validatePosition.
  wp_run; tracker_simpl; try tracker_done.
  all: try (eapply markClosed_spec; [tracker_simpl; tracker_done|]; intros s2 Hs2 _;
            wp_run; tracker_simpl; rewrite ?Hs2; try tracker_done).
  all: try (unfold release; wp_run; tracker_simpl; rewrite ?HT; try tracker_done).
Qed.

Lemma submitApprovals_events n :
  forall s (Q : Flow unit -> State -> Prop),
    (forall s', trackerOf s' = trackerOf s ->
                positionClosed s' = positionClosed s ->
                initialData s' = initialData s ->
                events s' = (events s ++ replicate n (Submitted ApproveNFPM))%list ->
                Q (Next tt) s') ->
    wp (submitApprovals n) Q s.
Proof.
  induction n as [|n IH]; intros s Q HQ; cbn [submitApprovals].
  - wp_run. apply HQ; auto. cbn. rewrite app_nil_r. reflexivity.
  - wp_run. apply IH. intros s' H1 H2 H3 H4. apply HQ; auto.
    rewrite H4. cbn. rewrite <- app_assoc. reflexivity.
Qed.

Lemma ensureTokenApprovals_inert w T s :
  trackerOf s = T ->
  wp (ensureTokenApprovals w)
     (fun f s' => trackerOf s' = T /\ match f with Return _ => False | _ => True end) s.
Proof.
  intros HT. unfold ensureTokenApprovals. destruct (tokenApprovals w) as [sent error].
  wp_run. apply submitApprovals_events. intros s' Hs' _ _ _.
  wp_run; split; auto; congruence.
Qed.

Lemma executeOther_inert w intent T s :
  trackerOf s = T ->
  wp (executeOther w intent) (fun f s' => trackerOf s' = T) s.
Proof.
  intros HT. unfold executeOther. destruct (otherAction w intent) as [evs r].
  assert (Hfold : forall evs s, trackerOf (fold_left (fun s e => addEvent e s) evs s)
                                = trackerOf s).
  { clear. induction evs as [|e evs IH]; intros s; cbn [fold_left]; [reflexivity|].
    rewrite IH. reflexivity. }
  wp_run; rewrite Hfold; exact HT.
Qed.

Lemma kept_refl T : trackerDisjoint T -> kept T T.
Proof. intros Hd. split; [exact Hd | reflexivity]. Qed.

Lemma kept_step tokenId T0 T T' :
  kept T0 T -> TrackerStep tokenId T T' -> kept T0 T'.
Proof.
  unfold kept, trackerDisjoint. intros [Hd Hc] Hstep.
  destruct Hstep; cbn; split; set_solver.
Qed.

Lemma kept_closedTracker tokenId T0 T :
  kept T0 T -> kept T0 (closedTracker tokenId T).
Proof.
  unfold kept, trackerDisjoint, closedTracker. intros [Hd Hc]. cbn. split; set_solver.
Qed.

Lemma kept_locked tokenId T0 T :
  kept T0 T -> tokenId ∉ closed T ->
  kept T0 {| active := active T ∪ {[tokenId]}; closed := closed T |}.
Proof.
  unfold kept, trackerDisjoint. intros [Hd Hc] Hn. cbn. split; set_solver.
Qed.

Lemma kept_released tokenId T0 T :
  kept T0 T -> kept T0 {| active := active T ∖ {[tokenId]}; closed := closed T |}.
Proof.
  unfold kept, trackerDisjoint. intros [Hd Hc]. cbn. split; set_solver.
Qed.

Lemma closedTracker_closed tokenId T : tokenId ∈ closed (closedTracker tokenId T).
Proof. unfold closedTracker. cbn. set_solver. Qed.

Lemma executed_other intent T0 f s' :
  isRebalance (action intent) = false ->
  kept T0 (trackerOf s') ->
  executed intent T0 f s'.
Proof. intros Hact Hd. split; [exact Hd | congruence]. Qed.

Lemma executed_unsuccessful intent T0 (f : Flow ReturnValue) s' :
  kept T0 (trackerOf s') ->
  match f with Return v | Next v => success v = false | Raise _ => True end ->
  executed intent T0 f s'.
Proof.
  intros Hd Hf. split; [exact Hd|].
  intros _ v [->| ->] Hs; congruence.
Qed.

Lemma executed_closed intent T0 (f : Flow ReturnValue) s' T :
  kept T0 T ->
  trackerOf s' = closedTracker (tokenId (recipe intent)) T ->
  executed intent T0 f s'.
Proof.
  intros Hd Hs. unfold executed. rewrite Hs. split.
  - apply kept_closedTracker, Hd.
  - intros. apply closedTracker_closed.
Qed.

Lemma executed_flow intent T0 v f s' :
  executed intent T0 f s' -> f = Next v \/ f = Return v ->
  executed intent T0 (Next v) s' /\ executed intent T0 (Return v) s'.
Proof.
  intros [Hd Hc] Hf. split; (split; [exact Hd|]); intros Hact v' Hv Hs;
    (assert (v' = v) as -> by (destruct Hv; congruence)); eapply Hc; eauto.
Qed.

(** The four ways through the gate of lines 1282-1312. *)
Lemma trackerGate_spec intent T s (Q : Flow unit -> State -> Prop) :
  trackerOf s = T ->
  (isRebalance (action intent) = false -> Q (Next tt) s) ->
  (isRebalance (action intent) = true ->
   tokenId (recipe intent) ∈ active T ->
   Q (Return returnSkipped)
     (addEvent (Reported (receipt skipped (AlreadyProcessing (tokenId (recipe intent))))) s)) ->
  (isRebalance (action intent) = true ->
   tokenId (recipe intent) ∉ active T ->
   tokenId (recipe intent) ∈ closed T ->
   Q (Return returnSkipped)
     (addEvent (Reported (receipt skipped (AlreadyClosed (tokenId (recipe intent))))) s)) ->
  (isRebalance (action intent) = true ->
   tokenId (recipe intent) ∉ active T ->
   tokenId (recipe intent) ∉ closed T ->
   Q (Next tt) (setActive (fun active => active ∪ {[tokenId (recipe intent)]}) s)) ->
  wp (trackerGate intent) Q s.
Proof.
  intros HT H0 H1 H2 H3. subst T. unfold trackerGate.
  destruct (isRebalance (action intent)); wp_run; auto.
  - match goal with H : bool_decide _ = true |- _ => apply bool_decide_eq_true in H end.
    auto.
  - match goal with H : bool_decide _ = true |- _ => apply bool_decide_eq_true in H end.
    match goal with H : bool_decide _ = false |- _ => apply bool_decide_eq_false in H end.
    auto.
  - repeat match goal with
           | H : bool_decide _ = false |- _ => apply bool_decide_eq_false in H
           end.
    auto.
Qed.

Ltac by_kept :=
  repeat match goal with
         | H : TrackerSpec.trackerOf ?s = _ |- context [TrackerSpec.trackerOf ?s] =>
             rewrite H
         end;
  solve [ assumption
        | eapply kept_step; eassumption
        | eapply kept_closedTracker; eassumption ].

Lemma executeIntentBody_executed w intent attempt T0 s :
  kept T0 (trackerOf s) ->
  wp (executeIntentBody w intent attempt) (executed intent T0) s.
Proof.
  intros Hd. unfold executeIntentBody.
  wp_step. wp_step; cbv beta iota; wp_run.
  { apply executed_unsuccessful; [exact Hd | exact I]. }
  eapply trackerGate_spec; [reflexivity| | | |].
  - (* another action: the tracker is never touched *)
    intros Hact. rewrite Hact. wp_run.
    use_spec ensureTokenApprovals_inert;
      match goal with H : _ /\ _ |- _ => destruct H as [H1 H2] end; try tauto.
    2:{ apply executed_other; by_kept. }
    wp_run.
    2:{ apply executed_other; by_kept. }
    use_spec executeOther_inert; apply executed_other; by_kept.
  - intros _ _. apply executed_unsuccessful; [exact Hd | reflexivity].
  - intros _ _ _. apply executed_unsuccessful; [exact Hd | reflexivity].
  - intros Hact Hna Hnc. rewrite Hact. wp_run.
    set (s1 := setActive _ s).
    assert (Hd1 : kept T0 (trackerOf s1)).
    { subst s1. tracker_simpl. apply kept_locked; assumption. }
    use_spec validatePosition_settled; tracker_simpl;
      match goal with H : _ /\ _ |- _ => destruct H as [H1 H2] end.
    2:{ rewrite H2 in H1. apply executed_unsuccessful; [|exact H2].
        eapply kept_step; eassumption. }
    2:{ apply executed_unsuccessful; [by_kept | exact I]. }
    wp_run.
    use_spec ensureTokenApprovals_inert;
      match goal with H : _ /\ _ |- _ => destruct H as [H3 H4] end; try tauto.
    2:{ apply executed_unsuccessful; [by_kept | exact I]. }
    wp_run.
    2:{ apply executed_unsuccessful; [by_kept | exact I]. }
    use_spec rebalance_settled; unfold concluded in *; tracker_simpl;
      match goal with H : _ /\ _ |- _ => destruct H as [[H5 H6] H7] end; try tauto.
    + destruct H6 as [H6| ->].
      * rewrite H6 in H5. apply executed_unsuccessful; [|exact H6].
        eapply kept_step; [|eassumption]. by_kept.
      * cbn in H5. eapply executed_closed; [|exact H5]. by_kept.
    + apply executed_unsuccessful; [by_kept | exact I].
Qed.

Lemma failPermanently_spec intent attempt message T0 s :
  kept T0 (trackerOf s) ->
  wp (failPermanently intent attempt message)
     (fun f s' => f = Return returnFailure /\ kept T0 (trackerOf s')) s.
Proof.
  intros Hd. unfold failPermanently, release.
  wp_run; (split; [reflexivity|]); tracker_simpl; try exact Hd.
  apply kept_released, Hd.
Qed.

(** executeIntent always returns a value, and leaves the tracker as
    [executed] says: the call budget is never exhausted. *)
Lemma executeIntentAt_executed budget w intent T0 :
  forall attempt s,
    (MAX_RETRIES <= attempt + budget)%nat ->
    kept T0 (trackerOf s) ->
    wp (executeIntentAt budget w intent attempt)
       (fun f s' => executed intent T0 f s' /\ exists v, f = Next v) s.
Proof.
  induction budget as [|budget IH]; intros attempt s Hb Hd; cbn [executeIntentAt].
  all: wp_run; use_spec executeIntentBody_executed.
  all: try (split; [eapply executed_flow; eauto | eauto]).
  all: match goal with H : executed _ _ _ ?s |- _ =>
         assert (Hd1 : kept T0 (trackerOf s)) by apply H
       end.
  all: unfold handleFailure; wp_run.
  all: try (use_spec failPermanently_spec;
            match goal with H : _ = Return _ /\ _ |- _ => destruct H as [Hf Hd'] end;
            try discriminate; injection Hf as ->;
            split; [apply executed_unsuccessful; [exact Hd' | reflexivity] | eauto]).
  - match goal with
    | H : (_ && (_ <? _)%nat) = true |- _ =>
        apply andb_prop in H as [_ Hlt]; apply Nat.ltb_lt in Hlt
    end.
    unfold MAX_RETRIES in *. lia.
  - use_spec IH; [lia | | | ];
      match goal with H : _ /\ (exists _, _) |- _ => destruct H as [He [v' Hv]] end;
      try discriminate.
    injection Hv as ->. wp_run.
    split; [eapply executed_flow; eauto | eauto].
Qed.

(** One call of executeIntent: it returns, the sets stay disjoint, the
    closed set only grows, and success of a REBALANCE closes its position. *)
Lemma executeIntent_spec w intent t :
  trackerDisjoint t ->
  exists v,
    returned (executeIntent w intent t).1 = Some v
    /\ trackerDisjoint (executeIntent w intent t).2
    /\ closed t ⊆ closed (executeIntent w intent t).2
    /\ (action intent = REBALANCE -> success v = true ->
        tokenId (recipe intent) ∈ closed (executeIntent w intent t).2).
Proof.
  intros Hd. unfold executeIntent.
  pose proof (executeIntentAt_executed (MAX_RETRIES - 1) w intent t 1 (initialState t)) as H.
  unfold wp in H.
  destruct (executeIntentAt (MAX_RETRIES - 1) w intent 1 (initialState t)) as [f s'].
  cbn [fst snd] in *.
  destruct H as [[[H1 H1'] H2] [v ->]];
    [ unfold MAX_RETRIES; lia
    | replace (trackerOf (initialState t)) with t by (destruct t; reflexivity);
      apply kept_refl; exact Hd
    | ].
  exists v. split; [reflexivity|]. split; [exact H1|]. split; [exact H1'|].
  intros Hact Hs. eapply H2; eauto. rewrite Hact. reflexivity.
Qed.

End TrackerInvariant.

Section TrackerGate.

Import DaemonController TrackerSpec Scenarios.

Lemma executeIntent_closed w intent t :
  action intent = REBALANCE ->
  setup w 1%nat = None ->
  tokenId (recipe intent) ∉ active t ->
  tokenId (recipe intent) ∈ closed t ->
  executeIntent w intent t
  = (skippedOutcome (AlreadyClosed (tokenId (recipe intent))), t).
Proof.
  intros Hact Hsetup Hna Hc.
  unfold executeIntent, executeIntentAt, call, tryCatch, executeIntentBody,
    trackerGate, reportReceiptWithRetry, emit, modify, get, return_, raise,
    mbind, M_bind, bind, mret, M_ret, ret.
  cbn. rewrite Hsetup, Hact. cbn.
  rewrite bool_decide_eq_false_2 by exact Hna.
  rewrite bool_decide_eq_true_2 by exact Hc.
  cbn. rewrite tracker_eta. reflexivity.
Qed.


Example closed_position_run :
  (processIntents (fun _ => calm) [rebalance7 "intent-a"; rebalance7 "intent-b"]
                  0 closed7).1
  = [skippedOutcome (AlreadyClosed 7); skippedOutcome (AlreadyClosed 7)].
Proof. vm_compute. reflexivity. Qed.

(** C10. The active and the closed set of every tracker the daemon can
    reach are disjoint: both start empty, the gate adds a token id to the
    active set only when it is in neither set, every addition to the closed
    set follows the removal from the active set, and everything else only
    removes from the active set. *)
Theorem active_and_closed_disjoint (t : Tracker) :
  reachable t -> trackerDisjoint t.
Proof.
  induction 1 as [|w intent t _ IH].
  - unfold trackerDisjoint. cbn. set_solver.
  - destruct (executeIntent_spec w intent t IH) as (_ & _ & Hd & _ & _). exact Hd.
Qed.

Lemma active_and_closed_disjoint_witness :
  trackerDisjoint (executeIntent calm (rebalance7 "intent-a") fresh).2.
Proof.
  apply active_and_closed_disjoint.
  apply reachable_executeIntent. apply reachable_initial.
Defined.

(** The three tracker updates, one by one. *)
Lemma tracker_updates_keep_disjoint (tokenId : Z) (s : State) :
  trackerDisjoint (trackerOf s) ->
  (tokenId ∉ closedPositions s ->
   trackerDisjoint (trackerOf (setActive (fun active => active ∪ {[tokenId]}) s)))
  /\ trackerDisjoint (trackerOf (release tokenId s).2)
  /\ trackerDisjoint (trackerOf (markClosed tokenId s).2).
Proof.
  unfold trackerDisjoint. intros Hd. repeat split; cbn; set_solver.
Qed.

End TrackerGate.

(** ** The gate when the provider set-up may throw *)

Section ClosedGate.

Import DaemonController TrackerSpec Scenarios GateScenarios.

Lemma setActive_release_absent tokenId s :
  tokenId ∉ activePositions s ->
  setActive (fun active => active ∖ {[tokenId]}) s = s.
Proof.
  intros H. destruct s as [a c ev pc ini]. unfold setActive. cbn in *.
  f_equal. apply difference_disjoint_L. set_solver.
Qed.

Lemma failPermanently_closed intent attempt message s :
  tokenId (recipe intent) ∉ activePositions s ->
  exists r,
    failPermanently intent attempt message s
    = (Return returnFailure, addEvent (Reported r) s)
    /\ status r = failed.
Proof.
  intros Hna. eexists. split.
  - unfold failPermanently, release, reportReceiptWithRetry, emit, modify, return_,
      mbind, M_bind, bind, mret, M_ret, ret.
    destruct (isRebalance (action intent) && negb (tokenId (recipe intent) =? 0));
      cbn; rewrite ?setActive_release_absent by exact Hna; reflexivity.
  - reflexivity.
Qed.

(** A REBALANCE intent for a token id that is closed and not active: the
    gate skips it when the set-up of the attempt succeeds; when the set-up
    throws the intent is retried or fails, and in every case it leaves one
    receipt and the state as it was. *)
Lemma executeIntentAt_closed budget w intent :
  forall attempt s,
    (MAX_RETRIES <= attempt + budget)%nat ->
    action intent = REBALANCE ->
    tokenId (recipe intent) ∉ activePositions s ->
    tokenId (recipe intent) ∈ closedPositions s ->
    exists v r,
      executeIntentAt budget w intent attempt s = (Next v, addEvent (Reported r) s)
      /\ ((v = returnSkipped
           /\ r = receipt skipped (AlreadyClosed (tokenId (recipe intent))))
          \/ (v = returnFailure /\ status r = failed /\ setup w attempt <> None))
      /\ (setup w attempt = None ->
          v = returnSkipped
          /\ r = receipt skipped (AlreadyClosed (tokenId (recipe intent)))).
Proof.
  induction budget as [|budget IH]; intros attempt s Hbudget Hact Hna Hc.
  all: cbn [executeIntentAt];
    unfold call, tryCatch, executeIntentBody, trackerGate, reportReceiptWithRetry,
      emit, modify, get, return_, raise, mbind, M_bind, bind, mret, M_ret, ret;
    destruct (setup w attempt) as [e|] eqn:Hsetup; cbn.
  2, 4: rewrite Hact; cbn;
    rewrite (bool_decide_eq_false_2 _ Hna), (bool_decide_eq_true_2 _ Hc); cbn;
    eexists _, _; split; [reflexivity|]; split; [left|]; auto.
  all: unfold handleFailure; rewrite Hact; cbn [isRebalance negb andb];
    rewrite ?andb_false_r; cbv iota.
  all: destruct (failPermanently_closed intent attempt e s Hna) as (r & Hf & Hr).
  all: destruct (isPermanentError e);
    [ rewrite Hf; eexists _, r; split; [reflexivity|]; split;
      [right; repeat split; [exact Hr | discriminate] | discriminate ] | ].
  - (* no call is left: the attempt is the last one *)
    replace (attempt <? MAX_RETRIES)%nat with false
      by (symmetry; apply Nat.ltb_ge; lia).
    rewrite andb_false_r. rewrite Hf. eexists _, r. split; [reflexivity|]. split;
      [right; repeat split; [exact Hr | discriminate] | discriminate ].
  - destruct (isTemporaryError e && (attempt <? MAX_RETRIES)%nat);
      [ | rewrite Hf; eexists _, r; split; [reflexivity|]; split;
          [right; repeat split; [exact Hr | discriminate] | discriminate ] ].
    destruct (IH (S attempt) s ltac:(lia) Hact Hna Hc) as (v & r2 & E & Hcases & _).
    unfold mbind, M_bind, bind, return_. rewrite E. cbn.
    eexists v, r2. split; [reflexivity|]. split; [|discriminate].
    destruct Hcases as [[-> ->]|(-> & Hs & _)]; [left; auto|].
    right. repeat split; [exact Hs | discriminate].
Qed.

Lemma executeIntent_closed_always w intent t :
  action intent = REBALANCE ->
  tokenId (recipe intent) ∉ active t ->
  tokenId (recipe intent) ∈ closed t ->
  exists v r,
    executeIntent w intent t = ({| returned := Some v; log := [Reported r] |}, t)
    /\ ((v = returnSkipped
         /\ r = receipt skipped (AlreadyClosed (tokenId (recipe intent))))
        \/ (v = returnFailure /\ status r = failed /\ setup w 1%nat <> None))
    /\ (setup w 1%nat = None ->
        v = returnSkipped
        /\ r = receipt skipped (AlreadyClosed (tokenId (recipe intent)))).
Proof.
  intros Hact Hna Hc.
  destruct (executeIntentAt_closed (MAX_RETRIES - 1) w intent 1 (initialState t))
    as (v & r & E & H1 & H2); try assumption.
  { unfold MAX_RETRIES. lia. }
  exists v, r. split; [|split; assumption].
  unfold executeIntent. rewrite E. cbn. rewrite tracker_eta. reflexivity.
Qed.


(** The same for a token id that is in the active set: the gate skips the
    intent when the set-up of the attempt succeeds; a set-up that throws
    ends in the retry or in the failure branch, which removes the token id
    from the active set. *)
Lemma executeIntentAt_active budget w intent :
  forall attempt s,
    (MAX_RETRIES <= attempt + budget)%nat ->
    action intent = REBALANCE ->
    tokenId (recipe intent) ∈ activePositions s ->
    exists v r s',
      executeIntentAt budget w intent attempt s = (Next v, addEvent (Reported r) s')
      /\ events s' = events s
      /\ ((v = returnSkipped
           /\ r = receipt skipped (AlreadyProcessing (tokenId (recipe intent)))
           /\ s' = s)
          \/ (v = returnFailure /\ status r = failed /\ setup w attempt <> None))
      /\ (setup w attempt = None ->
          v = returnSkipped
          /\ r = receipt skipped (AlreadyProcessing (tokenId (recipe intent)))
          /\ s' = s).
Proof.
  induction budget as [|budget IH]; intros attempt s Hbudget Hact Ha.
  all: cbn [executeIntentAt];
    unfold call, tryCatch, executeIntentBody, trackerGate, reportReceiptWithRetry,
      emit, modify, get, return_, raise, mbind, M_bind, bind, mret, M_ret, ret;
    destruct (setup w attempt) as [e|] eqn:Hsetup; cbn.
  2, 4: rewrite Hact; cbn;
    rewrite (bool_decide_eq_true_2 _ Ha); cbn;
    eexists _, _, s; split; [reflexivity|]; split; [reflexivity|]; split; [left|]; auto.
  all: assert (Hf : exists r s',
         failPermanently intent attempt e s
         = (Return returnFailure, addEvent (Reported r) s')
         /\ events s' = events s /\ status r = failed)
    by (unfold failPermanently, release, reportReceiptWithRetry, emit, modify, return_,
          mbind, M_bind, bind, mret, M_ret, ret;
        destruct (isRebalance (action intent) && negb (tokenId (recipe intent) =? 0));
        cbn; eexists _, _; (split; [reflexivity|]); split; reflexivity).
  all: destruct Hf as (r & s1 & Hf & Hev & Hr).
  all: unfold handleFailure; rewrite Hact; cbn [isRebalance negb andb];
    rewrite ?andb_false_r; cbv iota.
  all: destruct (isPermanentError e);
    [ rewrite Hf; eexists _, r, s1; split; [reflexivity|]; split; [exact Hev|]; split;
      [right; repeat split; [exact Hr | discriminate] | discriminate ] | ].
  - replace (attempt <? MAX_RETRIES)%nat with false
      by (symmetry; apply Nat.ltb_ge; lia).
    rewrite andb_false_r. rewrite Hf. eexists _, r, s1.
    split; [reflexivity|]. split; [exact Hev|]. split;
      [right; repeat split; [exact Hr | discriminate] | discriminate ].
  - destruct (isTemporaryError e && (attempt <? MAX_RETRIES)%nat);
      [ | rewrite Hf; eexists _, r, s1; split; [reflexivity|]; split; [exact Hev|]; split;
          [right; repeat split; [exact Hr | discriminate] | discriminate ] ].
    destruct (IH (S attempt) s ltac:(lia) Hact Ha) as (v & r2 & s2 & E & Hev2 & Hcases & _).
    unfold mbind, M_bind, bind, return_. rewrite E. cbn.
    eexists v, r2, s2. split; [reflexivity|]. split; [exact Hev2|]. split; [|discriminate].
    destruct Hcases as [(-> & -> & ->)|(-> & Hs & _)]; [left; auto|].
    right. repeat split; [exact Hs | discriminate].
Qed.

Lemma executeIntent_active_always w intent t :
  action intent = REBALANCE ->
  tokenId (recipe intent) ∈ active t ->
  exists v r t',
    executeIntent w intent t = ({| returned := Some v; log := [Reported r] |}, t')
    /\ ((v = returnSkipped
         /\ r = receipt skipped (AlreadyProcessing (tokenId (recipe intent)))
         /\ t' = t)
        \/ (v = returnFailure /\ status r = failed /\ setup w 1%nat <> None))
    /\ (setup w 1%nat = None ->
        v = returnSkipped
        /\ r = receipt skipped (AlreadyProcessing (tokenId (recipe intent)))
        /\ t' = t).
Proof.
  intros Hact Ha.
  destruct (executeIntentAt_active (MAX_RETRIES - 1) w intent 1 (initialState t))
    as (v & r & s' & E & Hev & H1 & H2); try assumption.
  { unfold MAX_RETRIES. lia. }
  exists v, r, (trackerOf s'). split.
  - unfold executeIntent. rewrite E. cbn. rewrite Hev. reflexivity.
  - split.
    + destruct H1 as [(-> & -> & ->)|H1]; [left|right; exact H1].
      repeat split. unfold trackerOf. cbn. apply tracker_eta.
    + intros Hs. destruct (H2 Hs) as (-> & -> & ->). repeat split.
      unfold trackerOf. cbn. apply tracker_eta.
Qed.

(** C1, as amended. Once a token id is in the closed set, every REBALANCE
    intent for it that the daemon executes from then on, however many and
    whatever other intents run in between, submits nothing to the chain
    and is answered by one receipt, and the token id never leaves the
    closed set. The receipt says skipped, with reason "already
    closed/burned", whenever the provider set-up that precedes the gate
    succeeds; it says failed only when that set-up throws. *)
Theorem closed_position_is_skipped (worlds : nat -> World) (intents : list Intent)
    (k : nat) (t : Tracker) (tokenId : Z) :
  trackerDisjoint t ->
  tokenId ∈ closed t ->
  (forall (i : nat) (intent : Intent) (o : Outcome),
      intents !! i = Some intent ->
      (processIntents worlds intents k t).1 !! i = Some o ->
      targets tokenId intent ->
      submissions (log o) = []
      /\ (exists r, reports (log o) = [r]
                    /\ (r = receipt skipped (AlreadyClosed tokenId)
                        \/ status r = failed /\ setup (worlds (k + i)%nat) 1%nat <> None))
      /\ (setup (worlds (k + i)%nat) 1%nat = None ->
          o = skippedOutcome (AlreadyClosed tokenId)))
  /\ tokenId ∈ closed (processIntents worlds intents k t).2.
Proof.
  intros Hd Hc. revert k t Hd Hc.
  induction intents as [|intent intents IH]; intros k t Hd Hc.
  - split; [|exact Hc]. intros i intent o H. discriminate H.
  - cbn [processIntents].
    destruct (executeIntent_spec (worlds k) intent t Hd) as (_ & _ & Hd' & Hmono & _).
    destruct (executeIntent (worlds k) intent t) as [o t'] eqn:E. cbn [fst snd] in *.
    assert (Hc' : tokenId ∈ closed t') by set_solver.
    destruct (IH (S k) t' Hd' Hc') as [IH1 IH2].
    destruct (processIntents worlds intents (S k) t') as [os t''].
    cbn [fst snd] in *. split; [|exact IH2].
    intros [|i] intent' o' Hi Ho Htarget.
    + cbn in Hi, Ho. injection Hi as <-. injection Ho as <-.
      destruct Htarget as [Hact Htok]. rewrite Nat.add_0_r.
      assert (Hna : DaemonController.tokenId (recipe intent) ∉ active t)
        by (unfold trackerDisjoint in Hd; rewrite Htok; set_solver).
      destruct (executeIntent_closed_always (worlds k) intent t Hact Hna)
        as (v & r & E' & Hcases & Hok); [rewrite Htok; exact Hc|].
      rewrite E in E'. injection E' as -> _. cbn [log]. rewrite Htok in *.
      split; [reflexivity|]. split.
      * exists r. split; [reflexivity|].
        destruct Hcases as [[_ ->]|(_ & Hs & Hne)]; [left; reflexivity|right; auto].
      * intros Hs. destruct (Hok Hs) as [-> ->]. reflexivity.
    + replace (k + S i)%nat with (S k + i)%nat by lia.
      apply (IH1 i intent' o' Hi Ho Htarget).
Qed.

Lemma closed_position_is_skipped_witness :
  (exists o,
      (processIntents (fun _ => calm)
         [rebalance7 "intent-a"; rebalance7 "intent-b"] 0 closed7).1 !! 1%nat = Some o
      /\ submissions (log o) = []
      /\ o = skippedOutcome (AlreadyClosed 7))
  /\ 7 ∈ closed (processIntents (fun _ => calm)
                   [rebalance7 "intent-a"; rebalance7 "intent-b"] 0 closed7).2.
Proof.
  destruct (closed_position_is_skipped (fun _ => calm)
              [rebalance7 "intent-a"; rebalance7 "intent-b"] 0 closed7 7)
    as [H1 H2].
  - unfold trackerDisjoint. cbn. set_solver.
  - cbn. set_solver.
  - split; [|exact H2].
    destruct ((processIntents (fun _ => calm)
                 [rebalance7 "intent-a"; rebalance7 "intent-b"] 0 closed7).1 !! 1%nat)
      as [o|] eqn:E; [|vm_compute in E; discriminate E].
    exists o. split; [reflexivity|].
    destruct (H1 1%nat (rebalance7 "intent-b") o) as (Hs & _ & Ho);
      [reflexivity | exact E | split; reflexivity |].
    split; [exact Hs | apply Ho; reflexivity].
Defined.

(** C1 as stated fails when the provider set-up throws: the daemon has no
    sonic network configured, and the REBALANCE intent for the closed
    position 7 is reported failed, not skipped. *)
Lemma closed_position_reported_failed :
  7 ∈ closed closed7
  /\ map (fun o => map status (reports (log o)))
         (processIntents (fun _ => noNetwork) [rebalance7 "intent-a"] 0 closed7).1
     = [[failed]]
  /\ failed <> skipped.
Proof.
  split; [cbn; set_solver|]. split; [vm_compute; reflexivity | discriminate].
Qed.

End ClosedGate.

(** ** The tracker outside the intent's own token id *)

Section OwnEntry.
Import DaemonController TrackerSpec OwnEntrySpec.

Variable tokenId : Z.

Lemma alike_ret {A} (a : A) : alike tokenId (ret a) (ret a).
Proof. intros s s0 H. split; [reflexivity | exact H]. Qed.

Lemma alike_mret {A} (a : A) : alike tokenId (mret a : M A) (mret a).
Proof. apply alike_ret. Qed.

Lemma alike_raise {A} e : alike tokenId (raise e : M A) (raise e).
Proof. intros s s0 H. split; [reflexivity | exact H]. Qed.

Lemma alike_return {A} v : alike tokenId (return_ v : M A) (return_ v).
Proof. intros s s0 H. split; [reflexivity | exact H]. Qed.

Lemma alike_lift {A} (r : result A) : alike tokenId (lift r) (lift r).
Proof. destruct r; [apply alike_ret | apply alike_raise]. Qed.

Lemma alike_bind {A B} (m m0 : M A) (k k0 : A -> M B) :
  alike tokenId m m0 -> (forall a, alike tokenId (k a) (k0 a)) ->
  alike tokenId (m ≫= k) (m0 ≫= k0).
Proof.
  intros Hm Hk s s0 H. unfold mbind, M_bind, bind.
  destruct (Hm s s0 H) as [Hf Hs].
  destruct (m s) as [f s1], (m0 s0) as [f0 s2]. cbn [fst snd] in *. subst f0.
  destruct f as [a|v|e]; [apply Hk; exact Hs | |]; split; auto.
Qed.

Lemma alike_get_bind {B} (k k0 : State -> M B) :
  (forall s s0, sameEntry tokenId s s0 -> alike tokenId (k s) (k0 s0)) ->
  alike tokenId (get ≫= k) (get ≫= k0).
Proof.
  intros Hk s s0 H. unfold mbind, M_bind, bind, get. apply Hk; exact H.
Qed.

Lemma alike_tryCatch {A} (m m0 : M A) (h h0 : string -> M A) :
  alike tokenId m m0 -> (forall e, alike tokenId (h e) (h0 e)) ->
  alike tokenId (tryCatch m h) (tryCatch m0 h0).
Proof.
  intros Hm Hh s s0 H. unfold tryCatch.
  destruct (Hm s s0 H) as [Hf Hs].
  destruct (m s) as [f s1], (m0 s0) as [f0 s2]. cbn [fst snd] in *. subst f0.
  destruct f as [a|v|e]; [| |apply Hh; exact Hs]; split; auto.
Qed.

Lemma alike_call (m m0 : M ReturnValue) :
  alike tokenId m m0 -> alike tokenId (call m) (call m0).
Proof.
  intros Hm s s0 H. unfold call.
  destruct (Hm s s0 H) as [Hf Hs].
  destruct (m s) as [f s1], (m0 s0) as [f0 s2]. cbn [fst snd] in *. subst f0.
  destruct f; split; auto.
Qed.

Lemma alike_modify (f : State -> State) :
  (forall s s0, sameEntry tokenId s s0 -> sameEntry tokenId (f s) (f s0)) ->
  alike tokenId (modify f) (modify f).
Proof. intros Hf s s0 H. split; [reflexivity | apply Hf; exact H]. Qed.

Lemma sameEntry_addEvent e s s0 :
  sameEntry tokenId s s0 -> sameEntry tokenId (addEvent e s) (addEvent e s0).
Proof.
  intros (He & Hp & Hi & Ha & Hc). repeat split; cbn; try tauto; congruence.
Qed.

Lemma alike_emit e : alike tokenId (emit e) (emit e).
Proof. apply alike_modify. apply sameEntry_addEvent. Qed.

Lemma alike_report r : alike tokenId (reportReceiptWithRetry r) (reportReceiptWithRetry r).
Proof. apply alike_emit. Qed.

Lemma sameEntry_setActive (f : gset Z -> gset Z) s s0 :
  (forall X Y, (tokenId ∈ X <-> tokenId ∈ Y) -> (tokenId ∈ f X <-> tokenId ∈ f Y)) ->
  sameEntry tokenId s s0 -> sameEntry tokenId (setActive f s) (setActive f s0).
Proof.
  intros Hf (He & Hp & Hi & Ha & Hc). repeat split; cbn; try tauto; try congruence.
  all: apply Hf; tauto.
Qed.

Lemma sameEntry_setClosed (f : gset Z -> gset Z) s s0 :
  (forall X Y, (tokenId ∈ X <-> tokenId ∈ Y) -> (tokenId ∈ f X <-> tokenId ∈ f Y)) ->
  sameEntry tokenId s s0 -> sameEntry tokenId (setClosed f s) (setClosed f s0).
Proof.
  intros Hf (He & Hp & Hi & Ha & Hc). repeat split; cbn; try tauto; try congruence.
  all: apply Hf; tauto.
Qed.

Lemma sameEntry_setPositionClosed b s s0 :
  sameEntry tokenId s s0 ->
  sameEntry tokenId (setPositionClosed b s) (setPositionClosed b s0).
Proof. intros (He & Hp & Hi & Ha & Hc). repeat split; cbn; try tauto; congruence. Qed.

Lemma sameEntry_setInitialData d s s0 :
  sameEntry tokenId s s0 ->
  sameEntry tokenId (setInitialData d s) (setInitialData d s0).
Proof. intros (He & Hp & Hi & Ha & Hc). repeat split; cbn; try tauto; congruence. Qed.

End OwnEntry.

(** One step of a proof that a statement is [alike] to itself. *)
Ltac alike_step :=
  lazymatch goal with
  | |- OwnEntrySpec.alike _ (mret _) _ => apply alike_mret
  | |- OwnEntrySpec.alike _ (DaemonController.ret _) _ => apply alike_ret
  | |- OwnEntrySpec.alike _ (DaemonController.raise _) _ => apply alike_raise
  | |- OwnEntrySpec.alike _ (DaemonController.return_ _) _ => apply alike_return
  | |- OwnEntrySpec.alike _ (DaemonController.lift _) _ => apply alike_lift
  | |- OwnEntrySpec.alike _ (DaemonController.emit _) _ => apply alike_emit
  | |- OwnEntrySpec.alike _ (DaemonController.reportReceiptWithRetry _) _ =>
      apply alike_report
  | |- OwnEntrySpec.alike _ (DaemonController.modify (DaemonController.setPositionClosed _)) _ =>
      apply alike_modify; intros ? ?; apply sameEntry_setPositionClosed
  | |- OwnEntrySpec.alike _ (DaemonController.modify (DaemonController.setInitialData _)) _ =>
      apply alike_modify; intros ? ?; apply sameEntry_setInitialData
  | |- OwnEntrySpec.alike _ (DaemonController.tryCatch _ _) _ =>
      apply alike_tryCatch; [|intros ?]
  | |- OwnEntrySpec.alike _ (DaemonController.call _) _ => apply alike_call
  | |- OwnEntrySpec.alike _ (DaemonController.get ≫= _) _ =>
      apply alike_get_bind; intros ? ? ?
  | |- OwnEntrySpec.alike _ (_ ≫= _) _ => apply alike_bind; [|intros ?]
  | |- OwnEntrySpec.alike _ (if ?c then _ else _) (if ?c then _ else _) => destruct c
  | |- OwnEntrySpec.alike _ (match ?c with _ => _ end) (match ?c with _ => _ end) =>
      destruct c
  end.

Section OwnEntryProcedures.
Import DaemonController TrackerSpec OwnEntrySpec.

Lemma alike_markClosed tokenId id :
  alike tokenId (markClosed id) (markClosed id).
Proof.
  unfold markClosed. alike_step.
  - apply alike_modify. intros s s0. apply sameEntry_setActive. set_solver.
  - apply alike_modify. intros s s0. apply sameEntry_setClosed. set_solver.
Qed.

Lemma alike_release tokenId id :
  alike tokenId (release id) (release id).
Proof.
  apply alike_modify. intros s s0. apply sameEntry_setActive. set_solver.
Qed.

Lemma alike_trackerGate intent :
  alike (tokenId (recipe intent)) (trackerGate intent) (trackerGate intent).
Proof.
  unfold trackerGate. destruct (isRebalance (action intent)); [|apply alike_ret].
  cbv zeta. alike_step.
  destruct H as (He & Hp & Hi & Ha & Hc).
  rewrite (bool_decide_ext _ _ Ha), (bool_decide_ext _ _ Hc).
  repeat alike_step.
  apply alike_modify. intros s1 s2. apply sameEntry_setActive. set_solver.
Qed.

Lemma alike_validatePosition tokenId w intent :
  alike tokenId (validatePosition w intent) (validatePosition w intent).
Proof.
  unfold validatePosition. cbv zeta.
  repeat first [apply alike_markClosed | apply alike_release | alike_step].
Qed.

Lemma alike_submitApprovals tokenId sent :
  alike tokenId (submitApprovals sent) (submitApprovals sent).
Proof.
  induction sent as [|sent IH]; cbn [submitApprovals]; [apply alike_ret|].
  alike_step; [apply alike_emit | exact IH].
Qed.

Lemma alike_ensureTokenApprovals tokenId w :
  alike tokenId (ensureTokenApprovals w) (ensureTokenApprovals w).
Proof.
  unfold ensureTokenApprovals. destruct (tokenApprovals w) as [sent error].
  alike_step; [apply alike_submitApprovals|]. repeat alike_step.
Qed.

Lemma alike_submitAndWait tokenId tx o msg :
  alike tokenId (submitAndWait tx o msg) (submitAndWait tx o msg).
Proof. unfold submitAndWait. repeat alike_step. Qed.

Lemma alike_odosSwap tokenId w tierIndex bps hashes :
  alike tokenId (odosSwap w tierIndex bps hashes) (odosSwap w tierIndex bps hashes).
Proof.
  unfold odosSwap. repeat first [apply alike_submitAndWait | alike_step].
Qed.

Lemma alike_runTransactions tokenId w tierIndex bps build tl tu rest :
  forall i hashes,
    alike tokenId (runTransactions w tierIndex bps build tl tu rest i hashes)
                  (runTransactions w tierIndex bps build tl tu rest i hashes).
Proof.
  induction rest as [|transaction rest IH]; intros i hashes; cbn [runTransactions].
  - apply alike_ret.
  - alike_step. destruct H as (He & Hp & Hi & Ha & Hc). rewrite Hp.
    repeat first [apply IH | apply alike_submitAndWait | apply alike_odosSwap
                  | alike_step].
Qed.

Lemma alike_rebalanceAttempt tokenId w intent tierIndex bps tl tu :
  alike tokenId (rebalanceAttempt w intent tierIndex bps tl tu)
                (rebalanceAttempt w intent tierIndex bps tl tu).
Proof.
  unfold rebalanceAttempt. cbv zeta.
  alike_step; [apply alike_lift|]. alike_step.
  { repeat alike_step. }
  alike_step. destruct H as (He & Hp & Hi & Ha & Hc). rewrite Hp, Hi.
  repeat first [apply alike_runTransactions | apply alike_markClosed | alike_step].
Qed.

Lemma alike_ladder tokenId w intent tl tu tiers :
  forall tierIndex,
    alike tokenId (ladder w intent tl tu tiers tierIndex)
                  (ladder w intent tl tu tiers tierIndex).
Proof.
  induction tiers as [|bps tiers IH]; intros tierIndex; cbn [ladder].
  - apply alike_ret.
  - repeat first [apply IH | apply alike_rebalanceAttempt | alike_step].
Qed.

Lemma alike_rebalance tokenId w intent :
  alike tokenId (rebalance w intent) (rebalance w intent).
Proof.
  unfold rebalance. cbv zeta.
  repeat first [apply alike_ladder | alike_step].
Qed.

Lemma alike_executeOther tokenId w intent :
  alike tokenId (executeOther w intent) (executeOther w intent).
Proof.
  unfold executeOther. destruct (otherAction w intent) as [evs r].
  alike_step; [|repeat alike_step].
  apply alike_modify. induction evs as [|e evs IH]; intros s s0 H; cbn [fold_left].
  - exact H.
  - apply IH. apply sameEntry_addEvent. exact H.
Qed.

Lemma alike_executeIntentBody w intent attempt :
  alike (tokenId (recipe intent)) (executeIntentBody w intent attempt)
        (executeIntentBody w intent attempt).
Proof.
  unfold executeIntentBody.
  repeat first [ apply alike_trackerGate | apply alike_validatePosition
               | apply alike_ensureTokenApprovals | apply alike_rebalance
               | apply alike_executeOther | alike_step ].
Qed.

Lemma alike_failPermanently intent attempt message :
  alike (tokenId (recipe intent)) (failPermanently intent attempt message)
        (failPermanently intent attempt message).
Proof.
  unfold failPermanently. repeat first [apply alike_release | alike_step].
Qed.

Lemma alike_executeIntentAt budget w intent :
  forall attempt,
    alike (tokenId (recipe intent)) (executeIntentAt budget w intent attempt)
          (executeIntentAt budget w intent attempt).
Proof.
  induction budget as [|budget IH]; intros attempt; cbn [executeIntentAt].
  all: apply alike_call; apply alike_tryCatch; [apply alike_executeIntentBody|].
  all: intros e; unfold handleFailure.
  all: repeat first [apply alike_failPermanently | apply IH | alike_step].
Qed.

(** What an intent does depends on the tracker only through what the
    tracker says about the intent's own token id. *)
Lemma executeIntent_own_entry w intent t t0 :
  (tokenId (recipe intent) ∈ active t <-> tokenId (recipe intent) ∈ active t0) ->
  (tokenId (recipe intent) ∈ closed t <-> tokenId (recipe intent) ∈ closed t0) ->
  (executeIntent w intent t).1 = (executeIntent w intent t0).1.
Proof.
  intros Ha Hc. unfold executeIntent.
  destruct (alike_executeIntentAt (MAX_RETRIES - 1) w intent 1
              (initialState t) (initialState t0)) as [Hf Hs].
  { repeat split; cbn; tauto. }
  destruct (executeIntentAt (MAX_RETRIES - 1) w intent 1 (initialState t)) as [f s].
  destruct (executeIntentAt (MAX_RETRIES - 1) w intent 1 (initialState t0)) as [f0 s0].
  cbn [fst snd] in *. subst f0. destruct Hs as (He & _). rewrite He. reflexivity.
Qed.

End OwnEntryProcedures.

(** ** Two intents for one position *)

Section BackToBack.

Import DaemonController TrackerSpec Scenarios GateScenarios.

(** C4, as amended. Two REBALANCE intents for the same token id that are
    drained back-to-back are executed one after the other: the second
    starts from the tracker the first has left. When the first left the
    token id in the active set, the second submits nothing to the chain
    and, its provider set-up succeeding, is skipped with reason "already
    being processed". When the first moved the token id to the closed
    set, which it does whenever it completes the rebalance, the second
    submits nothing and, its set-up succeeding, is skipped with reason
    "already closed/burned". In both cases a second whose set-up throws
    leaves one receipt, skipped or failed. When the first released the
    token id, the second is executed exactly as on a daemon that has never
    seen the position. *)
Theorem back_to_back_rebalances (worlds : nat -> World) (first second : Intent)
    (d : Daemon) (tokenId : Z) :
  trackerDisjoint (tracker d) ->
  isProcessingIntent d = false ->
  pendingIntents d = [first; second] ->
  targets tokenId first ->
  targets tokenId second ->
  exists o1 o2 t1 t2,
    executeIntent (worlds 0%nat) first (tracker d) = (o1, t1)
    /\ executeIntent (worlds 1%nat) second t1 = (o2, t2)
    /\ processIntentQueue worlds d
       = ([o1; o2], {| tracker := t2; pendingIntents := []; isProcessingIntent := false |})
    /\ (tokenId ∈ active t1 ->
        (exists r, log o2 = [Reported r]
                   /\ (status r = skipped
                       \/ status r = failed /\ setup (worlds 1%nat) 1%nat <> None))
        /\ (setup (worlds 1%nat) 1%nat = None ->
            o2 = skippedOutcome (AlreadyProcessing tokenId) /\ t2 = t1))
    /\ (tokenId ∈ closed t1 ->
        (exists r, log o2 = [Reported r]
                   /\ (status r = skipped
                       \/ status r = failed /\ setup (worlds 1%nat) 1%nat <> None))
        /\ (setup (worlds 1%nat) 1%nat = None ->
            o2 = skippedOutcome (AlreadyClosed tokenId) /\ t2 = t1))
    /\ (tokenId ∉ active t1 -> tokenId ∉ closed t1 ->
        o2 = (executeIntent (worlds 1%nat) second {| active := ∅; closed := ∅ |}).1)
    /\ (forall v, returned o1 = Some v -> success v = true -> tokenId ∈ closed t1).
Proof.
  intros Hd Hfree Hpending [Hact1 Htok1] [Hact2 Htok2].
  destruct (executeIntent_spec (worlds 0%nat) first (tracker d) Hd)
    as (v1 & Hv1 & Hd1 & _ & Hclosed1).
  destruct (executeIntent (worlds 0%nat) first (tracker d)) as [o1 t1] eqn:E1.
  destruct (executeIntent (worlds 1%nat) second t1) as [o2 t2] eqn:E2.
  cbn [fst snd] in *.
  exists o1, o2, t1, t2. split; [reflexivity|]. split; [exact E2|]. split.
  { unfold processIntentQueue. rewrite Hfree, Hpending.
    cbn [processIntents]. rewrite E1, E2. reflexivity. }
  split; [|split; [|split]].
  - intros Ha.
    destruct (executeIntent_active_always (worlds 1%nat) second t1 Hact2)
      as (v & r & t' & E & Hcases & Hok); [rewrite Htok2; exact Ha|].
    rewrite E2 in E. injection E as -> ->. rewrite Htok2 in *. split.
    + exists r. split; [reflexivity|].
      destruct Hcases as [(_ & -> & _)|(_ & Hs & Hne)]; [left; reflexivity|right; auto].
    + intros Hs. destruct (Hok Hs) as (-> & -> & ->). split; reflexivity.
  - intros Hc.
    assert (Hna : tokenId ∉ active t1) by (unfold trackerDisjoint in Hd1; set_solver).
    destruct (executeIntent_closed_always (worlds 1%nat) second t1 Hact2)
      as (v & r & E & Hcases & Hok); [rewrite Htok2; assumption..|].
    rewrite E2 in E. injection E as -> ->. rewrite Htok2 in *. split.
    + exists r. split; [reflexivity|].
      destruct Hcases as [(_ & ->)|(_ & Hs & Hne)]; [left; reflexivity|right; auto].
    + intros Hs. destruct (Hok Hs) as (-> & ->). split; reflexivity.
  - intros Hna Hnc.
    replace o2 with (executeIntent (worlds 1%nat) second t1).1 by (rewrite E2; reflexivity).
    apply executeIntent_own_entry; rewrite Htok2; cbn; set_solver.
  - intros v Hv Hs. rewrite <- Htok1. apply Hclosed1; congruence.
Qed.

Lemma back_to_back_rebalances_witness :
  exists o1 o2 t1 t2,
    executeIntent calm (rebalance7 "intent-a") fresh = (o1, t1)
    /\ executeIntent calm (rebalance7 "intent-b") t1 = (o2, t2)
    /\ processIntentQueue (fun _ => calm) twoPending
       = ([o1; o2], {| tracker := t2; pendingIntents := []; isProcessingIntent := false |})
    /\ (7 ∈ active t1 ->
        (exists r, log o2 = [Reported r]
                   /\ (status r = skipped
                       \/ status r = failed /\ setup calm 1%nat <> None))
        /\ (setup calm 1%nat = None ->
            o2 = skippedOutcome (AlreadyProcessing 7) /\ t2 = t1))
    /\ (7 ∈ closed t1 ->
        (exists r, log o2 = [Reported r]
                   /\ (status r = skipped
                       \/ status r = failed /\ setup calm 1%nat <> None))
        /\ (setup calm 1%nat = None ->
            o2 = skippedOutcome (AlreadyClosed 7) /\ t2 = t1))
    /\ (7 ∉ active t1 -> 7 ∉ closed t1 ->
        o2 = (executeIntent calm (rebalance7 "intent-b") {| active := ∅; closed := ∅ |}).1)
    /\ (forall v, returned o1 = Some v -> success v = true -> 7 ∈ closed t1).
Proof.
  apply (back_to_back_rebalances (fun _ => calm) (rebalance7 "intent-a")
           (rebalance7 "intent-b") twoPending 7).
  - unfold trackerDisjoint. cbn. set_solver.
  - reflexivity.
  - reflexivity.
  - split; reflexivity.
  - split; reflexivity.
Defined.

(** The first of two intents finds position 7 back in range, is skipped
    and releases it; the second is validated afresh and skipped for the
    same reason, not as a duplicate. *)
Example released_position_is_taken_up_again :
  map (fun o => map (fun r => (status r, reason r)) (reports (log o)))
      (processIntentQueue (fun _ => inRangeAgain) twoPending).1
  = [[(skipped, AlreadyInRange 0)]; [(skipped, AlreadyInRange 0)]].
Proof. vm_compute. reflexivity. Qed.

(** C4 as stated fails: the first of two intents for position 7 completes
    the rebalance, and the second is skipped with reason "already
    closed/burned", not "already being processed". *)
Lemma second_intent_sees_closed_position :
  map (fun o => map (fun r => (status r, reason r)) (reports (log o)))
      (processIntentQueue (fun _ => calm) twoPending).1
  = [[(completed, NoReason)]; [(skipped, AlreadyClosed 7)]]
  /\ AlreadyClosed 7 <> AlreadyProcessing 7.
Proof.
  split; [vm_compute; reflexivity | discriminate].
Qed.

End BackToBack.

Section Ladder.

Import DaemonController TrackerSpec Scenarios.

(** C2. Failing input: the swap transaction reverts whatever the tolerance.
    The close confirms at 20 bps and the swap reverts; the next rung, at
    50 bps, skips the close, does not run the swap again and submits the
    reopen transaction, which confirms: the intent is reported completed
    after two rungs, with one swap attempted and no swap done. *)
Theorem swap_failure_is_not_retried :
  log (executeIntent swapReverts (rebalance7 "intent-a") fresh).1
  = [ AttemptStarted 0 20;
      Submitted (BundleTx 0 0 closeTx);
      Submitted (SwapTx 0 20);
      AttemptStarted 1 50;
      Submitted (BundleTx 1 1 openTx);
      Reported {| status := completed;
                  reason := NoReason;
                  completedTxs := None;
                  attemptsExhausted := None;
                  attempts := None;
                  txHashes := ["0xopen"];
                  swapSlippageUsed := Some 50 |} ]
  /\ postedStatus <$> reports (log (executeIntent swapReverts (rebalance7 "intent-a") fresh).1)
     = [completed]
  /\ swapsAttempted (log (executeIntent swapReverts (rebalance7 "intent-a") fresh).1)
     = [20].
Proof. repeat split; vm_compute; reflexivity. Qed.

Lemma swapsAttempted_addEvent e s :
  swapsAttempted (events (addEvent e s))
  = (swapsAttempted (events s)
     ++ match e with Submitted (SwapTx _ bps) => [bps] | _ => [] end)%list.
Proof.
  unfold swapsAttempted. cbn [events addEvent]. rewrite omap_app. cbn.
  destruct e as [| [] |]; reflexivity.
Qed.

(** The defect behind it, for every world: a rung that starts with the
    position already closed goes through its transactions without ever
    submitting a swap, because the swap is only run right after a close
    transaction and every close transaction is skipped. *)
Lemma closed_position_rung_never_swaps w tierIndex bps build tl tu rest :
  forall i hashes s,
    positionClosed s = true ->
    wp (runTransactions w tierIndex bps build tl tu rest i hashes)
       (fun _ s' => positionClosed s' = true
                    /\ swapsAttempted (events s') = swapsAttempted (events s)) s.
Proof.
  induction rest as [|transaction rest IH]; intros i hashes s Hpc; cbn [runTransactions].
  - wp_run. auto.
  - destruct (isClosePosition transaction) eqn:Hclose.
    + wp_auto. apply IH. exact Hpc.
    + unfold submitAndWait.
      wp_auto; rewrite ?swapsAttempted_addEvent, ?app_nil_r; cbn [positionClosed addEvent];
        try (split; [exact Hpc | reflexivity]).
      all: eapply wp_mono;
        [ apply IH; cbn [positionClosed addEvent]; exact Hpc
        | cbv beta; intros f s' [H1 H2]; split; [exact H1|];
          rewrite H2, ?swapsAttempted_addEvent, ?app_nil_r; reflexivity ].
Qed.

Lemma swapsAttempted_snoc l e :
  swapsAttempted (l ++ [e])
  = (swapsAttempted l
     ++ match e with Submitted (SwapTx _ bps) => [bps] | _ => [] end)%list.
Proof.
  unfold swapsAttempted. rewrite omap_app. cbn.
  destruct e as [| [] |]; reflexivity.
Qed.

Ltac budget_simpl :=
  unfold swapBudget in *;
  cbn [positionClosed events addEvent setPositionClosed setInitialData setActive
       setClosed] in *;
  rewrite ?swapsAttempted_snoc in *;
  rewrite ?length_app in *; cbn [length] in *.

Lemma odosSwap_budget w tierIndex bps hashes s :
  wp (odosSwap w tierIndex bps hashes)
     (fun _ s' => positionClosed s' = positionClosed s
                  /\ (length (swapsAttempted (events s'))
                      <= length (swapsAttempted (events s)) + 1)%nat) s.
Proof.
  unfold odosSwap, submitAndWait. wp_run; budget_simpl; split; (reflexivity || lia).
Qed.

Lemma runTransactions_budget w tierIndex bps build tl tu rest :
  forall i hashes s,
    wp (runTransactions w tierIndex bps build tl tu rest i hashes)
       (fun _ s' => (swapBudget s' <= swapBudget s)%nat) s.
Proof.
  induction rest as [|transaction rest IH]; intros i hashes s; cbn [runTransactions].
  - wp_run. lia.
  - wp_step. wp_step. wp_step.
    destruct (positionClosed s) eqn:Hpc, (isClosePosition transaction) eqn:Hclose;
      cbn [andb]; cbv iota.
    1: apply IH.
    all: unfold submitAndWait; wp_auto; try (budget_simpl; rewrite ?Hpc; lia).
    all: try (eapply wp_mono; [apply odosSwap_budget|];
              cbv beta; intros [?|?|?] s1 [Hs1 Hn1]; unfold after at 1; cbv beta iota;
              try (budget_simpl; rewrite ?Hpc, ?Hs1 in *; lia)).
    all: eapply wp_mono; [apply IH|]; cbv beta; intros f s2 Hs2;
      budget_simpl; rewrite ?Hpc, ?Hs1 in *; lia.
Qed.

Lemma markClosed_budget tokenId s :
  wp (markClosed tokenId) (fun _ s' => swapBudget s' = swapBudget s) s.
Proof. unfold markClosed. wp_run. reflexivity. Qed.

Lemma rebalanceAttempt_budget w intent tierIndex bps tl tu s :
  wp (rebalanceAttempt w intent tierIndex bps tl tu)
     (fun _ s' => (swapBudget s' <= swapBudget s)%nat) s.
Proof.
  unfold rebalanceAttempt.
  wp_run; try (budget_simpl; lia).
  all: eapply wp_mono; [apply runTransactions_budget|];
    cbv beta; intros [?|?|?] s1 Hs1; unfold after at 1; cbv beta iota;
    try (budget_simpl; lia).
  all: wp_run.
  all: eapply wp_mono; [apply markClosed_budget|];
    cbv beta; intros [?|?|?] s2 Hs2; unfold after at 1; cbv beta iota;
    wp_run; budget_simpl; lia.
Qed.

Lemma ladder_budget w intent tl tu tiers :
  forall tierIndex s,
    wp (ladder w intent tl tu tiers tierIndex)
       (fun _ s' => (swapBudget s' <= swapBudget s)%nat) s.
Proof.
  induction tiers as [|bps tiers IH]; intros tierIndex s; cbn [ladder].
  - wp_run. lia.
  - wp_run.
    eapply wp_mono; [apply rebalanceAttempt_budget|].
    cbv beta. intros [?|?|?] s1 Hs1; cbv beta iota; try (unfold after at 1; cbv beta iota).
    + eapply wp_mono; [apply IH|]. cbv beta. intros f s2 Hs2. budget_simpl. lia.
    + budget_simpl. lia.
    + wp_run; try (budget_simpl; lia).
      eapply wp_mono; [apply IH|]. cbv beta. intros f s2 Hs2. budget_simpl. lia.
Qed.

(** Whatever the outside world answers, one run of the REBALANCE procedure
    submits at most one swap: the ladder has five slippage tolerances, and
    the swap is tried at one of them only. *)
Lemma rebalance_swaps_at_most_once w intent s :
  wp (rebalance w intent)
     (fun _ s' => (length (swapsAttempted (events s'))
                   <= length (swapsAttempted (events s)) + 1)%nat) s.
Proof.
  unfold rebalance. cbv zeta.
  wp_run; try (budget_simpl; lia).
  eapply wp_mono; [apply ladder_budget|].
  cbv beta. intros f s1 Hs1. budget_simpl.
  destruct (positionClosed s1); lia.
Qed.

(** When every rung throws, here because the platform cannot build the
    bundle, the five tolerances are tried in order and the report is
    failed with attemptsExhausted = 5. *)
Example exhausted_ladder :
  log (executeIntent platformDown (rebalance7 "intent-a") fresh).1
  = [ AttemptStarted 0 20; AttemptStarted 1 50; AttemptStarted 2 100;
      AttemptStarted 3 200; AttemptStarted 4 500;
      Reported {| status := failed;
                  reason := ErrorMessage "Build transaction failed: 503";
                  completedTxs := None;
                  attemptsExhausted := Some 5%nat;
                  attempts := None;
                  txHashes := [];
                  swapSlippageUsed := None |} ].
Proof. vm_compute. reflexivity. Qed.

End Ladder.

(** ** The drift check after the close *)

Section DriftAbort.

Import DaemonController TrackerSpec DriftSpec.


(** *** Lists of events *)









(** *** The loop over the bundle *)

Lemma appendsNoClose_here {A} (f : Flow A) s s' new :
  events s' = (events s ++ new)%list ->
  closeSubmissions new = [] ->
  positionClosed s' = positionClosed s ->
  appendsNoClose s f s'.
Proof. intros. exists new. auto. Qed.



Lemma submitAndWait_noClose tx o msg s :
  match tx with BundleTx _ _ t => isClosePosition t = false | _ => True end ->
  wp (submitAndWait tx o msg) (appendsNoClose s) s.
Proof.
  intros Htx. unfold submitAndWait.
  wp_run; (eapply appendsNoClose_here;
           [ state_simpl; reflexivity
           | destruct tx; cbn; rewrite ?Htx; reflexivity
           | reflexivity ]).
Qed.









(** *** The ladder and what surrounds it *)








End DriftAbort.

Section DriftAbortWitness.

Import DaemonController TrackerSpec DriftSpec Scenarios DriftScenarios.



End DriftAbortWitness.


(** * Tick prices and position sizing *)

Section SqrtRatio.
Import UniswapMath SqrtRatioSpec.

Lemma mulShift_bounds absTick mask factor ratio lo :
  0 <= factor < 2 ^ 128 ->
  0 <= lo <= ratio ->
  Z.shiftr (lo * factor) 128 <= mulShift absTick mask factor ratio <= ratio.
Proof.
  intros Hf Hr. unfold mulShift. rewrite !Z.shiftr_div_pow2 by lia.
  assert (H1 : lo * factor / 2 ^ 128 <= ratio * factor / 2 ^ 128)
    by (apply Z.div_le_mono; nia).
  assert (H2 : ratio * factor / 2 ^ 128 <= ratio).
  { apply Z.div_le_upper_bound; nia. }
  destruct (Z.land absTick mask =? 0); lia.
Qed.

(** A step whose bit is set brings the ratio below its factor. *)
Lemma mulShift_set absTick mask factor ratio :
  Z.land absTick mask <> 0 ->
  0 <= factor ->
  0 <= ratio <= 2 ^ 128 ->
  mulShift absTick mask factor ratio <= factor.
Proof.
  intros Hb Hf Hr. unfold mulShift.
  destruct (Z.eqb_spec (Z.land absTick mask) 0); [contradiction|].
  rewrite Z.shiftr_div_pow2 by lia.
  apply Z.div_le_upper_bound; nia.
Qed.

Lemma mulShift_clear absTick mask factor ratio :
  Z.land absTick mask = 0 -> mulShift absTick mask factor ratio = ratio.
Proof. intros H. unfold mulShift. rewrite H. reflexivity. Qed.

Lemma land_pow2_testbit a k :
  0 <= k -> Z.land a (2 ^ k) = 0 -> Z.testbit a k = false.
Proof.
  intros Hk H.
  assert (E : Z.testbit (Z.land a (2 ^ k)) k = false) by (rewrite H; apply Z.bits_0).
  rewrite Z.land_spec, Z.pow2_bits_true, andb_true_r in E by lia. exact E.
Qed.

Lemma getSqrtRatioAtTick_ratioAt tick :
  getSqrtRatioAtTick tick
  = if Z.abs tick >? 887272 then Throw "Tick out of bounds"
    else ratio ← (if tick >? 0 then bigint_div (2 ^ 256 - 1) (ratioAt (Z.abs tick))
                  else Ok (ratioAt (Z.abs tick)));
         Ok (Z.shiftr ratio 32).
Proof. reflexivity. Qed.

Lemma applyFactors_bounds absTick fs :
  forall k ratio lo,
    Forall (fun factor => 0 <= factor < 2 ^ 128) fs ->
    0 <= lo <= ratio ->
    lowerBound fs lo <= applyFactors absTick k fs ratio <= ratio.
Proof.
  induction fs as [|factor fs IH]; intros k ratio lo Hfs Hr; cbn [lowerBound applyFactors].
  - lia.
  - inversion Hfs as [|? ? Hf Hfs']; subst.
    pose proof (mulShift_bounds absTick (2 ^ k) factor ratio lo Hf Hr) as Hstep.
    assert (H0 : 0 <= Z.shiftr (lo * factor) 128).
    { rewrite Z.shiftr_div_pow2 by lia. apply Z.div_pos; nia. }
    specialize (IH (k + 1) (mulShift absTick (2 ^ k) factor ratio)
                   (Z.shiftr (lo * factor) 128) Hfs' ltac:(lia)).
    lia.
Qed.

Lemma applyFactors_untouched absTick fs :
  forall k ratio,
    0 <= k ->
    Forall (fun factor => 0 <= factor <= factor0) fs ->
    0 <= ratio <= 2 ^ 128 ->
    untouched absTick k ratio ->
    untouched absTick (k + Z.of_nat (length fs)) (applyFactors absTick k fs ratio).
Proof.
  induction fs as [|factor fs IH]; intros k ratio Hk Hfs Hr Hu; cbn [applyFactors length].
  - replace (k + Z.of_nat 0) with k by lia. exact Hu.
  - inversion Hfs as [|? ? Hf Hfs']; subst.
    replace (k + Z.of_nat (S (length fs))) with (k + 1 + Z.of_nat (length fs)) by lia.
    assert (Hf' : 0 <= factor < 2 ^ 128) by (unfold factor0 in Hf; lia).
    pose proof (mulShift_bounds absTick (2 ^ k) factor ratio 0 Hf' ltac:(lia)) as Hb.
    rewrite Z.mul_0_l, Z.shiftr_0_l in Hb.
    apply IH; [lia | exact Hfs' | lia |].
    destruct (Z.eq_dec (Z.land absTick (2 ^ k)) 0) as [E|E].
    + rewrite mulShift_clear by exact E.
      destruct Hu as [[-> Hbits]|Hle]; [left | right; exact Hle].
      split; [reflexivity|]. intros j Hj.
      destruct (Z.eq_dec j k) as [->|]; [apply land_pow2_testbit; assumption|].
      apply Hbits. lia.
    + right. pose proof (mulShift_set absTick (2 ^ k) factor ratio E ltac:(lia) Hr). lia.
Qed.

Lemma bits_clear_zero a :
  0 <= a < 2 ^ 20 ->
  (forall j, 0 <= j < 20 -> Z.testbit a j = false) ->
  a = 0.
Proof.
  intros Ha Hbits. apply Z.bits_inj'. intros n Hn. rewrite Z.bits_0.
  destruct (Z.lt_ge_cases n 20) as [Hlt|Hge]; [apply Hbits; lia|].
  destruct (Z.eq_dec a 0) as [->|Hnz]; [apply Z.bits_0|].
  apply Z.bits_above_log2; [lia|].
  assert (Z.log2 a < 20) by (apply Z.log2_lt_pow2; lia). lia.
Qed.

Lemma factors_range :
  Forall (fun factor => 0 <= factor <= factor0) factors.
Proof. unfold factors, factor0. repeat constructor; lia. Qed.

Lemma factors_range128 :
  Forall (fun factor => 0 <= factor < 2 ^ 128) factors.
Proof.
  eapply Forall_impl; [apply factors_range|]. cbv beta. unfold factor0. intros; lia.
Qed.

(** The ratio before the inversion, for a tick of the domain. *)
Lemma ratioAt_bounds absTick :
  0 <= absTick <= 887272 ->
  2 ^ 32 <= ratioAt absTick <= 2 ^ 128
  /\ (absTick <> 0 -> ratioAt absTick <= factor0).
Proof.
  intros Ha. unfold ratioAt.
  set (r0 := if Z.land absTick 1 =? 0 then 2 ^ 128 else factor0).
  assert (Hr0 : factor0 <= r0 <= 2 ^ 128).
  { subst r0. unfold factor0. destruct (Z.land absTick 1 =? 0); lia. }
  pose proof (applyFactors_bounds absTick factors 1 r0 factor0 factors_range128
                ltac:(unfold factor0 in *; lia)) as Hb.
  assert (Hlow : 2 ^ 32 <= lowerBound factors factor0) by (vm_compute; discriminate).
  split; [lia|].
  intros Hnz.
  assert (Hu0 : untouched absTick 1 r0).
  { subst r0. destruct (Z.eqb_spec (Z.land absTick 1) 0) as [E|E].
    - left. split; [reflexivity|]. intros j Hj. assert (j = 0) as -> by lia.
      apply (land_pow2_testbit absTick 0); [lia | exact E].
    - right. lia. }
  pose proof (applyFactors_untouched absTick factors 1 r0 ltac:(lia) factors_range
                ltac:(unfold factor0 in *; lia) Hu0) as [[_ Hbits]|Hle]; [|exact Hle].
  exfalso. apply Hnz. apply bits_clear_zero; [lia|].
  intros j Hj. apply Hbits. cbn. lia.
Qed.

Lemma bigint_div_nonzero a b : b <> 0 -> bigint_div a b = Ok (Z.quot a b).
Proof.
  intros H. unfold bigint_div. destruct (Z.eqb_spec b 0); [contradiction | reflexivity].
Qed.

(** In the domain the function returns, and the value is positive. *)
Lemma getSqrtRatioAtTick_positive tick r :
  getSqrtRatioAtTick tick = Ok r -> 0 < r.
Proof.
  rewrite getSqrtRatioAtTick_ratioAt.
  destruct (Z.gtb_spec (Z.abs tick) 887272) as [|Hdom]; [discriminate|].
  destruct (ratioAt_bounds (Z.abs tick) ltac:(lia)) as [Hb _].
  destruct (Z.gtb_spec tick 0) as [Hpos|Hneg].
  - rewrite bigint_div_nonzero by lia. cbv [mbind result_bind JS.bind]. intros [= <-].
    rewrite Z.shiftr_div_pow2, Z.quot_div_nonneg by lia.
    apply Z.div_str_pos. split; [lia|].
    apply Z.div_le_lower_bound; lia.
  - cbv [mbind result_bind JS.bind]. intros [= <-]. rewrite Z.shiftr_div_pow2 by lia.
    apply Z.div_str_pos. lia.
Qed.

Lemma getSqrtRatioAtTick_returns tick :
  -887272 <= tick <= 887272 -> exists r, getSqrtRatioAtTick tick = Ok r /\ 0 < r.
Proof.
  intros Hdom.
  assert (H : exists r, getSqrtRatioAtTick tick = Ok r).
  { rewrite getSqrtRatioAtTick_ratioAt.
    destruct (Z.gtb_spec (Z.abs tick) 887272); [lia|].
    destruct (ratioAt_bounds (Z.abs tick) ltac:(lia)) as [Hb _].
    destruct (tick >? 0); [rewrite bigint_div_nonzero by lia|]; cbv [mbind result_bind JS.bind]; eauto. }
  destruct H as [r Hr]. exists r. split; [exact Hr|].
  eapply getSqrtRatioAtTick_positive, Hr.
Qed.

(** X1. For every tick of the domain [-887272, 887272] getSqrtRatioAtTick
    returns a positive square-root price, which lies below 2^96 for a
    negative tick, is 2^96 at tick 0 and lies above 2^96 for a positive
    tick. *)
Theorem getSqrtRatioAtTick_sign tick :
  -887272 <= tick <= 887272 ->
  exists r,
    getSqrtRatioAtTick tick = Ok r
    /\ 0 < r
    /\ (tick < 0 -> r < 2 ^ 96)
    /\ (tick = 0 -> r = 2 ^ 96)
    /\ (0 < tick -> 2 ^ 96 < r).
Proof.
  intros Hdom. rewrite getSqrtRatioAtTick_ratioAt.
  destruct (Z.gtb_spec (Z.abs tick) 887272); [lia|].
  destruct (ratioAt_bounds (Z.abs tick) ltac:(lia)) as [Hb Hnz].
  destruct (Z.gtb_spec tick 0) as [Hpos|Hneg].
  - rewrite bigint_div_nonzero by lia. cbv [mbind result_bind JS.bind]. eexists. split; [reflexivity|].
    specialize (Hnz ltac:(lia)).
    rewrite Z.shiftr_div_pow2, Z.quot_div_nonneg by lia.
    assert (H1 : (2 ^ 256 - 1) / factor0 <= (2 ^ 256 - 1) / ratioAt (Z.abs tick)).
    { apply Z.div_le_compat_l; lia. }
    assert (H2 : (2 ^ 256 - 1) / factor0 / 2 ^ 32
                 <= (2 ^ 256 - 1) / ratioAt (Z.abs tick) / 2 ^ 32).
    { apply Z.div_le_mono; lia. }
    assert (H3 : 2 ^ 96 < (2 ^ 256 - 1) / factor0 / 2 ^ 32) by (vm_compute; reflexivity).
    repeat split; lia.
  - cbv [mbind result_bind JS.bind]. eexists. split; [reflexivity|].
    rewrite Z.shiftr_div_pow2 by lia.
    assert (H0 : 0 < ratioAt (Z.abs tick) / 2 ^ 32) by (apply Z.div_str_pos; lia).
    split; [exact H0|]. split; [|split; [|lia]].
    + intros Hlt. specialize (Hnz ltac:(lia)).
      assert (H1 : ratioAt (Z.abs tick) / 2 ^ 32 <= factor0 / 2 ^ 32)
        by (apply Z.div_le_mono; lia).
      assert (H2 : factor0 / 2 ^ 32 < 2 ^ 96) by (vm_compute; reflexivity).
      lia.
    + intros ->. vm_compute. reflexivity.
Qed.

Lemma getSqrtRatioAtTick_sign_witness :
  exists r, getSqrtRatioAtTick (-200) = Ok r /\ 0 < r /\ r < 2 ^ 96.
Proof.
  destruct (getSqrtRatioAtTick_sign (-200) ltac:(lia)) as (r & Hr & Hpos & Hneg & _).
  exists r. repeat split; [exact Hr | exact Hpos | apply Hneg; lia].
Defined.

End SqrtRatio.

Section Sizing.
Import UniswapMath PositionSizing.

Lemma ordered_comm a b : ordered a b = ordered b a.
Proof. rewrite !ordered_min_max, Z.min_comm, Z.max_comm. reflexivity. Qed.

(** X2. The order in which the two range bounds are passed does not
    matter, neither to getLiquidityForAmounts nor to
    getAmountsForLiquidity. *)
Theorem range_bounds_commute sqrtPriceX96 sqrtRatioAX96 sqrtRatioBX96 :
  (forall amount0 amount1,
      getLiquidityForAmounts sqrtPriceX96 sqrtRatioAX96 sqrtRatioBX96 amount0 amount1
      = getLiquidityForAmounts sqrtPriceX96 sqrtRatioBX96 sqrtRatioAX96 amount0 amount1)
  /\ (forall liquidity,
         getAmountsForLiquidity sqrtPriceX96 sqrtRatioAX96 sqrtRatioBX96 liquidity
         = getAmountsForLiquidity sqrtPriceX96 sqrtRatioBX96 sqrtRatioAX96 liquidity).
Proof.
  split; intros; unfold getLiquidityForAmounts, getAmountsForLiquidity;
    rewrite (ordered_comm sqrtRatioAX96 sqrtRatioBX96); reflexivity.
Qed.

Lemma getLiquidityForAmounts_empty_range sqrtPriceX96 sqrtRatioX96 amount0 amount1 :
  getLiquidityForAmounts sqrtPriceX96 sqrtRatioX96 sqrtRatioX96 amount0 amount1
  = Throw "Division by zero".
Proof.
  assert (E : ordered sqrtRatioX96 sqrtRatioX96 = (sqrtRatioX96, sqrtRatioX96))
    by (rewrite ordered_min_max, Z.min_id, Z.max_id; reflexivity).
  unfold getLiquidityForAmounts, getLiquidity0, getLiquidity1. rewrite !E.
  rewrite Z.sub_diag, Z.mul_0_r. unfold bigint_div. cbn [Z.eqb].
  destruct (Z.leb_spec sqrtPriceX96 sqrtRatioX96); [reflexivity|].
  destruct (Z.geb_spec sqrtPriceX96 sqrtRatioX96); [reflexivity | lia].
Qed.

(** X3. A range whose two bounds coincide makes getLiquidityForAmounts
    throw the RangeError of a BigInt division by zero, whatever the price
    and the amounts; so does calculateOptimalAmounts when tickLower and
    tickUpper are the same tick of the domain. *)
Theorem empty_range_throws :
  (forall sqrtPriceX96 sqrtRatioX96 amount0 amount1,
      getLiquidityForAmounts sqrtPriceX96 sqrtRatioX96 sqrtRatioX96 amount0 amount1
      = Throw "Division by zero")
  /\ (forall params,
         -887272 <= tickLower params <= 887272 ->
         tickUpper params = tickLower params ->
         calculateOptimalAmounts params = Throw "Division by zero").
Proof.
  split; [exact getLiquidityForAmounts_empty_range|].
  intros params Hdom Heq. unfold calculateOptimalAmounts. rewrite Heq.
  destruct (getSqrtRatioAtTick_returns _ Hdom) as (r & -> & _).
  cbv [mbind result_bind JS.bind].
  rewrite getLiquidityForAmounts_empty_range. reflexivity.
Qed.

Lemma empty_range_throws_witness :
  calculateOptimalAmounts
    {| currentTick := 0; tickLower := 50; tickUpper := 50;
       amount0Available := 1000; amount1Available := 1000; sqrtPriceX96 := 2 ^ 96 |}
  = Throw "Division by zero".
Proof.
  apply (proj2 empty_range_throws); cbn; [lia | reflexivity].
Defined.

(** The liquidity each token alone pays for, inside the range. *)
Lemma single_sided_liquidity P A B a0 a1 :
  0 < Z.min A B < P -> P < Z.max A B ->
  getLiquidityForAmounts P A B a0 0
  = Ok (Z.quot (a0 * Z.max A B * P) (Q96 * (Z.max A B - P)))
  /\ getLiquidityForAmounts P A B 0 a1
     = Ok (Z.quot (a1 * Q96) (P - Z.min A B)).
Proof.
  intros Hlo Hhi. pose proof Q96_pos as HQ.
  unfold getLiquidityForAmounts. rewrite ordered_min_max.
  destruct (Z.leb_spec P (Z.min A B)); [lia|].
  destruct (Z.geb_spec P (Z.max A B)); [lia|].
  cbn [Z.eqb]. unfold getLiquidity0, getLiquidity1. rewrite !ordered_lt by lia.
  split; [|apply bigint_div_pos; lia].
  destruct (Z.eqb_spec a0 0) as [->|].
  - rewrite bigint_div_pos by lia. cbn [Z.mul].
    rewrite !Z.quot_0_l by nia. reflexivity.
  - apply bigint_div_pos. nia.
Qed.

(** X4. With the price strictly inside the range and non-negative
    available amounts, calculateOptimalAmounts sizes the position by the
    scarcer token: the liquidity is the smaller of what each token alone
    pays for, and the amounts it asks for are never negative and never
    exceed what is available. *)
Theorem calculateOptimalAmounts_within_means params sqrtRatioAX96 sqrtRatioBX96 :
  getSqrtRatioAtTick (tickLower params) = Ok sqrtRatioAX96 ->
  getSqrtRatioAtTick (tickUpper params) = Ok sqrtRatioBX96 ->
  Z.min sqrtRatioAX96 sqrtRatioBX96 < sqrtPriceX96 params
    < Z.max sqrtRatioAX96 sqrtRatioBX96 ->
  0 <= amount0Available params ->
  0 <= amount1Available params ->
  exists optimal,
    calculateOptimalAmounts params = Ok optimal
    /\ liquidity optimal
       = Z.min (Z.quot (amount0Available params * Z.max sqrtRatioAX96 sqrtRatioBX96
                        * sqrtPriceX96 params)
                       (Q96 * (Z.max sqrtRatioAX96 sqrtRatioBX96 - sqrtPriceX96 params)))
               (Z.quot (amount1Available params * Q96)
                       (sqrtPriceX96 params - Z.min sqrtRatioAX96 sqrtRatioBX96))
    /\ 0 <= amount0Desired optimal <= amount0Available params
    /\ 0 <= amount1Desired optimal <= amount1Available params.
Proof.
  intros HA HB HP H0 H1. pose proof Q96_pos as HQ.
  pose proof (getSqrtRatioAtTick_positive _ _ HA) as HApos.
  pose proof (getSqrtRatioAtTick_positive _ _ HB) as HBpos.
  set (P := sqrtPriceX96 params) in *.
  set (lo := Z.min sqrtRatioAX96 sqrtRatioBX96) in *.
  set (hi := Z.max sqrtRatioAX96 sqrtRatioBX96) in *.
  assert (Hlo : 0 < lo) by (subst lo; lia).
  destruct (single_sided_liquidity P sqrtRatioAX96 sqrtRatioBX96
              (amount0Available params) (amount1Available params)
              ltac:(fold lo; lia) ltac:(fold hi; lia)) as [E0 E1].
  fold lo hi in E0, E1.
  unfold calculateOptimalAmounts. rewrite HA, HB. cbv [mbind result_bind JS.bind].
  fold P. rewrite E0, E1.
  assert (Hhi : 0 < hi) by lia.
  assert (Hn0 : 0 <= amount0Available params * hi * P)
    by (repeat apply Z.mul_nonneg_nonneg; lia).
  assert (Hd0 : 0 < Q96 * (hi - P)) by (apply Z.mul_pos_pos; lia).
  assert (Hn1 : 0 <= amount1Available params * Q96)
    by (apply Z.mul_nonneg_nonneg; lia).
  assert (HhP : 0 < hi * P) by (apply Z.mul_pos_pos; lia).
  rewrite !Z.quot_div_nonneg by lia.
  set (L0 := amount0Available params * hi * P / (Q96 * (hi - P))).
  set (L1 := amount1Available params * Q96 / (P - lo)).
  assert (HL0 : 0 <= L0) by (subst L0; apply Z.div_pos; lia).
  assert (HL1 : 0 <= L1) by (subst L1; apply Z.div_pos; lia).
  assert (HL0' : L0 * (Q96 * (hi - P)) <= amount0Available params * hi * P).
  { subst L0. rewrite Z.mul_comm. apply Z.mul_div_le. lia. }
  assert (HL1' : L1 * (P - lo) <= amount1Available params * Q96).
  { subst L1. rewrite Z.mul_comm. apply Z.mul_div_le. lia. }
  set (L := if L0 <? L1 then L0 else L1).
  assert (HL : L = Z.min L0 L1) by (subst L; destruct (Z.ltb_spec L0 L1); lia).
  destruct (Z.eqb_spec L 0) as [Hz|Hnz].
  - eexists. split; [reflexivity|]. cbn [liquidity amount0Desired amount1Desired].
    repeat split; lia.
  - unfold getAmountsForLiquidity. rewrite ordered_min_max. fold lo hi.
    destruct (Z.leb_spec P lo); [lia|].
    destruct (Z.geb_spec P hi); [lia|].
    unfold getAmount0ForLiquidity, getAmount1ForLiquidity.
    rewrite !ordered_lt by lia.
    rewrite !bigint_div_pos by lia. cbv [mbind result_bind JS.bind].
    eexists. split; [reflexivity|].
    cbn [liquidity amount0Desired amount1Desired amount0 amount1].
    assert (HLpos : 0 <= L) by lia.
    assert (Hm0 : 0 <= L * Q96 * (hi - P)) by (repeat apply Z.mul_nonneg_nonneg; lia).
    assert (Hm1 : 0 <= L * (P - lo)) by (apply Z.mul_nonneg_nonneg; lia).
    rewrite !Z.quot_div_nonneg by lia.
    split; [exact HL|].
    split; (split; [apply Z.div_pos; lia|]).
    + apply Z.div_le_upper_bound; [lia|].
      assert (L * (Q96 * (hi - P)) <= L0 * (Q96 * (hi - P)))
        by (apply Z.mul_le_mono_nonneg_r; lia).
      lia.
    + apply Z.div_le_upper_bound; [lia|].
      assert (L * (P - lo) <= L1 * (P - lo)) by (apply Z.mul_le_mono_nonneg_r; lia).
      nia.
Qed.

Lemma calculateOptimalAmounts_within_means_witness :
  exists optimal,
    calculateOptimalAmounts
      {| currentTick := 0; tickLower := -100; tickUpper := 100;
         amount0Available := 1000000; amount1Available := 5000;
         sqrtPriceX96 := 2 ^ 96 |} = Ok optimal
    /\ 0 <= amount0Desired optimal <= 1000000
    /\ 0 <= amount1Desired optimal <= 5000.
Proof.
  destruct (calculateOptimalAmounts_within_means
              {| currentTick := 0; tickLower := -100; tickUpper := 100;
                 amount0Available := 1000000; amount1Available := 5000;
                 sqrtPriceX96 := 2 ^ 96 |}
              78833030112140176575862854578 79625275426524748796330556127)
    as (optimal & H & _ & H0 & H1).
  - vm_compute. reflexivity.
  - vm_compute. reflexivity.
  - cbn. lia.
  - cbn. lia.
  - cbn. lia.
  - exists optimal. repeat split; solve [exact H | apply H0 | apply H1].
Defined.

(** X5. When the price lies at or outside the range bounds,
    calculateOptimalAmounts returns liquidity 0 and asks for nothing,
    whatever (non-negative) amounts are available: the token that the
    range cannot take contributes liquidity 0, and the minimum is taken. *)
Theorem calculateOptimalAmounts_outside_range params sqrtRatioAX96 sqrtRatioBX96 :
  getSqrtRatioAtTick (tickLower params) = Ok sqrtRatioAX96 ->
  getSqrtRatioAtTick (tickUpper params) = Ok sqrtRatioBX96 ->
  sqrtRatioAX96 <> sqrtRatioBX96 ->
  sqrtPriceX96 params <= Z.min sqrtRatioAX96 sqrtRatioBX96
  \/ Z.max sqrtRatioAX96 sqrtRatioBX96 <= sqrtPriceX96 params ->
  0 <= amount0Available params ->
  0 <= amount1Available params ->
  calculateOptimalAmounts params
  = Ok {| amount0Desired := 0; amount1Desired := 0; liquidity := 0 |}.
Proof.
  intros HA HB Hne HP H0 H1. pose proof Q96_pos as HQ.
  pose proof (getSqrtRatioAtTick_positive _ _ HA) as HApos.
  pose proof (getSqrtRatioAtTick_positive _ _ HB) as HBpos.
  set (P := sqrtPriceX96 params) in *.
  set (lo := Z.min sqrtRatioAX96 sqrtRatioBX96) in *.
  set (hi := Z.max sqrtRatioAX96 sqrtRatioBX96) in *.
  assert (Hlohi : 0 < lo < hi) by (subst lo hi; lia).
  assert (Hd0 : 0 < Q96 * (hi - lo)) by (apply Z.mul_pos_pos; lia).
  unfold calculateOptimalAmounts. rewrite HA, HB. cbv [mbind result_bind JS.bind].
  fold P. unfold getLiquidityForAmounts. rewrite ordered_min_max. fold lo hi.
  unfold getLiquidity0, getLiquidity1. rewrite !ordered_lt by lia.
  rewrite !bigint_div_pos by lia. cbn [Z.mul].
  rewrite !Z.quot_0_l by lia.
  destruct (Z.leb_spec P lo) as [Hbelow|Habove].
  - assert (Hn0 : 0 <= amount0Available params * hi * lo)
      by (repeat apply Z.mul_nonneg_nonneg; lia).
    rewrite Z.quot_div_nonneg by lia.
    set (L0 := amount0Available params * hi * lo / (Q96 * (hi - lo))).
    assert (HL0 : 0 <= L0) by (subst L0; apply Z.div_pos; lia).
    destruct (Z.ltb_spec L0 0); [lia|]. reflexivity.
  - destruct (Z.geb_spec P hi) as [_|Hin]; [|lia].
    assert (Hn1 : 0 <= amount1Available params * Q96)
      by (apply Z.mul_nonneg_nonneg; lia).
    rewrite Z.quot_div_nonneg by lia.
    set (L1 := amount1Available params * Q96 / (hi - lo)).
    assert (HL1 : 0 <= L1) by (subst L1; apply Z.div_pos; lia).
    destruct (Z.ltb_spec 0 L1) as [|Hz]; [reflexivity|].
    assert (L1 = 0) as -> by lia. reflexivity.
Qed.

Lemma calculateOptimalAmounts_outside_range_witness :
  calculateOptimalAmounts
    {| currentTick := 300; tickLower := -100; tickUpper := 100;
       amount0Available := 1000000; amount1Available := 5000;
       sqrtPriceX96 := 2 ^ 97 |}
  = Ok {| amount0Desired := 0; amount1Desired := 0; liquidity := 0 |}.
Proof.
  apply (calculateOptimalAmounts_outside_range _
           78833030112140176575862854578 79625275426524748796330556127).
  - vm_compute. reflexivity.
  - vm_compute. reflexivity.
  - lia.
  - right. cbn. lia.
  - cbn. lia.
  - cbn. lia.
Defined.

End Sizing.

(** * Edges of the policy gate *)

Section PolicyEdges.
Import IntentVerifier PolicySpec.

(** X6. An allowed-hours window whose start lies after its end (one meant
    to wrap around midnight) admits no hour at all: validatePolicy
    rejects every intent, at every hour. *)
Theorem wrapped_window_rejects_always (v : Verifier) (currentHour : Z)
    (intent : Intent) (policy : option Policy) (startHour endHour : Z) :
  field (subscription (effectivePolicy v policy)) allowedHours
  = Some (startHour, endHour) ->
  endHour < startHour ->
  accepted (validatePolicy v currentHour intent policy) = false.
Proof.
  intros Hw Hwrap. unfold validatePolicy. rewrite Hw.
  assert (E : (currentHour <? startHour) || (currentHour >? endHour) = true).
  { destruct (Z.ltb_spec currentHour startHour); [reflexivity|].
    destruct (Z.gtb_spec currentHour endHour); [reflexivity | lia]. }
  rewrite E.
  repeat match goal with
         | |- context [match ?x with _ => _ end] => destruct x
         end; reflexivity.
Qed.

Lemma wrapped_window_rejects_always_witness :
  accepted (validatePolicy Scenarios.verifier 23 Scenarios.plainIntent
              (Some (Build_Policy None None
                       (Some {| allowedHours := Some (22, 6) |}) None)))
  = false.
Proof.
  eapply wrapped_window_rejects_always; [reflexivity | lia].
Defined.

Lemma Qltb_lt a b : Qltb a b = true <-> (a < b)%Q.
Proof.
  unfold Qltb. rewrite negb_true_iff. split.
  - intros H. apply Qnot_le_lt. intros Hle.
    apply Qle_bool_iff in Hle. congruence.
  - intros H. destruct (Qle_bool b a) eqn:E; [|reflexivity].
    apply Qle_bool_iff in E. exfalso. exact (Qlt_not_le _ _ H E).
Qed.

(** X7. An emergency-stop threshold of 0 (or a missing one) is read as 5:
    with the emergency stop enabled and automation not switched off, a
    balance below 5 LOGIC is rejected although the configured threshold
    is 0. *)
Theorem zero_threshold_is_five (v : Verifier) (currentHour : Z)
    (intent : Intent) (policy : option Policy) (sp : Spending) (balance : Q) :
  field (automation (effectivePolicy v policy)) autoRebalancing <> Some false ->
  spending (effectivePolicy v policy) = Some sp ->
  emergencyStopEnabled sp = true ->
  currentBalance sp = Some balance ->
  emergencyStopThreshold sp = None \/ emergencyStopThreshold sp = Some 0%Q ->
  (balance < 5 # 1)%Q ->
  verdict (validatePolicy v currentHour intent policy)
  = (false, Some (EmergencyStop balance (5 # 1))).
Proof.
  intros Hauto Hsp Hen Hbal Hth Hlt. unfold validatePolicy.
  rewrite Hsp, Hen, Hbal.
  assert (E : Qltb balance (5 # 1) = true) by (apply Qltb_lt; exact Hlt).
  destruct Hth as [-> | ->]; [|change (Qeq_bool 0 0) with true]; cbv iota;
    rewrite E;
    destruct (field (automation (effectivePolicy v policy)) autoRebalancing)
      as [[|]|]; try congruence; reflexivity.
Qed.

Lemma zero_threshold_is_five_witness :
  verdict (validatePolicy Scenarios.verifier 12 Scenarios.plainIntent
             (Some (Build_Policy None
                      (Some {| emergencyStopEnabled := true;
                               currentBalance := Some (3 # 1);
                               emergencyStopThreshold := Some 0%Q |})
                      None None)))
  = (false, Some (EmergencyStop (3 # 1) (5 # 1))).
Proof.
  eapply zero_threshold_is_five;
    [discriminate | reflexivity | reflexivity | reflexivity | right; reflexivity
    | reflexivity].
Defined.

(** X8. A network limit of 0 is no limit: validatePolicy decides exactly
    as if the policy had no network section, so with maxGasPrice 0 and
    maxSlippageBps 0 no gas price and no slippage is ever refused. *)
Theorem zero_limits_are_no_limits (v : Verifier) (currentHour : Z)
    (intent : Intent) (p : Policy) :
  validatePolicy v currentHour intent (Some (withLimits p (Some 0) (Some 0)))
  = validatePolicy v currentHour intent (Some (withoutNetwork p)).
Proof.
  unfold validatePolicy, withLimits, withoutNetwork, effectivePolicy, field.
  cbn [automation spending subscription network maxGasPrice maxSlippageBps].
  destruct (constraints intent) as [[[gas|]]|], (recipe intent) as [[[slippage|]]|];
    cbn [maxFeePerGas slippageBps Z.eqb negb]; rewrite ?andb_false_r; cbn [andb];
    reflexivity.
Qed.

(** X9. What an accepted intent is guaranteed to satisfy: automation is
    not switched off, the hour lies in the allowed window, a non-zero
    slippage stays within the non-zero limit of the policy, the balance is
    not below a non-zero emergency threshold, and a non-zero gas price
    stays within the non-zero gas limit provided both are integers below
    10^21 in absolute value, which [parseInt] reads exactly. (The gas
    prices are compared after [parseInt]; of larger ones, which it reads
    by their leading digit, nothing is said.) *)
Theorem accepted_intent_respects_policy (v : Verifier) (currentHour : Z)
    (intent : Intent) (policy : option Policy) :
  accepted (validatePolicy v currentHour intent policy) = true ->
  let p := effectivePolicy v policy in
  field (automation p) autoRebalancing <> Some false
  /\ (forall startHour endHour,
         field (subscription p) allowedHours = Some (startHour, endHour) ->
         startHour <= currentHour <= endHour)
  /\ (forall gas limit,
         field (constraints intent) maxFeePerGas = Some gas ->
         field (network p) maxGasPrice = Some limit ->
         gas <> 0 -> limit <> 0 ->
         readExactly gas -> readExactly limit ->
         gas <= limit)
  /\ (forall slippage limit,
         field (recipe intent) slippageBps = Some slippage ->
         field (network p) maxSlippageBps = Some limit ->
         slippage <> 0 -> limit <> 0 -> slippage <= limit)
  /\ (forall sp balance threshold,
         spending p = Some sp ->
         emergencyStopEnabled sp = true ->
         currentBalance sp = Some balance ->
         emergencyStopThreshold sp = Some threshold ->
         ~ (threshold == 0)%Q ->
         (threshold <= balance)%Q).
Proof.
  intros Hacc p. subst p. unfold validatePolicy in Hacc. cbv zeta in Hacc.
  set (p := effectivePolicy v policy) in *.
  assert (Ha : field (automation p) autoRebalancing <> Some false).
  { intros E. rewrite E in Hacc. discriminate Hacc. }
  assert (Hrest :
            (match spending p with
             | Some sp =>
                 if emergencyStopEnabled sp then
                   match currentBalance sp with
                   | Some balance =>
                       let threshold :=
                         match emergencyStopThreshold sp with
                         | Some t => if Qeq_bool t 0 then 5 # 1 else t
                         | None => 5 # 1
                         end in
                       if Qltb balance threshold
                       then Some (EmergencyStop balance threshold) else None
                   | None => None
                   end
                 else None
             | None => None
             end = None)
            /\ (match field (subscription p) allowedHours with
                | Some (startHour, endHour) =>
                    if (currentHour <? startHour) || (currentHour >? endHour)
                    then Some (OutsideAllowedHours startHour endHour currentHour)
                    else None
                | None => None
                end = None)
            /\ (match field (constraints intent) maxFeePerGas,
                      field (network p) maxGasPrice with
                | Some gas, Some limit =>
                    if negb (gas =? 0) && negb (limit =? 0) && (gas >? limit)
                    then Some (GasPriceExceeded gas limit) else None
                | _, _ => None
                end = None)
            /\ (match field (recipe intent) slippageBps,
                      field (network p) maxSlippageBps with
                | Some slippage, Some limit =>
                    if negb (slippage =? 0) && negb (limit =? 0) && (slippage >? limit)
                    then Some (SlippageExceeded slippage limit) else None
                | _, _ => None
                end = None)).
  { cbv zeta.
    destruct (field (automation p) autoRebalancing) as [[|]|]; [|congruence|].
    all: repeat match type of Hacc with
                | accepted (match ?x with Some _ => _ | None => _ end) = true =>
                    destruct x; [discriminate Hacc|]
                end; repeat split; reflexivity. }
  destruct Hrest as (Hemerg & Hwin & Hgas & Hslip).
  split; [exact Ha|]. split; [|split; [|split]].
  - intros startHour endHour Hw. rewrite Hw in Hwin.
    destruct (Z.ltb_spec currentHour startHour); [discriminate Hwin|].
    destruct (Z.gtb_spec currentHour endHour); [discriminate Hwin|]. lia.
  - intros gas limit Hg Hl Hgz Hlz _ _. rewrite Hg, Hl in Hgas.
    destruct (Z.eqb_spec gas 0); [contradiction|].
    destruct (Z.eqb_spec limit 0); [contradiction|].
    destruct (Z.gtb_spec gas limit); [discriminate Hgas | lia].
  - intros slippage limit Hs Hl Hsz Hlz. rewrite Hs, Hl in Hslip.
    destruct (Z.eqb_spec slippage 0); [contradiction|].
    destruct (Z.eqb_spec limit 0); [contradiction|].
    destruct (Z.gtb_spec slippage limit); [discriminate Hslip | lia].
  - intros sp balance threshold Hsp Hen Hbal Ht Hnz.
    rewrite Hsp, Hen, Hbal, Ht in Hemerg. cbv zeta in Hemerg.
    destruct (Qeq_bool threshold 0) eqn:Hz.
    { apply Qeq_bool_iff in Hz. contradiction. }
    destruct (Qltb balance threshold) eqn:Hq; [discriminate Hemerg|].
    unfold Qltb in Hq. apply negb_false_iff in Hq.
    apply Qle_bool_iff. exact Hq.
Qed.

End PolicyEdges.

Section PolicyWitness.
Import IntentVerifier PolicySpec Scenarios.

Lemma accepted_intent_respects_policy_witness :
  accepted (validatePolicy verifier 10 gasIntent None) = true
  /\ 50000000000 <= 100000000000.
Proof.
  split; [reflexivity|].
  apply (proj1 (proj2 (proj2 (accepted_intent_respects_policy verifier 10 gasIntent
                                None ltac:(reflexivity))))
           50000000000 100000000000);
    try reflexivity; try discriminate.
Defined.

End PolicyWitness.

(** * The harvest ledger of the grace period monitor *)

Section Harvest.
Import GracePeriodMonitor HarvestSpec.

Lemma handlePositionInGracePeriod_steps d platform now position m :
  handlePositionInGracePeriod d platform now position m
  = let m2 := retier position (track position m) in
    if due now position m2 then
      if IntentVerifier.Qltb MIN_CLAIMABLE_SHADOW (shadowRewards position) then
        match collectShadowForPosition d platform (tokenId position) m2 with
        | (Ok _, m') => setCollected (tokenId position) m'
        | (Throw _, m') => m'
        end
      else setCollected (tokenId position) m2
    else m2.
Proof. reflexivity. Qed.

Lemma collected_track k position m :
  collected k (track position m) = collected k m.
Proof.
  unfold collected, track.
  destruct (trackedPositions m !! tokenId position) eqn:E; [reflexivity|].
  cbn [trackedPositions].
  destruct (decide (tokenId position = k)) as [<-|Hne].
  - rewrite lookup_insert_eq, E. reflexivity.
  - rewrite lookup_insert_ne by exact Hne. reflexivity.
Qed.

Lemma collected_retier k position m :
  collected k (retier position m) = collected k m.
Proof.
  unfold collected, retier. cbn [trackedPositions].
  destruct (decide (tokenId position = k)) as [<-|Hne].
  - rewrite lookup_alter_eq.
    destruct (trackedPositions m !! tokenId position) as [t|]; [|reflexivity].
    cbn. destruct (isUnknown (tier t) && negb (isUnknown (tierOf position))); reflexivity.
  - rewrite lookup_alter_ne by exact Hne. reflexivity.
Qed.

Lemma tracked_track position m :
  is_Some (trackedPositions (track position m) !! tokenId position).
Proof.
  unfold track. destruct (trackedPositions m !! tokenId position) eqn:E.
  - rewrite E. eauto.
  - cbn [trackedPositions]. rewrite lookup_insert_eq. eauto.
Qed.

Lemma tracked_retier k position m :
  is_Some (trackedPositions m !! k) ->
  is_Some (trackedPositions (retier position m) !! k).
Proof.
  intros [t Ht]. unfold retier. cbn [trackedPositions].
  destruct (decide (tokenId position = k)) as [<-|Hne].
  - rewrite lookup_alter_eq, Ht. cbn. eauto.
  - rewrite lookup_alter_ne by exact Hne. eauto.
Qed.

Lemma collected_setCollected k tokenId m :
  collected k (setCollected tokenId m)
  = if decide (tokenId = k) then bool_decide (is_Some (trackedPositions m !! k))
    else collected k m.
Proof.
  unfold collected, setCollected. cbn [trackedPositions].
  destruct (decide (tokenId = k)) as [<-|Hne].
  - rewrite lookup_alter_eq.
    destruct (trackedPositions m !! tokenId) as [t|]; reflexivity.
  - rewrite lookup_alter_ne by exact Hne. reflexivity.
Qed.

Lemma harvests_snoc k tokenId l :
  count_occ Z.eq_dec (l ++ [tokenId]) k
  = (count_occ Z.eq_dec l k + (if decide (tokenId = k) then 1 else 0))%nat.
Proof.
  rewrite count_occ_app. cbn [count_occ].
  destruct (Z.eq_dec tokenId k), (decide (tokenId = k)); try contradiction; reflexivity.
Qed.

(** What collectShadowForPosition leaves behind on a tracked position. *)
Lemma collectShadowForPosition_tracked d platform tokenId m :
  is_Some (trackedPositions m !! tokenId) ->
  let r := collectShadowForPosition d platform tokenId m in
  match wallet d with
  | None => r = (Throw "Wallet not initialized", m)
  | Some _ =>
      harvestRequests r.2 = (harvestRequests m ++ [tokenId])%list
      /\ (forall k, k <> tokenId -> collected k r.2 = collected k m)
      /\ match platform tokenId with
         | CollectFailed e => r.1 = Throw e /\ collected tokenId r.2 = collected tokenId m
         | _ => r.1 = Ok tt /\ is_Some (trackedPositions r.2 !! tokenId)
         end
  end.
Proof.
  intros Htracked. cbv zeta. unfold collectShadowForPosition, markCollected.
  destruct (wallet d); [|reflexivity]. cbn [trackedPositions].
  destruct Htracked as [t Ht]. rewrite Ht.
  destruct (platform tokenId); cbn [fst snd harvestRequests setCollected trackedPositions];
    (split; [reflexivity|]); (split; [|split]); try reflexivity.
  all: try (intros k Hk; unfold collected; cbn [trackedPositions setCollected];
            rewrite ?lookup_alter_ne by congruence; reflexivity).
  all: rewrite ?lookup_alter_eq, Ht; cbn; eauto.
Qed.

(** The effect of one handling on the books of any token id [k]. *)
Lemma handlePositionInGracePeriod_books d platform now position m k :
  let m' := handlePositionInGracePeriod d platform now position m in
  (collected k m = true -> collected k m' = true /\ harvests k m' = harvests k m)
  /\ (neverFails k platform -> (harvestBudget k m' <= harvestBudget k m)%nat).
Proof.
  cbv zeta. rewrite handlePositionInGracePeriod_steps. cbv zeta.
  set (m2 := retier position (track position m)).
  assert (Hc2 : forall j, collected j m2 = collected j m).
  { intros j. subst m2. rewrite collected_retier, collected_track. reflexivity. }
  assert (Hh2 : harvestRequests m2 = harvestRequests m).
  { subst m2. unfold retier, track. cbn [harvestRequests].
    destruct (trackedPositions m !! tokenId position); reflexivity. }
  assert (Ht2 : is_Some (trackedPositions m2 !! tokenId position)).
  { subst m2. apply tracked_retier, tracked_track. }
  assert (Hdue : due now position m2 = true -> collected (tokenId position) m = false).
  { unfold due. rewrite Hc2. destruct (graceExpiresAt position); [|discriminate].
    destruct (collected (tokenId position) m); [|reflexivity].
    cbn [negb]. rewrite !andb_false_r. discriminate. }
  unfold harvestBudget, harvests.
  destruct (due now position m2) eqn:Edue.
  2:{ rewrite Hc2, Hh2. split; [auto | lia]. }
  specialize (Hdue eq_refl).
  destruct (IntentVerifier.Qltb MIN_CLAIMABLE_SHADOW (shadowRewards position)).
  2:{ rewrite collected_setCollected, setCollected_requests, Hh2, Hc2.
      destruct (decide (tokenId position = k)) as [<-|Hne].
      - rewrite Hdue, bool_decide_eq_true_2 by exact Ht2. split; [discriminate | lia].
      - split; [auto | lia]. }
  pose proof (collectShadowForPosition_tracked d platform (tokenId position) m2 Ht2) as Hcol.
  cbv zeta in Hcol.
  destruct (wallet d).
  2:{ rewrite Hcol, Hc2, Hh2. split; [auto | lia]. }
  destruct Hcol as (Hreq & Hother & Hres).
  destruct (decide (tokenId position = k)) as [<-|Hne].
  - split; [rewrite Hdue; discriminate|].
    intros Hok.
    destruct (platform (tokenId position)) eqn:Ep;
      [exfalso; eapply Hok; exact Ep| | |].
    all: destruct Hres as [Hr Htr];
      destruct (collectShadowForPosition d platform (tokenId position) m2) as [r m3];
      cbn [fst snd] in *; subst r;
      rewrite collected_setCollected, setCollected_requests, Hreq, Hh2;
      rewrite decide_True by reflexivity;
      rewrite bool_decide_eq_true_2 by exact Htr;
      rewrite harvests_snoc, decide_True by reflexivity;
      rewrite Hdue; lia.
  - assert (Hk : forall m3, harvestRequests m3 = (harvestRequests m2 ++ [tokenId position])%list ->
                            count_occ Z.eq_dec (harvestRequests m3) k
                            = count_occ Z.eq_dec (harvestRequests m) k).
    { intros m3 ->. rewrite harvests_snoc, decide_False by exact Hne. rewrite Hh2. lia. }
    destruct (collectShadowForPosition d platform (tokenId position) m2) as [[[]|e] m3];
      cbn [fst snd] in *;
      rewrite ?collected_setCollected, ?setCollected_requests, ?decide_False by exact Hne;
      rewrite (Hother k) by congruence; rewrite Hc2, (Hk m3 Hreq);
      (split; [auto | lia]).
Qed.

Lemma handlePositions_books d platform clock positions k :
  forall n m,
    let m' := handlePositions d platform clock positions n m in
    (collected k m = true -> collected k m' = true /\ harvests k m' = harvests k m)
    /\ (neverFails k platform -> (harvestBudget k m' <= harvestBudget k m)%nat).
Proof.
  induction positions as [|position rest IH]; intros n m; cbn [handlePositions].
  - split; [auto | lia].
  - cbv zeta.
    set (m1 := if inGrace position
               then match graceExpiresAt position with
                    | Some _ => handlePositionInGracePeriod d platform (clock n) position m
                    | None => m
                    end
               else m).
    assert (H1 : (collected k m = true ->
                  collected k m1 = true /\ harvests k m1 = harvests k m)
                 /\ (neverFails k platform ->
                     (harvestBudget k m1 <= harvestBudget k m)%nat)).
    { subst m1. destruct (inGrace position); [|split; [auto | lia]].
      destruct (graceExpiresAt position); [|split; [auto | lia]].
      apply handlePositionInGracePeriod_books. }
    destruct H1 as [H1a H1b]. destruct (IH (S n) m1) as [H2a H2b]. split.
    + intros Hc. destruct (H1a Hc) as [Hc1 Hh1]. destruct (H2a Hc1) as [Hc2 Hh2].
      split; [exact Hc2 | congruence].
    + intros Hok. specialize (H1b Hok). specialize (H2b Hok). lia.
Qed.

Lemma cleanupTrackedPositions_kept positions m k :
  k ∈ graceIds positions ->
  collected k (cleanupTrackedPositions positions m) = collected k m.
Proof.
  intros Hk. unfold collected, cleanupTrackedPositions. cbn [trackedPositions].
  rewrite map_lookup_filter.
  destruct (trackedPositions m !! k) as [t|]; [|reflexivity]. cbn.
  rewrite option_guard_True by exact Hk. reflexivity.
Qed.

Lemma checkGracePeriods_books c m k :
  staysInGrace k c ->
  let m' := checkGracePeriods (daemonAt c) (fetchedAt c) (platformAt c) (clockAt c) m in
  (collected k m = true -> collected k m' = true /\ harvests k m' = harvests k m)
  /\ (neverFails k (platformAt c) -> (harvestBudget k m' <= harvestBudget k m)%nat).
Proof.
  intros Hstay. cbv zeta. unfold checkGracePeriods.
  destruct (negb (isRunning (daemonAt c)) || negb (isLinked (daemonAt c))
            || negb (bool_decide (is_Some (wallet (daemonAt c)))));
    [split; [auto | lia]|].
  destruct (fetchedAt c) as [positions|e] eqn:Ef; [|split; [auto | lia]].
  specialize (Hstay positions Ef).
  pose proof (handlePositions_books (daemonAt c) (platformAt c) (clockAt c) positions k 0 m)
    as [Ha Hb].
  unfold harvestBudget, harvests in *.
  rewrite cleanupTrackedPositions_kept by exact Hstay.
  cbn [harvestRequests cleanupTrackedPositions]. split; assumption.
Qed.

Lemma runChecks_books checks k :
  Forall (staysInGrace k) checks ->
  forall m,
    (collected k m = true ->
     collected k (runChecks checks m) = true
     /\ harvests k (runChecks checks m) = harvests k m)
    /\ (Forall (fun c => neverFails k (platformAt c)) checks ->
        (harvestBudget k (runChecks checks m) <= harvestBudget k m)%nat).
Proof.
  induction 1 as [|c checks Hstay _ IH]; intros m; cbn [runChecks].
  - split; [auto | lia].
  - destruct (checkGracePeriods_books c m k Hstay) as [H1a H1b].
    destruct (IH (checkGracePeriods (daemonAt c) (fetchedAt c) (platformAt c)
                                    (clockAt c) m)) as [H2a H2b].
    split.
    + intros Hc. destruct (H1a Hc) as [Hc1 Hh1]. destruct (H2a Hc1) as [Hc2 Hh2].
      split; [exact Hc2 | congruence].
    + intros Hok. inversion Hok as [|? ? Hok1 Hok2]; subst.
      specialize (H1b Hok1). specialize (H2b Hok2). lia.
Qed.

(** X10. Over checks that run one after the other, none starting before
    the previous one has finished: while the platform keeps listing a
    position in a grace state and does not refuse the harvest request, the
    monitor asks for its harvest at most once, however many such checks
    run and however often the position shows up in a list; once the
    position is marked as collected it asks no more. (Two checks that
    overlap can both find the position not yet marked and both ask.) *)
Theorem harvest_at_most_once (checks : list Check) (m : Monitor) (tokenId : Z) :
  Forall (staysInGrace tokenId) checks ->
  Forall (fun c => neverFails tokenId (platformAt c)) checks ->
  (harvests tokenId (runChecks checks m)
   <= harvests tokenId m + (if collected tokenId m then 0 else 1))%nat.
Proof.
  intros Hstay Hok.
  destruct (runChecks_books checks tokenId Hstay m) as [_ Hb].
  specialize (Hb Hok). unfold harvestBudget in Hb. lia.
Qed.

Lemma harvest_at_most_once_witness :
  (harvests 7
     (runChecks
        (replicate 3 {| daemonAt := Scenarios.rebalancing7;
                        fetchedAt := Ok [Scenarios.gracePosition7];
                        platformAt := Scenarios.harvestGoesThrough;
                        clockAt := fun _ => 0%Z |})
        Scenarios.idleMonitor)
   <= 1)%nat.
Proof.
  apply (harvest_at_most_once _ Scenarios.idleMonitor 7).
  - repeat constructor; intros positions [= <-]; vm_compute; set_solver.
  - repeat constructor; intros e; discriminate.
Defined.

Lemma due_in_window now position expiresAt m :
  graceExpiresAt position = Some expiresAt ->
  expiresAt - now < COLLECTION_THRESHOLD_MS ->
  due now position m = negb (collected (tokenId position) m).
Proof.
  intros Hexp Htime. unfold due. rewrite Hexp.
  destruct (Z.ltb_spec (expiresAt - now) COLLECTION_THRESHOLD_MS); [|lia].
  destruct (collected (tokenId position) m); cbn [negb andb orb];
    rewrite ?andb_false_r; reflexivity.
Qed.

(** X11. A position whose rewards do not exceed 0.001 SHADOW when its
    collection window is open is marked as collected without a request,
    and from then on no harvest is requested for it as long as the
    platform lists it in a grace state, whatever its rewards grow to. *)
Theorem dust_is_never_harvested (d : Daemon) (platform : Z -> CollectResponse)
    (now expiresAt : Z) (position : Position) (m : Monitor) (checks : list Check) :
  graceExpiresAt position = Some expiresAt ->
  expiresAt - now < COLLECTION_THRESHOLD_MS ->
  ~ (MIN_CLAIMABLE_SHADOW < shadowRewards position)%Q ->
  Forall (staysInGrace (tokenId position)) checks ->
  let m' := runChecks checks (handlePositionInGracePeriod d platform now position m) in
  collected (tokenId position) m' = true
  /\ harvests (tokenId position) m' = harvests (tokenId position) m.
Proof.
  intros Hexp Htime Hdust Hstay. cbv zeta.
  set (m1 := handlePositionInGracePeriod d platform now position m).
  assert (H1 : collected (tokenId position) m1 = true
               /\ harvests (tokenId position) m1 = harvests (tokenId position) m).
  { destruct (collected (tokenId position) m) eqn:Ec.
    - apply (handlePositionInGracePeriod_books d platform now position m). exact Ec.
    - subst m1. rewrite handlePositionInGracePeriod_steps. cbv zeta.
      set (m2 := retier position (track position m)).
      assert (Hc2 : collected (tokenId position) m2 = false)
        by (subst m2; rewrite collected_retier, collected_track; exact Ec).
      rewrite (due_in_window now position expiresAt m2 Hexp Htime), Hc2. cbn [negb].
      destruct (IntentVerifier.Qltb MIN_CLAIMABLE_SHADOW (shadowRewards position)) eqn:Eq.
      { apply Qltb_lt in Eq. contradiction. }
      unfold harvests. rewrite collected_setCollected, setCollected_requests.
      rewrite decide_True by reflexivity.
      rewrite bool_decide_eq_true_2 by (subst m2; apply tracked_retier, tracked_track).
      split; [reflexivity|]. subst m2. unfold retier, track. cbn [harvestRequests].
      destruct (trackedPositions m !! tokenId position); reflexivity. }
  destruct H1 as [Hc1 Hh1].
  destruct (runChecks_books checks (tokenId position) Hstay m1) as [Ha _].
  destruct (Ha Hc1) as [Hc Hh]. split; [exact Hc | congruence].
Qed.

Lemma dust_is_never_harvested_witness :
  harvests 7
    (runChecks
       [{| daemonAt := Scenarios.rebalancing7;
           fetchedAt := Ok [Scenarios.gracePosition7];
           platformAt := Scenarios.harvestGoesThrough;
           clockAt := fun _ => 1000 |}]
       (handlePositionInGracePeriod Scenarios.rebalancing7 Scenarios.harvestGoesThrough 0
          {| tokenId := 7; status := GRACE_PERIOD; graceExpiresAt := Some 45000;
             shadowRewards := 1 # 2000; tickLower := Some (-50); tickUpper := Some 50;
             createdAt := None |}
          Scenarios.idleMonitor))
  = harvests 7 Scenarios.idleMonitor.
Proof.
  apply (dust_is_never_harvested Scenarios.rebalancing7 Scenarios.harvestGoesThrough
           0 45000
           {| tokenId := 7; status := GRACE_PERIOD; graceExpiresAt := Some 45000;
              shadowRewards := 1 # 2000; tickLower := Some (-50); tickUpper := Some 50;
              createdAt := None |}).
  - reflexivity.
  - reflexivity.
  - intros H. vm_compute in H. discriminate H.
  - repeat constructor. intros positions [= <-]. vm_compute. set_solver.
Defined.

(** X12. After a check that fetched the position list, the monitor tracks
    only positions of that list that are in a grace state (GRACE_PERIOD,
    REBALANCE_QUEUED or PENDING_REBALANCE): a position that has left the
    list or the grace state is forgotten, together with its collected
    flag. *)
Theorem tracked_positions_are_in_grace (d : Daemon) (positions : list Position)
    (platform : Z -> CollectResponse) (clock : nat -> Z) (m : Monitor) (k : Z) :
  isRunning d = true ->
  isLinked d = true ->
  is_Some (wallet d) ->
  is_Some (trackedPositions (checkGracePeriods d (Ok positions) platform clock m) !! k) ->
  exists position,
    In position positions /\ tokenId position = k /\ inGrace position = true.
Proof.
  intros Hrun Hlink Hw [t Ht]. unfold checkGracePeriods in Ht.
  rewrite Hrun, Hlink, bool_decide_eq_true_2 in Ht by exact Hw.
  cbn [negb orb] in Ht. unfold cleanupTrackedPositions in Ht.
  cbn [trackedPositions] in Ht.
  apply map_lookup_filter_Some in Ht as [_ Hk]. cbn [fst] in Hk.
  apply elem_of_list_to_set, list_elem_of_In, in_map_iff in Hk
    as (position & Hid & Hin).
  apply filter_In in Hin as [Hin Hg]. eauto.
Qed.

Lemma tracked_positions_are_in_grace_witness :
  exists position,
    In position [Scenarios.gracePosition7]
    /\ tokenId position = 7 /\ inGrace position = true.
Proof.
  apply (tracked_positions_are_in_grace Scenarios.rebalancing7 [Scenarios.gracePosition7]
           Scenarios.harvestGoesThrough (fun _ => 0) Scenarios.idleMonitor 7).
  - reflexivity.
  - reflexivity.
  - cbn. eauto.
  - vm_compute. eauto.
Defined.




End Harvest.

(** * Locked positions *)

Section Frame.
Import DaemonController TrackerSpec FrameSpec.
















End Frame.

Section FrameWitness.
Import DaemonController TrackerSpec Scenarios GateScenarios.


(** Without the set-up the lock is lost: the daemon has no sonic network
    configured, the REBALANCE intent for the locked position 7 fails
    before the gate, and the failure handling releases the id. *)
Example failed_setup_releases_the_lock :
  active (processIntents (fun _ => noNetwork) [rebalance7 "intent-a"] 0
            {| active := {[7]}; closed := ∅ |}).2 = ∅.
Proof. vm_compute. reflexivity. Qed.

End FrameWitness.

(** * Receipts, tolerances and swaps of one intent *)

Section Ledger.
Import DaemonController TrackerSpec LedgerSpec.

Lemma reports_snoc l e :
  reports (l ++ [e])
  = (reports l ++ match e with Reported r => [r] | _ => [] end)%list.
Proof. unfold reports. rewrite omap_app. cbn. destruct e; reflexivity. Qed.

Lemma attemptsStarted_snoc l e :
  attemptsStarted (l ++ [e])
  = (attemptsStarted l ++ match e with AttemptStarted _ bps => [bps] | _ => [] end)%list.
Proof. unfold attemptsStarted. rewrite omap_app. cbn. destruct e; reflexivity. Qed.

Lemma swaps_snoc l e :
  swapsAttempted (l ++ [e])
  = (swapsAttempted l
     ++ match e with Submitted (SwapTx _ bps) => [bps] | _ => [] end)%list.
Proof.
  unfold swapsAttempted. rewrite omap_app. cbn. destruct e as [| [] |]; reflexivity.
Qed.

Ltac ledger_simpl :=
  unfold beforeLadder, answered, posted, sameAttempts in *;
  cbn [positionClosed events addEvent setPositionClosed setInitialData setActive
       setClosed outcomeStatus success isSkipped isPartial returnSkipped returnPartial
       returnFailure returnSuccess status receipt] in *;
  rewrite ?reports_snoc, ?attemptsStarted_snoc, ?swaps_snoc, ?last_snoc in *;
  rewrite ?length_app, ?app_nil_r in *; cbn [length] in *.

Ltac ledger_done :=
  repeat match goal with
         | H : _ /\ _ |- _ => destruct H
         | H : exists _, _ |- _ => destruct H
         end;
  repeat split;
  solve [ lia | congruence | assumption | reflexivity
        | eexists; split; [reflexivity | reflexivity]
        | eexists; split; [eassumption | assumption] ].

Lemma submitAndWait_ledger tx o msg s :
  wp (submitAndWait tx o msg)
     (fun f s' => answered s f s' /\ sameAttempts s s'
                  /\ match f with Return _ => False | _ => True end) s.
Proof. unfold submitAndWait. wp_run; ledger_simpl; ledger_done. Qed.

Lemma odosSwap_ledger w tierIndex bps hashes s :
  wp (odosSwap w tierIndex bps hashes)
     (fun f s' => answered s f s' /\ sameAttempts s s'
                  /\ match f with Return _ => False | _ => True end) s.
Proof. unfold odosSwap, submitAndWait. wp_run; ledger_simpl; ledger_done. Qed.

Lemma runTransactions_ledger w tierIndex bps build tl tu rest :
  forall i hashes s,
    wp (runTransactions w tierIndex bps build tl tu rest i hashes)
       (fun f s' => answered s f s' /\ sameAttempts s s') s.
Proof.
  induction rest as [|transaction rest IH]; intros i hashes s; cbn [runTransactions].
  - wp_run. ledger_simpl. ledger_done.
  - unfold submitAndWait.
    wp_run; try (ledger_simpl; ledger_done).
    all: try (use_spec odosSwap_ledger; try (ledger_simpl; ledger_done)).
    all: use_spec IH; ledger_simpl; ledger_done.
Qed.

Lemma markClosed_ledger tokenId s (Q : Flow unit -> State -> Prop) :
  (forall s', events s' = events s -> positionClosed s' = positionClosed s ->
              Q (Next tt) s') ->
  wp (markClosed tokenId) Q s.
Proof. intros HQ. unfold markClosed. wp_run. apply HQ; reflexivity. Qed.

Lemma rebalanceAttempt_ledger w intent tierIndex bps tl tu s :
  wp (rebalanceAttempt w intent tierIndex bps tl tu)
     (fun f s' => answered s f s' /\ sameAttempts s s' /\ noNext f) s.
Proof.
  unfold rebalanceAttempt.
  wp_run; try (ledger_simpl; cbn [noNext]; ledger_done).
  all: use_spec runTransactions_ledger; try (ledger_simpl; cbn [noNext]; ledger_done).
  all: wp_run.
  all: apply markClosed_ledger; intros s2 He2 _; wp_run.
  all: ledger_simpl; rewrite ?He2; ledger_simpl; cbn [noNext]; ledger_done.
Qed.

Lemma ladder_ledger w intent tl tu tiers :
  forall tierIndex s,
    wp (ladder w intent tl tu tiers tierIndex)
       (fun f s' => answered s f s' /\ climbed tiers s s'
                    /\ match f with Raise _ => False | _ => True end) s.
Proof.
  induction tiers as [|bps tiers IH]; intros tierIndex s; rewrite ?ladder_cons.
  - cbn [ladder]. wp_run. split; [ledger_simpl; ledger_done|].
    split; [|exact I]. exists 0%nat. cbn. rewrite app_nil_r. reflexivity.
  - wp_run.
    use_spec rebalanceAttempt_ledger;
      match goal with H : _ /\ _ /\ _ |- _ => destruct H as (Ha & Hs & Hn) end;
      try contradiction.
    + (* the rung returned *)
      split; [ledger_simpl; ledger_done|]. split; [|exact I].
      exists 1%nat. ledger_simpl. rewrite Hs. reflexivity.
    + (* the rung threw *)
      wp_run.
      * split; [ledger_simpl; ledger_done|]. split; [|exact I].
        exists 1%nat. ledger_simpl. rewrite Hs. reflexivity.
      * use_spec IH;
          match goal with H : _ /\ _ /\ _ |- _ => destruct H as (Ha' & [k Hk] & Hr) end;
          try contradiction.
        all: split; [ledger_simpl; ledger_done|]. 
        all: split; [|exact I].
        all: exists (S k); ledger_simpl; rewrite Hk, Hs; cbn [take];
          rewrite <- app_assoc; reflexivity.
Qed.

Lemma wp_conj {A} (m : M A) (Q1 Q2 : Flow A -> State -> Prop) s :
  wp m Q1 s -> wp m Q2 s -> wp m (fun f s' => Q1 f s' /\ Q2 f s') s.
Proof. unfold wp. auto. Qed.

Lemma climbed_none tiers (s0 s1 : State) :
  attemptsStarted (events s1) = attemptsStarted (events s0) -> climbed tiers s0 s1.
Proof. intros H. exists 0%nat. rewrite H. cbn. rewrite app_nil_r. reflexivity. Qed.

Lemma rebalance_ledger w intent s :
  wp (rebalance w intent)
     (fun f s' => answered s f s'
                  /\ match f with
                     | Raise _ => beforeLadder s s'
                     | _ => climbed SWAP_SLIPPAGE_TIERS s s'
                     end) s.
Proof.
  unfold rebalance. cbv zeta.
  wp_run; try (split; [ledger_simpl; ledger_done|]);
    try (apply climbed_none; ledger_simpl; reflexivity);
    try (ledger_simpl; split; reflexivity).
  use_spec ladder_ledger;
    match goal with H : _ /\ _ /\ _ |- _ => destruct H as (Ha & [k Hk] & Hr) end;
    try contradiction.
  all: split; [ledger_simpl; ledger_done|].
  all: exists k; ledger_simpl; exact Hk.
Qed.

(** The parts of executeIntent that come before the ladder. *)
Lemma trackerGate_ledger intent s :
  wp (trackerGate intent)
     (fun f s' => answered s f s' /\ beforeLadder s s') s.
Proof. unfold trackerGate. wp_run; ledger_simpl; ledger_done. Qed.

Lemma validatePosition_ledger w intent s :
  wp (validatePosition w intent)
     (fun f s' => answered s f s' /\ beforeLadder s s') s.
Proof.
  unfold validatePosition, release.
  wp_run; try (ledger_simpl; ledger_done).
  all: apply markClosed_ledger; intros s2 He2 _; wp_run.
  all: ledger_simpl; rewrite ?He2; ledger_simpl; ledger_done.
Qed.

Lemma ensureTokenApprovals_ledger w s :
  wp (ensureTokenApprovals w)
     (fun f s' => answered s f s' /\ beforeLadder s s'
                  /\ match f with Return _ => False | _ => True end) s.
Proof.
  unfold ensureTokenApprovals. destruct (tokenApprovals w) as [sent error].
  wp_run. apply submitApprovals_events. intros s' _ _ _ He.
  assert (Hr : forall n, reports (replicate n (Submitted ApproveNFPM)) = []
                         /\ attemptsStarted (replicate n (Submitted ApproveNFPM)) = []
                         /\ swapsAttempted (replicate n (Submitted ApproveNFPM)) = []).
  { clear. induction n as [|n [IH1 [IH2 IH3]]]; cbn; auto. }
  destruct (Hr sent) as (Hr1 & Hr2 & Hr3).
  assert (H1 : reports (events s') = reports (events s)).
  { rewrite He. unfold reports in *. rewrite omap_app, Hr1, app_nil_r. reflexivity. }
  assert (H2 : attemptsStarted (events s') = attemptsStarted (events s)).
  { rewrite He. unfold attemptsStarted in *. rewrite omap_app, Hr2, app_nil_r. reflexivity. }
  assert (H3 : swapsAttempted (events s') = swapsAttempted (events s)).
  { rewrite He. unfold swapsAttempted in *. rewrite omap_app, Hr3, app_nil_r. reflexivity. }
  wp_run; ledger_simpl; rewrite ?H1; ledger_done.
Qed.

Lemma rebalance_full w intent s :
  wp (rebalance w intent)
     (fun f s' =>
        (answered s f s'
         /\ match f with
            | Raise _ => beforeLadder s s'
            | _ => climbed SWAP_SLIPPAGE_TIERS s s'
            end)
        /\ (length (swapsAttempted (events s'))
            <= length (swapsAttempted (events s)) + 1)%nat
        /\ noNext f) s.
Proof.
  apply wp_conj; [apply rebalance_ledger|].
  apply wp_conj; [apply rebalance_swaps_at_most_once|].
  eapply wp_mono; [apply (rebalance_settled w intent (trackerOf s)); reflexivity|].
  cbv beta. intros f s' [_ H]. exact H.
Qed.

Ltac ledger_chain :=
  repeat match goal with
         | H : _ /\ _ |- _ => destruct H
         | H : exists _, _ |- _ => destruct H
         | H : False |- _ => destruct H
         end;
  repeat match goal with
         | H : attemptsStarted (events ?a) = attemptsStarted (events ?b) |- _ =>
             try rewrite H in *; clear H
         | H : swapsAttempted (events ?a) = swapsAttempted (events ?b) |- _ =>
             try rewrite H in *; clear H
         end.

Ltac ledger_body :=
  solve [ unfold bodyLedger, climbed in *; cbn [noNext] in *;
          ledger_simpl; ledger_chain;
          repeat split;
          solve [ lia | congruence | assumption | reflexivity | exact I
                | eexists; split; [reflexivity | reflexivity]
                | eexists; split; [eassumption | congruence]
                | exists 0%nat; cbn [take]; rewrite app_nil_r; reflexivity
                | eexists; eassumption ] ].

Lemma executeIntentBody_ledger w intent attempt s :
  isRebalance (action intent) = true ->
  wp (executeIntentBody w intent attempt) (bodyLedger s) s.
Proof.
  intros Hact. unfold executeIntentBody. rewrite Hact.
  wp_step. wp_step; cbv beta iota; wp_run.
  { ledger_body. }
  use_spec trackerGate_ledger; try ledger_body.
  wp_run.
  use_spec validatePosition_ledger; try ledger_body.
  wp_run.
  use_spec ensureTokenApprovals_ledger; try ledger_body.
  wp_run; try ledger_body.
  use_spec rebalance_full; try ledger_body.
Qed.

Lemma failPermanently_ledger intent attempt message s :
  wp (failPermanently intent attempt message)
     (fun f s' => f = Return returnFailure
                  /\ answered s f s' /\ beforeLadder s s') s.
Proof.
  unfold failPermanently, release.
  wp_run; (split; [reflexivity|]); ledger_simpl; ledger_done.
Qed.

Lemma executeIntentAt_ledger budget w intent :
  isRebalance (action intent) = true ->
  forall attempt s,
    (MAX_RETRIES <= attempt + budget)%nat ->
    wp (executeIntentAt budget w intent attempt) (intentLedger s) s.
Proof.
  intros Hact.
  induction budget as [|budget IH]; intros attempt s Hb; cbn [executeIntentAt].
  all: wp_run; use_spec executeIntentBody_ledger.
  all: try (unfold bodyLedger in *; cbn [noNext] in *; tauto).
  all: try (eexists; split; [reflexivity|]; ledger_body).
  all: unfold handleFailure; wp_run.
  all: try (use_spec failPermanently_ledger;
            match goal with H : _ = Return _ /\ _ |- _ => destruct H as [Hf Hrest] end;
            try discriminate; injection Hf as ->;
            eexists; split; [reflexivity|]; ledger_body).
  - match goal with
    | H : (_ && (_ <? _)%nat) = true |- _ =>
        apply andb_prop in H as [_ Hlt]; apply Nat.ltb_lt in Hlt
    end.
    unfold MAX_RETRIES in *. lia.
  - use_spec IH; [lia | | | ];
      match goal with H : intentLedger _ _ _ |- _ => destruct H as (v' & Hv & Hrest) end;
      try discriminate.
    injection Hv as ->. wp_run.
    eexists; split; [reflexivity|]. ledger_body.
Qed.

Lemma executeIntent_ledger w intent t :
  action intent = REBALANCE ->
  exists v,
    returned (executeIntent w intent t).1 = Some v
    /\ length (reports (log (executeIntent w intent t).1)) = 1%nat
    /\ (exists r, last (log (executeIntent w intent t).1) = Some (Reported r)
                  /\ status r = outcomeStatus v)
    /\ (exists k, attemptsStarted (log (executeIntent w intent t).1)
                  = take k SWAP_SLIPPAGE_TIERS)
    /\ (length (swapsAttempted (log (executeIntent w intent t).1)) <= 1)%nat.
Proof.
  intros Hact. unfold executeIntent.
  pose proof (executeIntentAt_ledger (MAX_RETRIES - 1) w intent
                ltac:(rewrite Hact; reflexivity) 1 (initialState t)
                ltac:(unfold MAX_RETRIES; lia)) as H.
  unfold wp in H.
  destruct (executeIntentAt (MAX_RETRIES - 1) w intent 1 (initialState t)) as [f s'].
  cbn [fst snd returned log] in *.
  destruct H as (v & -> & [Hp Hr] & [k Hk] & Hs).
  unfold posted in Hp. cbn [events initialState reports omap length app] in *.
  exists v. split; [reflexivity|]. split; [exact Hp|]. split; [exact Hr|].
  split; [exists k; exact Hk | exact Hs].
Qed.

(** X15. Every execution of a REBALANCE intent resolves, and calls
    reportReceiptWithRetry exactly once: no transaction is submitted to
    the chain and no attempt is started after that call. The status of
    the receipt handed over is that of the returned value (completed for
    success, skipped, partial, failed otherwise). What
    reportReceiptWithRetry then sends to the platform is not part of the
    statement. *)
Theorem rebalance_reports_once (w : World) (intent : Intent) (t : Tracker) :
  action intent = REBALANCE ->
  exists v r before,
    returned (executeIntent w intent t).1 = Some v
    /\ log (executeIntent w intent t).1 = (before ++ [Reported r])%list
    /\ reports before = []
    /\ status r = outcomeStatus v.
Proof.
  intros Hact.
  destruct (executeIntent_ledger w intent t Hact) as (v & Hv & Hone & (r & Hlast & Hst) & _).
  apply last_Some in Hlast as [before Hlog].
  exists v, r, before. repeat split; try assumption.
  rewrite Hlog, reports_snoc, length_app in Hone. cbn [length] in Hone.
  destruct (reports before); [reflexivity | cbn in Hone; lia].
Qed.

Lemma rebalance_reports_once_witness :
  exists v r before,
    returned (executeIntent Scenarios.calm (Scenarios.rebalance7 "intent-a")
                Scenarios.fresh).1 = Some v
    /\ log (executeIntent Scenarios.calm (Scenarios.rebalance7 "intent-a")
              Scenarios.fresh).1 = (before ++ [Reported r])%list
    /\ reports before = []
    /\ status r = outcomeStatus v.
Proof.
  apply rebalance_reports_once. reflexivity.
Defined.

(** X16. The slippage tolerances at which one REBALANCE intent starts a
    rung are an initial segment of 20, 50, 100, 200, 500: they are tried
    in this order, each at most once, and never a sixth. *)
Theorem tolerances_are_tried_in_order (w : World) (intent : Intent) (t : Tracker) :
  action intent = REBALANCE ->
  exists k,
    attemptsStarted (log (executeIntent w intent t).1) = take k [20; 50; 100; 200; 500].
Proof.
  intros Hact.
  destruct (executeIntent_ledger w intent t Hact) as (_ & _ & _ & _ & Hk & _).
  exact Hk.
Qed.

Lemma tolerances_are_tried_in_order_witness :
  exists k,
    attemptsStarted
      (log (executeIntent Scenarios.platformDown (Scenarios.rebalance7 "intent-a")
              Scenarios.fresh).1)
    = take k [20; 50; 100; 200; 500].
Proof.
  apply tolerances_are_tried_in_order. reflexivity.
Defined.

(** X17. One REBALANCE intent submits at most one swap transaction,
    whatever the chain, the platform and the aggregator answer. *)
Theorem rebalance_swaps_once (w : World) (intent : Intent) (t : Tracker) :
  action intent = REBALANCE ->
  (length (swapsAttempted (log (executeIntent w intent t).1)) <= 1)%nat.
Proof.
  intros Hact.
  destruct (executeIntent_ledger w intent t Hact) as (_ & _ & _ & _ & _ & Hs).
  exact Hs.
Qed.

Lemma rebalance_swaps_once_witness :
  (length (swapsAttempted
             (log (executeIntent Scenarios.swapReverts (Scenarios.rebalance7 "intent-a")
                     Scenarios.fresh).1)) <= 1)%nat.
Proof.
  apply rebalance_swaps_once. reflexivity.
Defined.

End Ledger.

(** * Skipped intents and the empty bundle *)

Section Validation.

Import DaemonController TrackerSpec.

Context (w : World) (intent : Intent) (t : Tracker).
Context (p0 : Position) (tick0 : Z).

Hypothesis Haction : action intent = REBALANCE.
Hypothesis Hsetup : setup w 1%nat = None.
Hypothesis Hfree : (tokenId (recipe intent) ∉ active t)
                   /\ (tokenId (recipe intent) ∉ closed t).
Hypothesis Howner : ownerOf w = Ok (walletAddress w).
Hypothesis Hposition0 : positions w AtValidation = Ok p0.
Hypothesis Hliquid : liquidity p0 <> 0.
Hypothesis Htick0 : poolTick w AtValidation = Ok tick0.
Hypothesis Hin0 : inRange tick0 (tickLower p0) (tickUpper p0) = true.

(** X18. A REBALANCE intent for a position that is owned, holds liquidity
    and is found in range when it is validated is skipped with reason
    "already in range": nothing is submitted to the chain, not even an
    approval, and the position tracker is left exactly as it was, so a
    later intent for the same position is taken up again. *)
Theorem in_range_position_is_released :
  executeIntent w intent t = (skippedOutcome (AlreadyInRange tick0), t).
Proof.
  destruct Hfree as [Hna Hnc].
  pose proof (proj2 (Z.eqb_neq _ _) Hliquid) as Hliquid'.
  pose proof (bool_decide_eq_false_2 _ Hna) as Hna'.
  pose proof (bool_decide_eq_false_2 _ Hnc) as Hnc'.
  assert (Hwp : wp (executeIntentAt (MAX_RETRIES - 1) w intent 1)
                  (fun f s' => f = Next returnSkipped
                               /\ events s' = [Reported (receipt skipped (AlreadyInRange tick0))]
                               /\ trackerOf s' = t)
                  (initialState t)).
  { cbn [MAX_RETRIES Nat.sub]. unfold executeIntentAt at 1.
    unfold executeIntentBody, trackerGate. rewrite Haction. cbn [isRebalance].
    wp_follow.
    unfold validatePosition, release. wp_follow.
    split; [reflexivity|]. split; [reflexivity|].
    tracker_simpl. destruct t as [a c]. cbn in *. f_equal. set_solver. }
  unfold executeIntent. unfold wp in Hwp.
  destruct (executeIntentAt (MAX_RETRIES - 1) w intent 1 (initialState t)) as [f s'].
  cbn [fst snd] in Hwp. destruct Hwp as (-> & Hev & Htr).
  unfold trackerOf in Htr. rewrite Hev. unfold skippedOutcome. f_equal. exact Htr.
Qed.

End Validation.

Section ValidationWitness.

Import DaemonController TrackerSpec Scenarios MoreScenarios.

Lemma in_range_position_is_released_witness :
  executeIntent backInRange (rebalance7 "intent-a") fresh
  = (skippedOutcome (AlreadyInRange 0), fresh).
Proof.
  apply (in_range_position_is_released backInRange (rebalance7 "intent-a") fresh
           position 0);
    try reflexivity; try discriminate.
  split; cbn; set_solver.
Defined.

End ValidationWitness.

Section UnknownTier.

Import DaemonController TrackerSpec TierConfig.

Context (w : World) (intent : Intent) (t : Tracker).
Context (p0 : Position) (tick0 fee : Z) (approvals : nat).
Context (savedTiers : option TierPreferences).

Hypothesis Haction : action intent = REBALANCE.
Hypothesis Hsetup : setup w 1%nat = None.
Hypothesis Hfree : (tokenId (recipe intent) ∉ active t)
                   /\ (tokenId (recipe intent) ∉ closed t).
Hypothesis Howner : ownerOf w = Ok (walletAddress w).
Hypothesis Hposition0 : positions w AtValidation = Ok p0.
Hypothesis Hliquid : liquidity p0 <> 0.
Hypothesis Htick0 : poolTick w AtValidation = Ok tick0.
Hypothesis Hout0 : inRange tick0 (tickLower p0) (tickUpper p0) = false.
Hypothesis Happrovals : tokenApprovals w = (approvals, None).
Hypothesis Hfee : poolFee w = Ok fee.
(* the tier switches are those of the configuration file *)
Hypothesis Hpreferences :
  tierEnabled w = tierEnabledIn (loadTierPreferences savedTiers).
(* which has no entry for the tier UNKNOWN, as the default preferences *)
Hypothesis Hunknown : loadTierPreferences savedTiers !! "UNKNOWN" = None.
(* and the intent names no tier *)
Hypothesis Hnotier : fromTier (recipe intent) = None.

(** X19. A REBALANCE intent that names no tier (no recipe.fromTier) is
    treated as tier UNKNOWN; with preferences that have no UNKNOWN entry,
    as the defaults, it is skipped as "UNKNOWN tier is disabled" after the
    position has been validated and the token approvals have been sent:
    no bundle is built, and the token id stays in the active set. *)
Theorem intent_without_tier_is_skipped :
  executeIntent w intent t
  = ({| returned := Some returnSkipped;
        log := (replicate approvals (Submitted ApproveNFPM)
                ++ [Reported (receipt skipped (TierDisabled "UNKNOWN"))])%list |},
     {| active := active t ∪ {[tokenId (recipe intent)]}; closed := closed t |}).
Proof.
  destruct Hfree as [Hna Hnc].
  pose proof (proj2 (Z.eqb_neq _ _) Hliquid) as Hliquid'.
  pose proof (bool_decide_eq_false_2 _ Hna) as Hna'.
  pose proof (bool_decide_eq_false_2 _ Hnc) as Hnc'.
  assert (Htier : positionTierOf intent = "UNKNOWN")
    by (unfold positionTierOf; rewrite Hnotier; reflexivity).
  assert (Hoff : tierEnabled w "UNKNOWN" = false)
    by (rewrite Hpreferences; unfold tierEnabledIn; rewrite Hunknown; reflexivity).
  match goal with
  | |- _ = ({| returned := _; log := ?l |}, ?T) =>
      assert (Hwp : wp (executeIntentAt (MAX_RETRIES - 1) w intent 1)
                      (fun f s' => f = Next returnSkipped
                                   /\ events s' = l /\ trackerOf s' = T)
                      (initialState t))
  end.
  { cbn [MAX_RETRIES Nat.sub]. unfold executeIntentAt at 1.
    unfold executeIntentBody, trackerGate. rewrite Haction. cbn [isRebalance].
    wp_follow.
    unfold validatePosition. wp_follow.
    unfold ensureTokenApprovals. rewrite Happrovals. wp_follow.
    apply submitApprovals_events. intros s1 Ht1 Hpc1 Hid1 Hev1. cbn in Hev1.
    wp_follow.
    unfold rebalance. cbv zeta. rewrite Htier, Hoff. cbn [negb]. wp_follow.
    split; [reflexivity|]; split;
      [ state_simpl; rewrite Hev1; reflexivity
      | tracker_simpl; rewrite Ht1; reflexivity ]. }
  unfold executeIntent. unfold wp in Hwp.
  destruct (executeIntentAt (MAX_RETRIES - 1) w intent 1 (initialState t)) as [f s'].
  cbn [fst snd] in Hwp. destruct Hwp as (-> & Hev & Htr).
  unfold trackerOf in Htr. injection Htr as Ha Hc.
  rewrite Hev, Ha, Hc. reflexivity.
Qed.

End UnknownTier.

Section UnknownTierWitness.

Import DaemonController TrackerSpec TierConfig Scenarios MoreScenarios.

(** The default preferences, an intent without a tier. *)
Lemma intent_without_tier_is_skipped_witness :
  executeIntent defaultPreferences untiered7 fresh
  = ({| returned := Some returnSkipped;
        log := [Submitted ApproveNFPM;
                Reported (receipt skipped (TierDisabled "UNKNOWN"))] |},
     {| active := ∅ ∪ {[7]}; closed := ∅ |}).
Proof.
  apply (intent_without_tier_is_skipped defaultPreferences untiered7 fresh
           position 250 3000 1%nat None);
    try reflexivity; try discriminate.
  split; cbn; set_solver.
Defined.

End UnknownTierWitness.

Section EmptyBundle.

Import DaemonController TrackerSpec.

Context (w : World) (intent : Intent) (t : Tracker).
Context (p0 p1 : Position) (tick0 tick1 tick2 fee : Z).
Context (approvals : nat) (build : BuildResponse).

Hypothesis Haction : action intent = REBALANCE.
Hypothesis Hsetup : setup w 1%nat = None.
Hypothesis Hfree : (tokenId (recipe intent) ∉ active t)
                   /\ (tokenId (recipe intent) ∉ closed t).
Hypothesis Howner : ownerOf w = Ok (walletAddress w).
Hypothesis Hposition0 : positions w AtValidation = Ok p0.
Hypothesis Hliquid : liquidity p0 <> 0.
Hypothesis Htick0 : poolTick w AtValidation = Ok tick0.
Hypothesis Hout0 : inRange tick0 (tickLower p0) (tickUpper p0) = false.
Hypothesis Happrovals : tokenApprovals w = (approvals, None).
Hypothesis Hfee : poolFee w = Ok fee.
Hypothesis Htier : tierEnabled w (positionTierOf intent) = true.
Hypothesis Hposition1 : positions w AtStart = Ok p1.
Hypothesis Htick1 : poolTick w AtStart = Ok tick1.
Hypothesis Hout1 : inRange tick1 (tickLower p1) (tickUpper p1) = false.
Hypothesis Htick2 : poolTick w (AtAttempt 0) = Ok tick2.
Hypothesis Hout2 : inRange tick2 (tickLower p1) (tickUpper p1) = false.
(* the platform builds a bundle without transactions *)
Hypothesis Hbuild : buildTransaction w 0 = Ok build.
Hypothesis Hbundle : transactions build = Some [].

(** X20. When the platform answers the first rung with an empty bundle,
    the engine sends no bundle transaction, yet it returns success and
    moves the position to the closed set, so that later intents for it are
    skipped; the receipt it hands over says completed without any
    transaction hash, which reportReceipt posts as failed. *)
Theorem empty_bundle_closes_position :
  exists r,
    executeIntent w intent t
    = ({| returned := Some returnSuccess;
          log := (replicate approvals (Submitted ApproveNFPM)
                  ++ [AttemptStarted 0 20; Reported r])%list |},
       {| active := (active t ∪ {[tokenId (recipe intent)]}) ∖ {[tokenId (recipe intent)]};
          closed := closed t ∪ {[tokenId (recipe intent)]} |})
    /\ status r = completed
    /\ txHashes r = []
    /\ postedStatus r = failed.
Proof.
  destruct Hfree as [Hna Hnc].
  pose proof (proj2 (Z.eqb_neq _ _) Hliquid) as Hliquid'.
  pose proof (bool_decide_eq_false_2 _ Hna) as Hna'.
  pose proof (bool_decide_eq_false_2 _ Hnc) as Hnc'.
  exists {| status := completed; reason := NoReason; completedTxs := None;
            attemptsExhausted := None; attempts := None; txHashes := [];
            swapSlippageUsed := Some 20 |}.
  split; [|repeat split; reflexivity].
  match goal with
  | |- _ = ({| returned := _; log := ?l |}, ?T) =>
      assert (Hwp : wp (executeIntentAt (MAX_RETRIES - 1) w intent 1)
                      (fun f s' => f = Next returnSuccess
                                   /\ events s' = l /\ trackerOf s' = T)
                      (initialState t))
  end.
  { cbn [MAX_RETRIES Nat.sub]. unfold executeIntentAt at 1.
    unfold executeIntentBody, trackerGate. rewrite Haction. cbn [isRebalance].
    wp_follow.
    unfold validatePosition. wp_follow.
    unfold ensureTokenApprovals. rewrite Happrovals. wp_follow.
    apply submitApprovals_events. intros s1 Ht1 Hpc1 Hid1 Hev1. cbn in Hev1.
    wp_follow.
    unfold rebalance. cbv zeta. wp_follow.
    unfold SWAP_SLIPPAGE_TIERS at 1. rewrite ladder_cons. wp_follow.
    unfold rebalanceAttempt. wp_follow.
    cbn [runTransactions]. wp_follow. unfold markClosed. wp_follow.
    split; [reflexivity|]; split;
      [ state_simpl; rewrite Hev1; cbn; rewrite <- ?app_assoc; reflexivity
      | tracker_simpl; rewrite Ht1; reflexivity ]. }
  unfold executeIntent. unfold wp in Hwp.
  destruct (executeIntentAt (MAX_RETRIES - 1) w intent 1 (initialState t)) as [f s'].
  cbn [fst snd] in Hwp. destruct Hwp as (-> & Hev & Htr).
  unfold trackerOf in Htr. injection Htr as Ha Hc.
  rewrite Hev, Ha, Hc. reflexivity.
Qed.

End EmptyBundle.

Section EmptyBundleWitness.

Import DaemonController TrackerSpec Scenarios MoreScenarios.

Lemma empty_bundle_closes_position_witness :
  exists r,
    executeIntent emptyBundle (rebalance7 "intent-a") fresh
    = ({| returned := Some returnSuccess;
          log := ([] ++ [AttemptStarted 0 20; Reported r])%list |},
       {| active := (∅ ∪ {[7]}) ∖ {[7]}; closed := ∅ ∪ {[7]} |})
    /\ status r = completed
    /\ txHashes r = []
    /\ postedStatus r = failed.
Proof.
  apply (empty_bundle_closes_position emptyBundle (rebalance7 "intent-a") fresh
           position position 250 250 250 3000 0%nat
           {| transactions := Some []; needsSwap := false; imbalanceData := false |});
    try reflexivity; try discriminate.
  split; cbn; set_solver.
Defined.

End EmptyBundleWitness.

(** * The intake of signed intents *)

Section IntakeFacts.
Import IntentIntake.

Lemma admission_queued v io d policy signed i p :
  admission v io d policy signed i = Queued p ->
  verifyIntent io Admission i = Ok p
  /\ IntentVerifier.accepted
       (IntentVerifier.validatePolicy v (hourAt io i) (policyFields p) policy) = true
  /\ (isRebalance p = true ->
      exists inForce,
        policy = Some inForce
        /\ autoRebalancing inForce = true
        /\ forall connected,
             connectedAt d = Some connected ->
             normalisedBefore (intentTimestamp p) connected = true ->
             executeBackdatedRebalances io i = true).
Proof.
  unfold admission.
  destruct (verifyIntent io Admission i) as [q|e]; [|destruct (signedIntentId signed); discriminate].
  destruct (IntentVerifier.accepted _) eqn:Hacc; cbn [negb]; [|discriminate].
  destruct policy as [inForce|].
  - destruct (isRebalance q) eqn:Hreb; cbn [andb].
    + destruct (autoRebalancing inForce) eqn:Hauto; cbn [negb]; [|discriminate].
      destruct (connectedAt d) as [connected|] eqn:Hc.
      * destruct (normalisedBefore (intentTimestamp q) connected) eqn:Hb; cbn [andb].
        -- destruct (executeBackdatedRebalances io i) eqn:Hx; cbn [negb]; [|discriminate].
           intros [= <-]. repeat split; try assumption.
           intros _. exists inForce. repeat split; try assumption.
        -- intros [= <-]. repeat split; try assumption.
           intros _. exists inForce. repeat split; try assumption.
           intros c [= <-] Hb'. congruence.
      * intros [= <-]. repeat split; try assumption.
        intros _. exists inForce. repeat split; try assumption. intros c [=].
    + destruct (connectedAt d); intros [= <-]; repeat split; try assumption;
        congruence.
  - destruct (isRebalance q) eqn:Hreb.
    + destruct (signedIntentId signed); discriminate.
    + intros [= <-]. repeat split; try assumption. congruence.
Qed.

Lemma queued_saved (saved steps : list Step) :
  (forall q, ~ In (Queued q) saved) ->
  queued (saved ++ steps)%list = queued steps.
Proof.
  intros Hs. unfold queued. rewrite omap_app.
  replace (omap _ saved) with (@nil Payload); [reflexivity|].
  induction saved as [|[] saved IH]; cbn;
    try (apply IH; intros q Hin; apply (Hs q); right; exact Hin).
  - reflexivity.
  - exfalso. eapply Hs. left. reflexivity.
Qed.

Lemma admitAll_queued_lookup v io d policy intents :
  forall k p,
    In p (queued (admitAll v io d policy intents k)) ->
    exists i signed,
      intents !! i = Some signed
      /\ admission v io d policy signed (k + i) = Queued p.
Proof.
  induction intents as [|s0 rest IH]; intros k p Hin; cbn in Hin; [contradiction|].
  assert (Hrest : In p (queued (admitAll v io d policy rest (S k))) ->
                  exists i signed,
                    (s0 :: rest) !! i = Some signed
                    /\ admission v io d policy signed (k + i) = Queued p).
  { intros H. destruct (IH (S k) p H) as (i & signed & Hi & Ha).
    exists (S i), signed. split; [exact Hi|].
    replace (k + S i)%nat with (S k + i)%nat by lia. exact Ha. }
  destruct (admission v io d policy s0 k) as [| | |q] eqn:E; try (apply Hrest; exact Hin).
  destruct Hin as [<-|Hin]; [|apply Hrest; exact Hin].
  exists 0%nat, s0. split; [reflexivity|]. rewrite Nat.add_0_r. exact E.
Qed.

Lemma admitAll_lookup v io d policy intents :
  forall k i signed,
    intents !! i = Some signed ->
    admitAll v io d policy intents k !! i = Some (admission v io d policy signed (k + i)).
Proof.
  induction intents as [|s0 rest IH]; intros k i signed Hi; [discriminate|].
  cbn [admitAll]. destruct i as [|i].
  - injection Hi as ->. rewrite Nat.add_0_r. reflexivity.
  - change (admitAll v io d policy rest (S k) !! i
            = Some (admission v io d policy signed (k + S i))).
    change (rest !! i = Some signed) in Hi.
    rewrite (IH (S k) i signed Hi). f_equal. f_equal. lia.
Qed.

Lemma admitAll_paused v io d pol intents :
  forall k, queued (admitAll v io d (Some (pause pol)) intents k) = [].
Proof.
  induction intents as [|signed rest IH]; intros k; cbn [admitAll]; [reflexivity|].
  assert (Hno : forall q, admission v io d (Some (pause pol)) signed k <> Queued q).
  { intros q. unfold admission. destruct (verifyIntent io Admission k);
      [discriminate | destruct (signedIntentId signed); discriminate]. }
  destruct (admission v io d (Some (pause pol)) signed k) eqn:E;
    try (exfalso; eapply Hno; reflexivity); apply (IH (S k)).
Qed.

Lemma admitAll_length v io d policy intents :
  forall k, length (admitAll v io d policy intents k) = length intents.
Proof.
  induction intents as [|signed rest IH]; intros k; cbn [admitAll length];
    [reflexivity | rewrite (IH (S k)); reflexivity].
Qed.

(** X21. An intent is queued for execution by a poll only if it is one
    of the intents the platform answered with, its signature verified,
    and validatePolicy accepted it under the policy that getPolicy
    returned to that poll; a REBALANCE intent moreover only if that policy
    has auto-rebalancing switched on and, when the intent is stamped
    before the daemon connected, the configuration allows backdated
    rebalances. (A poll that pauses auto-rebalancing queues nothing.) *)
Theorem queued_intents_passed_every_check (v : IntentVerifier.Verifier) (io : Intake)
    (d : Daemon) (policy : option IntentVerifier.Policy)
    (intents : list SignedIntent) (steps : list Step) :
  (intake v io d policy intents).1 = Ok steps ->
  forall p,
    In p (queued steps) ->
    exists i signed,
      intents !! i = Some signed
      /\ verifyIntent io Admission i = Ok p
      /\ IntentVerifier.accepted
           (IntentVerifier.validatePolicy v (hourAt io i) (policyFields p) policy)
         = true
      /\ (isRebalance p = true ->
          exists inForce,
            policy = Some inForce
            /\ autoRebalancing inForce = true
            /\ forall connected,
                 connectedAt d = Some connected ->
                 normalisedBefore (intentTimestamp p) connected = true ->
                 executeBackdatedRebalances io i = true).
Proof.
  assert (Hplain : forall steps0,
             (admitInto v io d policy intents []).1 = Ok steps0 ->
             forall p, In p (queued steps0) ->
               exists i signed,
                 intents !! i = Some signed
                 /\ verifyIntent io Admission i = Ok p
                 /\ IntentVerifier.accepted
                      (IntentVerifier.validatePolicy v (hourAt io i) (policyFields p)
                         policy) = true
                 /\ (isRebalance p = true ->
                     exists inForce,
                       policy = Some inForce
                       /\ autoRebalancing inForce = true
                       /\ forall connected,
                            connectedAt d = Some connected ->
                            normalisedBefore (intentTimestamp p) connected = true ->
                            executeBackdatedRebalances io i = true)).
  { intros steps0 [= <-] p Hin. cbn [app] in Hin.
    destruct (admitAll_queued_lookup v io d policy intents 0 p Hin)
      as (i & signed & Hi & Ha).
    cbn [Nat.add] in Ha. apply admission_queued in Ha.
    exists i, signed. split; [exact Hi | exact Ha]. }
  unfold intake. destruct intents as [|signed rest]; [intros [= <-] p []|].
  cbv iota. remember (signed :: rest) as all eqn:Hall. clear Hall.
  destruct (negb (backdatedIntentsDetected d)); [|apply Hplain].
  destruct (connectedAt d) as [connected|] eqn:Hc; [|apply Hplain].
  destruct policy as [inForce|]; [|discriminate].
  destruct (autoRebalancing inForce && hasBackdatedRebalances io connected all 0);
    [|apply Hplain].
  destruct (updatePolicy io (pause inForce)) as [[]|e]; [|discriminate].
  unfold admitInto. cbn [fst]. intros [= <-] p Hin. exfalso.
  change (In p (queued ([PolicyUpdated (pause inForce)]
                        ++ admitAll v io (setDetected d) (Some (pause inForce)) all 0)%list))
    in Hin.
  rewrite queued_saved in Hin by (intros q [Hq|[]]; discriminate).
  rewrite admitAll_paused in Hin. exact Hin.
Qed.

(** X22. When a poll whose flag [backdatedIntentsDetected] is not yet
    set finds, with auto-rebalancing on, a REBALANCE intent stamped before
    the daemon connected, it sets the flag, switches auto-rebalancing off
    in the policy object and calls updatePolicy with it. When that call
    resolves, the policy so changed is the one the intents of the poll are
    validated against: every intent that verifies, whatever its action, is
    rejected with "Policy validation failed", there is one step for each
    intent, and nothing is queued. When the call rejects, the poll is
    abandoned with that error before any intent is looked at. The flag
    stays set in both cases. *)
Theorem auto_pause_rejects_the_batch (v : IntentVerifier.Verifier) (io : Intake)
    (d : Daemon) (pol : IntentVerifier.Policy) (intents : list SignedIntent)
    (connected : Z) :
  backdatedIntentsDetected d = false ->
  connectedAt d = Some connected ->
  autoRebalancing pol = true ->
  hasBackdatedRebalances io connected intents 0 = true ->
  backdatedIntentsDetected (intake v io d (Some pol) intents).2 = true
  /\ (forall e, updatePolicy io (pause pol) = Throw e ->
                intake v io d (Some pol) intents = (Throw e, setDetected d))
  /\ (updatePolicy io (pause pol) = Ok tt ->
      exists steps,
        (intake v io d (Some pol) intents).1 = Ok (PolicyUpdated (pause pol) :: steps)
        /\ queued steps = []
        /\ length steps = length intents
        /\ forall i signed p,
             intents !! i = Some signed ->
             verifyIntent io Admission i = Ok p ->
             steps !! i = Some (Rejected (intentIdOf p) PolicyValidationFailed)).
Proof.
  intros Hflag Hc Hauto Hback. unfold intake.
  destruct intents as [|signed rest]; [discriminate Hback|].
  cbv iota. remember (signed :: rest) as all eqn:Hall. clear Hall.
  rewrite Hflag, Hc, Hauto, Hback. cbn [negb andb].
  destruct (updatePolicy io (pause pol)) as [[]|e0].
  - split; [reflexivity|]. split; [discriminate|]. intros _.
    unfold admitInto. cbn [fst app].
    eexists. split; [reflexivity|].
    split; [apply admitAll_paused|].
    split; [apply admitAll_length|].
    intros i s p Hi Hv. rewrite (admitAll_lookup _ _ _ _ _ 0%nat i s Hi). cbn [Nat.add].
    unfold admission. rewrite Hv. reflexivity.
  - split; [reflexivity|]. split; [|discriminate].
    intros e [= <-]. reflexivity.
Qed.

Lemma hasBackdatedRebalances_found io connected intents :
  forall k i signed p,
    intents !! i = Some signed ->
    verifyIntent io Detection (k + i) = Ok p ->
    isRebalance p = true ->
    rawBefore (intentTimestamp p) connected = true ->
    hasBackdatedRebalances io connected intents k = true.
Proof.
  induction intents as [|s0 rest IH]; intros k i signed p Hi Hv Hr Hb; [discriminate|].
  cbn [hasBackdatedRebalances]. destruct i as [|i].
  - rewrite Nat.add_0_r in Hv. rewrite Hv, Hr, Hb. reflexivity.
  - assert (Hrest : hasBackdatedRebalances io connected rest (S k) = true).
    { apply (IH (S k) i signed p); try assumption.
      replace (S k + i)%nat with (k + S i)%nat by lia. exact Hv. }
    rewrite Hrest. destruct (verifyIntent io Detection k) as [q|]; [|reflexivity].
    destruct (isRebalance q && rawBefore (intentTimestamp q) connected); reflexivity.
Qed.

(** X23. The detection of backdated intents compares the raw timestamp
    with the connection time in milliseconds, while the admission check
    first converts a timestamp below 10^10 from seconds: a REBALANCE
    intent stamped in seconds after the daemon connected is fresh for the
    admission check and backdated for the detection, which therefore
    pauses auto-rebalancing. *)
Theorem seconds_timestamp_counts_as_backdated (io : Intake) (connected n : Z)
    (intents : list SignedIntent) (i : nat) (signed : SignedIntent) (p : Payload) :
  intents !! i = Some signed ->
  verifyIntent io Detection i = Ok p ->
  isRebalance p = true ->
  intentTimestamp p = NumberTimestamp n ->
  n < 10000000000 <= connected ->
  connected <= n * 1000 ->
  normalisedBefore (intentTimestamp p) connected = false
  /\ hasBackdatedRebalances io connected intents 0 = true.
Proof.
  intros Hi Hv Hr Hts Hn Hfresh. split.
  - rewrite Hts. unfold normalisedBefore, normalise.
    destruct (Z.ltb_spec n 10000000000); [|lia].
    apply Z.ltb_ge. exact Hfresh.
  - apply (hasBackdatedRebalances_found io connected intents 0 i signed p);
      try assumption.
    rewrite Hts. cbn [rawBefore]. apply Z.ltb_lt. lia.
Qed.

End IntakeFacts.

Section IntakeWitnesses.
Import IntentIntake IntakeScenarios.

Lemma queued_intents_passed_every_check_witness :
  (intake Scenarios.verifier (answers [freshRebalance; withdrawal]) connectedDaemon
          (Some automatic) (signedIntents 2)).1
  = Ok [Queued freshRebalance; Queued withdrawal]
  /\ exists i signed,
       signedIntents 2 !! i = Some signed
       /\ verifyIntent (answers [freshRebalance; withdrawal]) Admission i
          = Ok freshRebalance
       /\ IntentVerifier.accepted
            (IntentVerifier.validatePolicy Scenarios.verifier
               (hourAt (answers [freshRebalance; withdrawal]) i)
               (policyFields freshRebalance) (Some automatic)) = true
       /\ (isRebalance freshRebalance = true ->
           exists inForce,
             Some automatic = Some inForce
             /\ autoRebalancing inForce = true
             /\ forall connected,
                  connectedAt connectedDaemon = Some connected ->
                  normalisedBefore (intentTimestamp freshRebalance) connected = true ->
                  executeBackdatedRebalances (answers [freshRebalance; withdrawal]) i
                  = true).
Proof.
  split; [vm_compute; reflexivity|].
  apply (queued_intents_passed_every_check Scenarios.verifier
           (answers [freshRebalance; withdrawal]) connectedDaemon (Some automatic)
           (signedIntents 2) [Queued freshRebalance; Queued withdrawal]).
  - vm_compute. reflexivity.
  - left. reflexivity.
Defined.

Lemma auto_pause_rejects_the_batch_witness :
  (exists steps,
      (intake Scenarios.verifier (answers [staleRebalance; withdrawal]) connectedDaemon
              (Some automatic) (signedIntents 2)).1
      = Ok (PolicyUpdated (pause automatic) :: steps)
      /\ queued steps = []
      /\ steps !! 1%nat = Some (Rejected "intent-w" PolicyValidationFailed))
  /\ backdatedIntentsDetected
       (intake Scenarios.verifier (readOnly [staleRebalance; withdrawal]) connectedDaemon
               (Some automatic) (signedIntents 2)).2 = true.
Proof.
  split.
  - destruct (auto_pause_rejects_the_batch Scenarios.verifier
                (answers [staleRebalance; withdrawal]) connectedDaemon automatic
                (signedIntents 2) 1700000000000)
      as (_ & _ & H); try reflexivity.
    destruct (H eq_refl) as (steps & Hs & Hq & _ & Hr).
    exists steps. split; [exact Hs|]. split; [exact Hq|].
    apply (Hr 1%nat {| signedIntentId := None |} withdrawal); reflexivity.
  - apply (auto_pause_rejects_the_batch Scenarios.verifier
             (readOnly [staleRebalance; withdrawal]) connectedDaemon automatic
             (signedIntents 2) 1700000000000); reflexivity.
Defined.

Lemma seconds_timestamp_counts_as_backdated_witness :
  normalisedBefore (intentTimestamp secondsRebalance) 1700000000000 = false
  /\ hasBackdatedRebalances (answers [secondsRebalance]) 1700000000000
       (signedIntents 1) 0 = true.
Proof.
  apply (seconds_timestamp_counts_as_backdated (answers [secondsRebalance])
           1700000000000 1700000500 (signedIntents 1) 0
           {| signedIntentId := None |} secondsRebalance);
    try reflexivity; lia.
Defined.

End IntakeWitnesses.

(** * The activity log, the RPC fallback, the configuration and the event stream *)

Section RingBuffer.

Import BoundedQueue.

Context {A : Type}.

Lemma pushBounded_fold bound (xs l : list A) :
  (length l <= bound)%nat ->
  fold_left (pushBounded bound) xs l
  = drop (length (l ++ xs) - bound) (l ++ xs)%list.
Proof.
  revert l. induction xs as [|x xs IH]; intros l Hl.
  - cbn [fold_left]. rewrite app_nil_r.
    replace (length l - bound)%nat with 0%nat by lia. reflexivity.
  - cbn [fold_left]. unfold pushBounded at 2.
    destruct (Nat.ltb_spec bound (length (l ++ [x]))) as [Hlt|Hge].
    + rewrite length_app in Hlt. cbn [length] in Hlt.
      destruct l as [|y l].
      { cbn [app tail length] in *. rewrite IH by (cbn [length]; lia).
        cbn [app length]. replace bound with 0%nat by lia.
        rewrite !Nat.sub_0_r. reflexivity. }
      cbn [app tail]. cbn [length] in Hl, Hlt.
      rewrite IH by (rewrite length_app; cbn [length]; lia).
      rewrite <- app_assoc. cbn [app].
      rewrite !length_app. cbn [length]. rewrite length_app. cbn [length].
      replace (S (length l + S (length xs)) - bound)%nat
        with (S (length l + S (length xs) - bound))%nat by lia.
      reflexivity.
    + rewrite IH by exact Hge.
      rewrite <- app_assoc. reflexivity.
Qed.

End RingBuffer.

Section ActivityLogFacts.

Import ActivityLog BoundedQueue.

(** X24. The activity log is a window over the calls of [log]: after any
    number of calls on an empty log it holds the entries of the last 200
    calls, oldest first, and nothing else. *)
Theorem activity_log_keeps_last_200 (calls : list LogCall) :
  fold_left log calls []
  = drop (length calls - maxLogs) (map entryOf calls).
Proof.
  pose proof (pushBounded_fold maxLogs (map entryOf calls) []) as H.
  cbn [app length] in H. rewrite length_map in H.
  rewrite <- H by lia. clear H.
  generalize (@nil LogEntry).
  induction calls as [|c calls IH]; intros l; [reflexivity|].
  cbn [fold_left map]. rewrite IH. reflexivity.
Qed.

End ActivityLogFacts.

Section RpcFallbackFacts.

Import RpcFallback.

Lemma probe_first responds rpcs k :
  match probe responds k rpcs with
  | Ok rpcUrl =>
      exists i : nat,
        rpcs !! i = Some rpcUrl
        /\ responds (k + i)%nat rpcUrl = true
        /\ forall (j : nat) (earlier : string),
             (j < i)%nat -> rpcs !! j = Some earlier ->
             responds (k + j)%nat earlier = false
  | Throw e =>
      e = "All RPC endpoints failed"
      /\ forall (j : nat) (rpcUrl : string),
           rpcs !! j = Some rpcUrl -> responds (k + j)%nat rpcUrl = false
  end.
Proof.
  revert k. induction rpcs as [|rpcUrl rest IH]; intros k.
  - cbn [probe]. split; [reflexivity|]. intros j u H. discriminate H.
  - cbn [probe]. destruct (responds k rpcUrl) eqn:E.
    + exists 0%nat. rewrite Nat.add_0_r. repeat split; [exact E|].
      intros j earlier Hj. lia.
    + specialize (IH (S k)). destruct (probe responds (S k) rest) as [u|e].
      * destruct IH as (i & Hi & Hr & Hfirst). exists (S i).
        replace (k + S i)%nat with (S k + i)%nat by lia.
        repeat split; [exact Hi|exact Hr|].
        intros [|j] earlier Hj Hl.
        -- cbn in Hl. injection Hl as <-. rewrite Nat.add_0_r. exact E.
        -- replace (k + S j)%nat with (S k + j)%nat by lia.
           apply Hfirst; [lia|exact Hl].
      * destruct IH as (-> & Hall). split; [reflexivity|].
        intros [|j] u Hl.
        -- cbn in Hl. injection Hl as <-. rewrite Nat.add_0_r. exact E.
        -- replace (k + S j)%nat with (S k + j)%nat by lia.
           apply Hall. exact Hl.
Qed.

(** X25. When [getProviderWithFallback] returns a provider, it is that of
    the first endpoint of the list (the primary one, if given, then the
    public ones, in order) whose probe answered: every endpoint before it
    was probed and failed. *)
Theorem fallback_picks_first_responding responds primaryRpc rpcUrl :
  getProviderWithFallback responds primaryRpc = Ok rpcUrl ->
  exists i : nat,
    rpcList primaryRpc !! i = Some rpcUrl
    /\ responds i rpcUrl = true
    /\ forall (j : nat) (earlier : string),
         (j < i)%nat -> rpcList primaryRpc !! j = Some earlier ->
         responds j earlier = false.
Proof.
  unfold getProviderWithFallback. intros H.
  pose proof (probe_first responds (rpcList primaryRpc) 0) as P.
  rewrite H in P. exact P.
Qed.

(** X26. [getProviderWithFallback] throws only after every endpoint of
    the list has been probed and has failed; the error is then 'All RPC
    endpoints failed'. *)
Theorem fallback_throws_only_when_all_fail responds primaryRpc e :
  getProviderWithFallback responds primaryRpc = Throw e ->
  e = "All RPC endpoints failed"
  /\ forall (j : nat) (rpcUrl : string),
       rpcList primaryRpc !! j = Some rpcUrl -> responds j rpcUrl = false.
Proof.
  unfold getProviderWithFallback. intros H.
  pose proof (probe_first responds (rpcList primaryRpc) 0) as P.
  rewrite H in P. exact P.
Qed.

Lemma fallback_picks_first_responding_witness :
  exists i : nat,
    rpcList (Some "https://rpc.example.org") !! i = Some "https://sonic.drpc.org"
    /\ Nat.eqb i 1 = true
    /\ forall (j : nat) (earlier : string),
         (j < i)%nat ->
         rpcList (Some "https://rpc.example.org") !! j = Some earlier ->
         Nat.eqb j 1 = false.
Proof.
  apply (fallback_picks_first_responding (fun k _ => Nat.eqb k 1)
           (Some "https://rpc.example.org") "https://sonic.drpc.org").
  reflexivity.
Defined.

Lemma fallback_throws_only_when_all_fail_witness :
  "All RPC endpoints failed" = "All RPC endpoints failed"
  /\ forall (j : nat) (rpcUrl : string),
       rpcList None !! j = Some rpcUrl -> false = false.
Proof.
  apply (fallback_throws_only_when_all_fail (fun _ _ => false) None
           "All RPC endpoints failed").
  reflexivity.
Defined.

End RpcFallbackFacts.

Section DaemonConfigFacts.

Import DaemonConfig.

Lemma Qltb_ge a b : IntentVerifier.Qltb a b = false -> (b <= a)%Q.
Proof.
  unfold IntentVerifier.Qltb. rewrite negb_false_iff.
  apply Qle_bool_iff.
Qed.

Lemma outside_inside x lo hi current :
  outside x lo hi = false ->
  (lo <= merged current (Some x) <= hi)%Q.
Proof.
  destruct x as [x|]; cbn [outside merged]; [|discriminate].
  intros H. apply orb_false_iff in H as [H1 H2].
  split; apply Qltb_ge; assumption.
Qed.

Lemma updateConfig_withinLimits config updates written newConfig :
  withinLimits config ->
  updateConfig config updates written = Ok newConfig ->
  withinLimits newConfig.
Proof.
  intros (Hs & Hw & Hm). unfold updateConfig.
  destruct updates as [us uw um]. cbn [newSlippage newSwapSlippage newMinDeploymentUsd].
  intros H.
  assert (H1 : (100 # 1 <= merged (slippage config) us <= 5000 # 1)%Q).
  { destruct us as [x|]; [|exact Hs].
    destruct (outside x (100 # 1) (5000 # 1)) eqn:E; [discriminate H|].
    exact (outside_inside _ _ _ _ E). }
  assert (H2 : (5 # 100 <= merged (swapSlippage config) uw <= 5 # 1)%Q).
  { destruct us as [x|]; [destruct (outside x (100 # 1) (5000 # 1)); [discriminate H|]|];
    (destruct uw as [y|]; [|exact Hw]);
    (destruct (outside y (5 # 100) (5 # 1)) eqn:E; [discriminate H|]);
    exact (outside_inside _ _ _ _ E). }
  assert (H3 : (1 # 10 <= merged (minDeploymentUsd config) um <= 10 # 1)%Q).
  { destruct us as [x|]; [destruct (outside x (100 # 1) (5000 # 1)); [discriminate H|]|];
    (destruct uw as [y|]; [destruct (outside y (5 # 100) (5 # 1)); [discriminate H|]|]);
    (destruct um as [z|]; [|exact Hm]);
    (destruct (outside z (1 # 10) (10 # 1)) eqn:E; [discriminate H|]);
    exact (outside_inside _ _ _ _ E). }
  destruct us as [x|]; [destruct (outside x (100 # 1) (5000 # 1)); [discriminate H|]|];
  (destruct uw as [y|]; [destruct (outside y (5 # 100) (5 # 1)); [discriminate H|]|]);
  (destruct um as [z|]; [destruct (outside z (1 # 10) (10 # 1)); [discriminate H|]|]);
  destruct written; try discriminate H;
  cbn in H; injection H as <-; repeat split; cbn [slippage swapSlippage minDeploymentUsd];
  first [apply H1 | apply H2 | apply H3].
Qed.

(** X27. No series of [updateConfig] calls takes a setting out of its
    limits: starting from a configuration within them (slippage 100 to
    5000, swap slippage 0.05 to 5, minimum deployment 0.1 to 10), the
    cached configuration stays within them, refused and failed updates
    leaving it as it was. *)
Theorem config_stays_within_limits config requests :
  withinLimits config ->
  withinLimits (applyUpdates config requests).
Proof.
  revert config. induction requests as [|[updates written] rest IH]; intros config H.
  - exact H.
  - cbn [applyUpdates].
    destruct (updateConfig config updates written) as [newConfig|e] eqn:E.
    + apply IH. exact (updateConfig_withinLimits _ _ _ _ H E).
    + apply IH. exact H.
Qed.

Lemma config_stays_within_limits_witness :
  withinLimits
    (applyUpdates DEFAULT_CONFIG
       [ ({| newSlippage := Some (Some (500 # 1)); newSwapSlippage := None;
             newMinDeploymentUsd := None |}, Ok tt);
         ({| newSlippage := None; newSwapSlippage := Some (Some (50 # 1));
             newMinDeploymentUsd := None |}, Ok tt);
         ({| newSlippage := None; newSwapSlippage := None;
             newMinDeploymentUsd := Some None |}, Ok tt) ]).
Proof.
  apply config_stays_within_limits.
  unfold withinLimits, DEFAULT_CONFIG, Qle. cbn. lia.
Defined.

End DaemonConfigFacts.

Section EventStreamFacts.

Import PlatformEventStream BoundedQueue.

Context {Event : Type}.

Lemma flush_conserves socket k (pending sent : list Event) :
  (forall j : nat, socket j <> NotOpen) ->
  let '(pending', sent') := flush Event socket k pending sent in
  (sent' ++ pending' = sent ++ pending)%list.
Proof.
  intros Hopen. revert k sent.
  induction pending as [|event rest IH]; intros k sent.
  - reflexivity.
  - cbn [flush]. destruct (socket k) eqn:E.
    + exfalso. exact (Hopen k E).
    + specialize (IH (S k) (sent ++ [event])%list).
      destruct (flush Event socket (S k) rest (sent ++ [event])) as [p s'].
      rewrite IH, <- app_assoc. reflexivity.
    + reflexivity.
Qed.

(** X28. While the socket is open, [flushPendingEvents] neither loses nor
    reorders events: the events delivered so far followed by those still
    queued are the same sequence before and after, wherever a send throws. *)
Theorem flush_neither_loses_nor_reorders socket (s : Stream Event) :
  (forall j : nat, socket j <> NotOpen) ->
  (delivered _ (flushPendingEvents _ socket s)
     ++ pendingEvents _ (flushPendingEvents _ socket s)
   = delivered _ s ++ pendingEvents _ s)%list.
Proof.
  intros Hopen. unfold flushPendingEvents.
  pose proof (flush_conserves socket 0 (pendingEvents _ s) (delivered _ s) Hopen) as H.
  destruct (flush Event socket 0 (pendingEvents _ s) (delivered _ s)) as [p d].
  exact H.
Qed.

Lemma flush_all_sent socket k (pending sent : list Event) :
  (forall j : nat, socket j = Sends) ->
  flush Event socket k pending sent = ([], (sent ++ pending)%list).
Proof.
  intros Hs. revert k sent. induction pending as [|event rest IH]; intros k sent.
  - cbn [flush]. rewrite app_nil_r. reflexivity.
  - cbn [flush]. rewrite Hs, IH, <- app_assoc. reflexivity.
Qed.

Lemma emit_offline_fold (events : list (Socket * Event)) (s : Stream Event) :
  enabled _ s = true ->
  Forall (fun se => se.1 <> Sends) events ->
  let s' := fold_left (fun s se => emit _ se.1 se.2 s) events s in
  enabled _ s' = true
  /\ delivered _ s' = delivered _ s
  /\ pendingEvents _ s'
     = fold_left (pushBounded maxPendingEvents) (map snd events) (pendingEvents _ s).
Proof.
  intros He Hall. revert s He.
  induction Hall as [|[socket event] rest Hne Hrest IH]; intros s He.
  - cbn. auto.
  - cbn [fold_left map snd fst].
    assert (Hq : emit _ socket event s = queueEvent _ event s).
    { unfold emit. rewrite He. cbn [negb].
      destruct socket; try reflexivity. exfalso. apply Hne. reflexivity. }
    cbn [fst snd] in *. rewrite Hq.
    specialize (IH (queueEvent _ event s) He).
    cbn zeta in IH. destruct IH as (E1 & E2 & E3).
    repeat split; [exact E1|exact E2|]. rewrite E3. reflexivity.
Qed.

(** X29. Events emitted while no send succeeds are delivered on
    reconnection in the order they were emitted, but only the last 100 of
    them: on an enabled stream with an empty queue, emitting [events] with
    the socket closed or throwing and then flushing over a working socket
    delivers exactly the last 100 and leaves the queue empty. *)
Theorem offline_events_are_delivered_in_order
    (events : list (Socket * Event)) (working : nat -> Socket) (s : Stream Event) :
  enabled _ s = true ->
  pendingEvents _ s = [] ->
  Forall (fun se => se.1 <> Sends) events ->
  (forall j : nat, working j = Sends) ->
  let s' := flushPendingEvents _ working
              (fold_left (fun s se => emit _ se.1 se.2 s) events s) in
  pendingEvents _ s' = []
  /\ delivered _ s'
     = (delivered _ s
        ++ drop (length events - maxPendingEvents) (map snd events))%list.
Proof.
  intros He Hp Hall Hw.
  destruct (emit_offline_fold events s He Hall) as (_ & Hd & Hq).
  cbn zeta. unfold flushPendingEvents.
  rewrite flush_all_sent by exact Hw. cbn [pendingEvents delivered].
  split; [reflexivity|]. rewrite Hd, Hq, Hp.
  rewrite pushBounded_fold by (cbn; lia).
  cbn [app]. rewrite length_map. reflexivity.
Qed.

Lemma reconnectDelays_nth n : forall (d : Z) (k : nat),
  0 < d <= maxReconnectDelay -> (k < n)%nat ->
  reconnectDelays n d !! k = Some (Z.min (d * 2 ^ Z.of_nat k) maxReconnectDelay).
Proof.
  induction n as [|n IH]; intros d k Hd Hk; [lia|].
  cbn [reconnectDelays scheduleReconnect].
  destruct k as [|k].
  - cbn. f_equal. change (2 ^ Z.of_nat 0) with 1. lia.
  - change ((d :: reconnectDelays n (Z.min (d * 2) maxReconnectDelay)) !! S k)
      with (reconnectDelays n (Z.min (d * 2) maxReconnectDelay) !! k).
    rewrite IH by (unfold maxReconnectDelay in *; lia).
    f_equal. rewrite Nat2Z.inj_succ, Z.pow_succ_r by lia.
    assert (Hp : 1 <= 2 ^ Z.of_nat k) by (apply Z.pow_le_mono_r with (b := 0) (c := Z.of_nat k) (a := 2); lia).
    unfold maxReconnectDelay in *.
    destruct (Z.min_spec (d * 2) 60000) as [[H1 ->]|[H1 ->]]; [f_equal; ring|].
    rewrite !Z.min_r; nia.
Qed.

End EventStreamFacts.

Section EventStreamWitnesses.

Import PlatformEventStream StreamScenarios.

Lemma flush_neither_loses_nor_reorders_witness :
  (delivered _ (flushPendingEvents _ throwsSecond halfSent)
     ++ pendingEvents _ (flushPendingEvents _ throwsSecond halfSent)
   = [1; 2; 3; 4]%nat)%list.
Proof.
  apply (flush_neither_loses_nor_reorders throwsSecond halfSent).
  intros j. unfold throwsSecond. destruct (Nat.eqb j 1); discriminate.
Defined.

Lemma offline_events_are_delivered_in_order_witness :
  pendingEvents _
    (flushPendingEvents _ (fun _ => Sends)
       (fold_left (fun s se => emit _ se.1 se.2 s)
          [(NotOpen, 2%nat); (SendThrows, 3%nat)] idle)) = []
  /\ delivered _
       (flushPendingEvents _ (fun _ => Sends)
          (fold_left (fun s se => emit _ se.1 se.2 s)
             [(NotOpen, 2%nat); (SendThrows, 3%nat)] idle)) = [1; 2; 3]%nat.
Proof.
  apply (offline_events_are_delivered_in_order
           [(NotOpen, 2%nat); (SendThrows, 3%nat)] (fun _ => Sends) idle).
  - reflexivity.
  - reflexivity.
  - repeat constructor; discriminate.
  - reflexivity.
Defined.

End EventStreamWitnesses.

Section Backoff.

Import PlatformEventStream.

(** X30. Reconnection backs off exponentially up to one minute: of any
    run of [scheduleReconnect] calls that starts from the initial delay
    of 5 s, the [k]-th (counting from 0) arms a timer of
    min(5000 * 2^k, 60000) ms. *)
Theorem reconnect_backoff_doubles_to_a_minute (n k : nat) :
  (k < n)%nat ->
  reconnectDelays n 5000 !! k = Some (Z.min (5000 * 2 ^ Z.of_nat k) 60000).
Proof.
  intros Hk. apply (reconnectDelays_nth n 5000 k); [unfold maxReconnectDelay; lia|exact Hk].
Qed.

Lemma reconnect_backoff_doubles_to_a_minute_witness :
  reconnectDelays 6 5000 !! 4%nat = Some 60000.
Proof.
  apply (reconnect_backoff_doubles_to_a_minute 6 4). lia.
Defined.

End Backoff.
